(** * Triplit: a shallow embedding of [packages/db/src/db.ts]

    The development follows the TypeScript source function by function.
    JavaScript objects used as dictionaries are finite maps, [async]
    methods that read and write a transaction are state-passing
    computations that may throw, and the collaborators that [db.ts]
    imports from sibling modules ([./triple-store], [./schema],
    [./collection-query], [./document]) are either taken as an interface
    ([External]) or modelled from the specification, where it says enough. *)

From stdpp Require Import gmap strings list fin_maps sorting pretty.
From Stdlib Require Import ZArith Lia Ascii.

Set Warnings "-register-all".

Local Open Scope string_scope.
Local Open Scope list_scope.

(** ** JavaScript values *)

(** Numbers are modelled as integers plus [NaN]; the code only tests them
    for truthiness and strict equality. [JBuiltin] is a function or an
    object of the JavaScript runtime, by name: what every plain object
    inherits from [Object.prototype]. *)
Inductive JsValue : Type :=
  | JUndefined
  | JNull
  | JBool (b : bool)
  | JNum (n : Z)
  | JNaN
  | JStr (s : string)
  | JArr (xs : list JsValue)
  | JObj (fields : list (string * JsValue))
  | JBuiltin (name : string).

(** [!v] is [negb (truthy v)]. *)
Definition truthy (v : JsValue) : bool :=
  match v with
  | JUndefined | JNull | JNaN => false
  | JBool b => b
  | JNum n => negb (n =? 0)%Z
  | JStr s => negb (String.eqb s "")
  | JArr _ | JObj _ | JBuiltin _ => true
  end.

(** [s.startsWith(p)] *)
Fixpoint startsWith (s p : string) {struct p} : bool :=
  match p, s with
  | EmptyString, _ => true
  | String c p', String d s' => Ascii.eqb c d && startsWith s' p'
  | String _ _, EmptyString => false
  end.

(** [s.slice(1)] *)
Definition slice1 (s : string) : string :=
  match s with
  | EmptyString => EmptyString
  | String _ r => r
  end.

(** [s.includes(c)] for a one-character needle. *)
Fixpoint includes (s : string) (c : Ascii.ascii) : bool :=
  match s with
  | EmptyString => false
  | String d r => Ascii.eqb d c || includes r c
  end.

(** [s.split(sep)] for a one-character separator: always at least one
    segment, as in JavaScript. *)
Fixpoint split (sep : Ascii.ascii) (s : string) : list string :=
  match s with
  | EmptyString => [EmptyString]
  | String c r =>
      if Ascii.eqb c sep then EmptyString :: split sep r
      else match split sep r with
           | [] => [String c EmptyString]
           | seg :: segs => String c seg :: segs
           end
  end.

(** [parts.join(sep)] *)
Fixpoint join (sep : string) (parts : list string) : string :=
  match parts with
  | [] => EmptyString
  | [p] => p
  | p :: ps => p +:+ sep +:+ join sep ps
  end.

(** ** Errors ([./errors]) *)

(** The error classes that [db.ts] imports, together with the built-in
    [Error] that it constructs directly. *)
Inductive TriplitError : Type :=
  | EntityNotFoundError (entityId collectionName message : string)
  | InvalidEntityIdError (entityId message : string)
  | InvalidInternalEntityIdError (message : string)
  | InvalidMigrationOperationError (message : string)
  | SessionVariableNotFoundError (variableName : string)
  | WriteRuleError (message : string)
  | JsError (message : string).

(** [true] for the typed errors of [./errors], [false] for a bare [Error]. *)
Definition isTriplitError (e : TriplitError) : bool :=
  match e with
  | JsError _ => false
  | _ => true
  end.

(** ** Computations that thread a state and may throw *)

(** A thrown exception keeps the state reached so far: JavaScript does not
    roll back mutations when it unwinds. *)
Definition Eff (S A : Type) : Type := S -> (TriplitError + A) * S.

Definition ret {S A} (a : A) : Eff S A := fun s => (inr a, s).
Definition throw {S A} (e : TriplitError) : Eff S A := fun s => (inl e, s).
Definition bind {S A B} (m : Eff S A) (k : A -> Eff S B) : Eff S B :=
  fun s => match m s with
           | (inr a, s') => k a s'
           | (inl e, s') => (inl e, s')
           end.
Definition gets {S A} (f : S -> A) : Eff S A := fun s => (inr (f s), s).
Definition modify {S} (f : S -> S) : Eff S unit := fun s => (inr tt, f s).

(** [try { m } catch (e) { handler(e) }] *)
Definition tryCatch {S A} (m : Eff S A) (handler : TriplitError -> Eff S A)
  : Eff S A :=
  fun s => match m s with
           | (inr a, s') => (inr a, s')
           | (inl e, s') => handler e s'
           end.

Notation "x <- c1 ;; c2" := (bind c1 (fun x => c2))
  (at level 100, c1 at next level, right associativity).
Notation "c1 ;;; c2" := (bind c1 (fun _ => c2))
  (at level 100, right associativity).

(** [for (const x of xs) { await body(x) }] *)
Fixpoint forEach {S A} (xs : list A) (body : A -> Eff S unit) : Eff S unit :=
  match xs with
  | [] => ret tt
  | x :: rest => body x ;;; forEach rest body
  end.

(** ** Queries ([./query]) *)

(** A where clause is a list of filters; a filter is either a statement
    [[path, op, value]] (an [Array]) or a group [{ mod, filters }]. *)
Inductive Filter : Type :=
  | FilterStatement (path op : string) (value : JsValue)
  | FilterGroup (mod_ : string) (filters : list Filter).

Definition QueryWhere : Type := list Filter.

Definition Variables : Type := gmap string JsValue.

(** The methods that a plain object inherits from [Object.prototype],
    besides [constructor] and the accessor [__proto__]. *)
Definition objectPrototypeMethods : list string :=
  ["__defineGetter__"; "__defineSetter__"; "hasOwnProperty";
   "__lookupGetter__"; "__lookupSetter__"; "isPrototypeOf";
   "propertyIsEnumerable"; "toString"; "valueOf"; "toLocaleString"].

(** [({})[name]]: what a property that is not an own property of a plain
    object reads as. *)
Definition inheritedProperty (name : string) : JsValue :=
  if String.eqb name "constructor" then JBuiltin "Object"
  else if String.eqb name "__proto__" then JBuiltin "Object.prototype"
  else if bool_decide (name ∈ objectPrototypeMethods)
       then JBuiltin ("Object.prototype." +:+ name)
  else JUndefined.

(** [variables[name]] on the plain object that the spread of the variables
    builds: an own property, or else what the object inherits; a name that
    is neither reads as [undefined]. *)
Definition getVariable (variables : Variables) (name : string) : JsValue :=
  match variables !! name with
  | Some v => v
  | None => inheritedProperty name
  end.

(** The body of the [map] callback of [replaceVariablesInFilterStatements],
    with the recursive call on a group's [filters] inlined. A group is an
    object that the callback rewrites in place ([filter.filters = ...]) and
    returns; a statement is an array that it leaves alone, returning a new
    one. So a call gives two things: the value returned or the exception
    thrown, and the filter that was passed as the call leaves it. When the
    call throws inside a group, the [filters] of that group are not
    assigned, but the groups below it that were done before are. *)
Fixpoint replaceVariablesInFilter (variables : Variables) (filter : Filter)
  : (TriplitError + Filter) * Filter :=
  match filter with
  | FilterGroup m filters =>
      let fix go (fs : list Filter)
        : (TriplitError + list Filter) * list Filter :=
        match fs with
        | [] => (inr [], [])
        | f :: rest =>
            match replaceVariablesInFilter variables f with
            | (inl e, f1) => (inl e, f1 :: rest)
            | (inr f', f1) =>
                match go rest with
                | (inl e, rest1) => (inl e, f1 :: rest1)
                | (inr rest', rest1) => (inr (f' :: rest'), f1 :: rest1)
                end
            end
        end in
      match go filters with
      | (inl e, filters1) => (inl e, FilterGroup m filters1)
      | (inr filters', _) =>
          (inr (FilterGroup m filters'), FilterGroup m filters')
      end
  | FilterStatement path op value =>
      (match value with
       | JStr s =>
           if startsWith s "$" then
             let varValue := getVariable variables (slice1 s) in
             if truthy varValue then inr (FilterStatement path op varValue)
             else inl (SessionVariableNotFoundError s)
           else inr filter
       | _ => inr filter
       end,
       filter)
  end.

(** [statements.map(...)]: the first statement that throws ends the map.
    The array returned is new; the second component is the array that was
    passed, whose groups the calls have rewritten. *)
Fixpoint replaceVariablesInFilterStatements
  (statements : QueryWhere) (variables : Variables)
  : (TriplitError + QueryWhere) * QueryWhere :=
  match statements with
  | [] => (inr [], [])
  | f :: rest =>
      match replaceVariablesInFilter variables f with
      | (inl e, f1) => (inl e, f1 :: rest)
      | (inr f', f1) =>
          match replaceVariablesInFilterStatements rest variables with
          | (inl e, rest1) => (inl e, f1 :: rest1)
          | (inr rest', rest1) => (inr (f' :: rest'), f1 :: rest1)
          end
      end
  end.

(** The part of a [CollectionQuery] that [db.ts] reads. *)
Record CollectionQuery : Type := {
  collectionName : option string;
  where_ : QueryWhere;
  vars : option Variables;
}.

(** [{ ...(this.variables ?? {}), ...(query.vars ?? {}) }]: the query's
    variables shadow those of the handle. *)
Definition mergeVariables (variables : option Variables)
  (queryVars : option Variables) : Variables :=
  default ∅ queryVars ∪ default ∅ variables.

(** [replaceVariablesInQuery(query)] of both classes: the query returned
    or the exception thrown, and the query that was passed as the call
    leaves it (the groups of its [where] are rewritten). *)
Definition replaceVariablesInQuery (variables : option Variables)
  (query : CollectionQuery)
  : (TriplitError + CollectionQuery) * CollectionQuery :=
  let '(result, where1) :=
    replaceVariablesInFilterStatements (where_ query)
      (mergeVariables variables (vars query)) in
  (match result with
   | inl e => inl e
   | inr where' =>
       inr {| collectionName := collectionName query;
              where_ := where';
              vars := vars query |}
   end,
   {| collectionName := collectionName query; where_ := where1;
      vars := vars query |}).

(** ** Entity ids *)

Definition ID_SEPARATOR : Ascii.ascii := "#"%char.

Definition validateExternalId (id : string) : option TriplitError :=
  if includes id ID_SEPARATOR
  then Some (InvalidEntityIdError id "Id cannot include #.")
  else None.

Definition appendCollectionToId (collectionName id : string) : string :=
  collectionName +:+ String ID_SEPARATOR id.

(** [splitIdParts(id)]: the two parts around the separator, or
    [InvalidInternalEntityIdError] when there are not exactly two. *)
Definition splitIdParts (id : string) : TriplitError + (string * string) :=
  match split ID_SEPARATOR id with
  | [collectionPart; idPart] => inr (collectionPart, idPart)
  | _ =>
      inl (InvalidInternalEntityIdError
             ("Malformed ID: " +:+ id
              +:+ " should only include one separator(#)"))
  end.

Definition stripCollectionFromId (id : string) : TriplitError + string :=
  match splitIdParts id with
  | inl e => inl e
  | inr (_, entityId) => inr entityId
  end.

(** ** Migrations *)

Inductive Direction : Type := Up | Down.

Inductive AttributeItem : Type :=
  | AStr (s : string)
  | ANum (n : Z).

Definition Attribute : Type := list AttributeItem.

(** [{ type: AttributeType }] *)
Record CollectionAttribute : Type := { attr_type : string }.

(** [{ filter, description? }] as written into the schema. *)
Record Rule : Type := {
  rule_filter : QueryWhere;
  rule_description : option string;
}.

Record CollectionRules : Type := {
  read : option (list Rule);
  write : option (list Rule);
}.

Inductive DBOperation : Type :=
  | create_collection (name : string)
      (attributes : list (string * CollectionAttribute))
      (rules : option CollectionRules)
  | drop_collection (name : string)
  | add_attribute (collection path : string) (attribute : CollectionAttribute)
  | drop_attribute (collection path : string)
  | rename_attribute (collection path newPath : string)
  | unknown_operation (tag : string).

Record Migration : Type := {
  up : list DBOperation;
  down : list DBOperation;
  version : Z;
  parent : Z;
}.

(** [migration[direction]] *)
Definition operationsOf (migration : Migration) (direction : Direction)
  : list DBOperation :=
  match direction with
  | Up => up migration
  | Down => down migration
  end.

Definition canMigrate (migration : Migration) (direction : Direction)
  (dbVersion : Z) : bool :=
  match direction with
  | Up => (parent migration =? dbVersion)%Z
  | Down => (version migration =? dbVersion)%Z
  end.

(** ** Decidable equality of values and rows *)

Fixpoint JsValue_eq_dec (a b : JsValue) {struct a} : Decision (a = b).
Proof.
  refine (match a, b with
  | JUndefined, JUndefined => left _
  | JNull, JNull => left _
  | JBool x, JBool y => cast_if (decide (x = y))
  | JNum x, JNum y => cast_if (decide (x = y))
  | JNaN, JNaN => left _
  | JStr x, JStr y => cast_if (decide (x = y))
  | JArr xs, JArr ys => cast_if (@list_eq_dec _ JsValue_eq_dec xs ys)
  | JObj xs, JObj ys =>
      cast_if (@list_eq_dec _ (@prod_eq_dec _ _ _ JsValue_eq_dec) xs ys)
  | JBuiltin x, JBuiltin y => cast_if (decide (x = y))
  | _, _ => right _
  end); congruence.
Defined.

#[global] Instance JsValue_EqDecision : EqDecision JsValue := JsValue_eq_dec.

#[global] Instance AttributeItem_EqDecision : EqDecision AttributeItem.
Proof. solve_decision. Defined.

#[global] Instance AttributeItem_Countable : Countable AttributeItem.
Proof.
  refine (inj_countable'
            (fun a => match a with AStr s => inl s | ANum n => inr n end)
            (fun x => match x with inl s => AStr s | inr n => ANum n end) _).
  intros [s | n]; reflexivity.
Defined.

(** ** [Map] with keys of any type *)

Section JsMap.
Context {K V : Type} `{EqDecision K}.

Fixpoint jsMapGet (k : K) (m : list (K * V)) : option V :=
  match m with
  | [] => None
  | (k', v) :: rest => if decide (k' = k) then Some v else jsMapGet k rest
  end.

Definition jsMapHas (k : K) (m : list (K * V)) : bool :=
  match jsMapGet k m with
  | Some _ => true
  | None => false
  end.

(** [Map.prototype.set]: an existing key keeps its place. *)
Fixpoint jsMapSet (k : K) (v : V) (m : list (K * V)) : list (K * V) :=
  match m with
  | [] => [(k, v)]
  | (k', v') :: rest =>
      if decide (k' = k) then (k, v) :: rest else (k', v') :: jsMapSet k v rest
  end.

End JsMap.

(** ** The triple store ([./triple-store]) *)

(** A hybrid timestamp [(tick, clientId)]. *)
Definition Timestamp : Type := (nat * string)%type.

Record TripleRow : Type := {
  id : string;
  attribute : Attribute;
  value : JsValue;
  timestamp : Timestamp;
  expired : bool;
}.

#[global] Instance TripleRow_EqDecision : EqDecision TripleRow.
Proof. solve_decision. Defined.

(** A metadata tuple [[entity, attribute, value]]. *)
Definition EAV : Type := (string * Attribute * JsValue)%type.

(** [{ read: string[], write: string[] }] *)
Record StorageScope : Type := {
  readScope : list string;
  writeScope : list string;
}.

(** What the key/value storages hold: the data triples of every configured
    storage scope, and the metadata tuples (the [_schema] namespace), a
    value per entity and attribute. *)
Record StoreData : Type := {
  storage : gmap string (list TripleRow);
  metadata : gmap (string * Attribute) JsValue;
}.

(** The metadata as a list of tuples. *)
Definition metadataTuples (md : gmap (string * Attribute) JsValue) : list EAV :=
  map_to_list md.

(** [arr.splice(start, deleteCount, ...items)], the array after the call. *)
Definition splice {A} (start deleteCount : nat) (items : list A) (l : list A)
  : list A :=
  take start l ++ items ++ drop (start + deleteCount) l.

(** Modelled from the spec: the transaction object of [./triple-store],
    which is not among the sources. It is the snapshot read at the start
    plus the staged writes ("reads within the same transaction see prior
    writes"); every write carries the one commit timestamp of the
    transaction; [cancel] drops the staged writes. *)
Module TripleStoreTransaction.

Record t : Type := {
  data : StoreData;
  snapshot : StoreData;
  scope : option StorageScope;
  commitTimestamp : Timestamp;
  canceled : bool;
}.

Definition setData (d : StoreData) (tx : t) : t :=
  {| data := d; snapshot := snapshot tx; scope := scope tx;
     commitTimestamp := commitTimestamp tx; canceled := canceled tx |}.

Definition setScope (sc : option StorageScope) (tx : t) : t :=
  {| data := data tx; snapshot := snapshot tx; scope := sc;
     commitTimestamp := commitTimestamp tx; canceled := canceled tx |}.

(** The triples that the transaction can read: those of the storages in
    its read scope, or of all storages when it has no scope. *)
Definition readTriples (tx : t) : list TripleRow :=
  match scope tx with
  | None => concat (map_to_list (storage (data tx))).*2
  | Some sc =>
      concat (omap (fun k => storage (data tx) !! k) (readScope sc))
  end.

(** Apply [f] to the triples of every storage in the write scope. *)
Definition writeTriples (f : list TripleRow -> list TripleRow) (tx : t) : t :=
  let inScope (k : string) : bool :=
    match scope tx with
    | None => true
    | Some sc => bool_decide (k ∈ writeScope sc)
    end in
  setData
    {| storage :=
         map_imap (fun k l => Some (if inScope k then f l else l))
                  (storage (data tx));
       metadata := metadata (data tx) |}
    tx.

Definition findByAttribute (attr : Attribute) (tx : t) : list TripleRow :=
  filter (fun row => attr `prefix_of` attribute row) (readTriples tx).

Definition findByEntity (entityId : string) (tx : t) : list TripleRow :=
  filter (fun row => id row = entityId) (readTriples tx).

Definition insertTriples (triples : list TripleRow) (tx : t) : t :=
  writeTriples (fun rows => list_union rows triples) tx.

Definition deleteTriples (triples : list TripleRow) (tx : t) : t :=
  writeTriples (fun rows => list_difference rows triples) tx.

Definition setValue (entityId : string) (attr : Attribute) (v : JsValue)
  (tx : t) : t :=
  insertTriples
    [ {| id := entityId; attribute := attr; value := v;
         timestamp := commitTimestamp tx; expired := false |} ] tx.

Definition readMetadataTuples (entityId : string) (attr : Attribute) (tx : t)
  : list EAV :=
  metadataTuples
    (filter (fun eav : EAV => eav.1.1 = entityId ∧ attr `prefix_of` eav.1.2)
            (metadata (data tx))).

Definition setMetadata (md : gmap (string * Attribute) JsValue) (tx : t) : t :=
  setData {| storage := storage (data tx); metadata := md |} tx.

Definition deleteMetadataTuples (deletes : list (string * Attribute)) (tx : t)
  : t :=
  setMetadata (foldl (fun md key => delete key md) (metadata (data tx)) deletes)
              tx.

(** Each tuple is stored under its entity and attribute, replacing the
    value that was there. *)
Definition updateMetadataTuples (updates : list EAV) (tx : t) : t :=
  setMetadata
    (foldl (fun md (eav : EAV) => <[eav.1 := eav.2]> md) (metadata (data tx))
           updates)
    tx.

Definition withScope {A} (sc : StorageScope) (m : Eff t A) : Eff t A :=
  fun tx =>
    let '(r, tx') := m (setScope (Some sc) tx) in
    (r, setScope (scope tx) tx').

Definition cancel : Eff t unit :=
  modify (fun tx =>
    {| data := snapshot tx; snapshot := snapshot tx; scope := scope tx;
       commitTimestamp := commitTimestamp tx; canceled := true |}).

(** [Object.keys(tx.tupleTx.store.storage)] *)
Definition storageKeys (tx : t) : list string :=
  (map_to_list (storage (data tx))).*1.

End TripleStoreTransaction.

(** Modelled from the spec: the store of [./triple-store], which is not
    among the sources. [transact] "opens a transaction and passes it to the
    callback; on clean return the transaction commits; on throw it is
    cancelled and the exception re-raised"; it resolves to the commit
    timestamp, which the logical clock makes strictly monotone. *)
Module TripleStore.

Record t : Type := {
  data : StoreData;
  clock : nat;
  clientId : string;
}.

Definition begin (scope : option StorageScope) (store : t)
  : TripleStoreTransaction.t :=
  {| TripleStoreTransaction.data := data store;
     TripleStoreTransaction.snapshot := data store;
     TripleStoreTransaction.scope := scope;
     TripleStoreTransaction.commitTimestamp :=
       (S (clock store), clientId store);
     TripleStoreTransaction.canceled := false |}.

Definition commit (tx : TripleStoreTransaction.t) (store : t) : t :=
  {| data := TripleStoreTransaction.data tx;
     clock := S (clock store);
     clientId := clientId store |}.

Definition transact {A} (callback : Eff TripleStoreTransaction.t A)
  (scope : option StorageScope) : Eff t Timestamp :=
  fun store =>
    match callback (begin scope store) with
    | (inr _, tx) =>
        (inr (TripleStoreTransaction.commitTimestamp tx), commit tx store)
    | (inl e, _) => (inl e, store)
    end.

(** A write on the store itself is a transaction of its own. *)
Definition updateMetadataTuples (updates : list EAV) : Eff t unit :=
  transact (modify (TripleStoreTransaction.updateMetadataTuples updates))
           None ;;; ret tt.

Definition findByEntity (entityId : string) (store : t) : list TripleRow :=
  TripleStoreTransaction.findByEntity entityId (begin None store).

End TripleStore.

(** ** Schemas as [db.ts] reads them ([./schema]) *)

(** A collection's entry in the schema; [{}] has neither field. *)
Record CollectionSchema : Type := {
  attributes : option (gmap string CollectionAttribute);
  rules : option CollectionRules;
}.

Definition emptyCollectionSchema : CollectionSchema :=
  {| attributes := None; rules := None |}.

Record StoreSchema : Type := {
  schemaVersion : option Z;
  collections : gmap string CollectionSchema;
}.

(** The node that [getSchemaFromPath] finds for an attribute. *)
Record AttributeSchema : Type := { x_crdt_type : option string }.

(** ** Collaborators imported by [db.ts]

    Functions of sibling modules whose code is not among the sources. The
    functions of [db.ts] are defined against this interface and the
    theorems hold for every implementation of it. *)
Class External : Type := {
  (** [readSchema()] of [./triple-store], as a function of the metadata
      tuples. *)
  readSchema : list EAV -> option StoreSchema;
  (** [getSchemaFromPath(schema, path)] of [./schema]. *)
  getSchemaFromPath : CollectionSchema -> list string -> option AttributeSchema;
  (** [doesEntityObjMatchWhere(entity, where, schema)] of
      [./collection-query]. *)
  doesEntityObjMatchWhere :
    JsValue -> QueryWhere -> option CollectionSchema -> bool;
  (** [timestampedObjectToPlainObject] and [objectToTimestampedObject] of
      [./schema]. *)
  timestampedObjectToPlainObject : JsValue -> JsValue;
  objectToTimestampedObject : JsValue -> JsValue;
  (** The reduction inside [getEntity] of [./triple-store]: the triples of
      one entity id to a timestamped object, or a falsy value when there
      is no entity. *)
  constructEntity : list TripleRow -> JsValue;
  (** The triples that [Document.insert(tx, id, doc, collectionName)]
      writes at the transaction's timestamp. *)
  documentTriples : string -> JsValue -> string -> Timestamp -> list TripleRow;
  (** [nanoid()], as a function of the number of ids drawn so far. *)
  nanoid : nat -> string;
  (** The string that a template literal interpolates for a value. *)
  templateString : JsValue -> string;
}.

(** [Array.prototype.flatMap] over the rules' filters. *)
Definition ruleFilters (rs : list Rule) : QueryWhere :=
  flat_map rule_filter rs.

(** [schema?.rules?.read] *)
Definition readRulesOf (schema : option CollectionSchema) : option (list Rule) :=
  (schema ≫= rules) ≫= read.

(** [schema?.rules?.write] *)
Definition writeRulesOf (schema : option CollectionSchema) : option (list Rule) :=
  (schema ≫= rules) ≫= write.

(** [Map.prototype.set]: an existing key keeps its place. *)
Fixpoint mapSet (k : string) (v : JsValue) (m : list (string * JsValue))
  : list (string * JsValue) :=
  match m with
  | [] => [(k, v)]
  | (k', v') :: rest =>
      if String.eqb k' k then (k, v) :: rest else (k', v') :: mapSet k v rest
  end.

(** The entry of a key in a [Map]. *)
Fixpoint mapLookup (k : string) (m : list (string * JsValue)) : option JsValue :=
  match m with
  | [] => None
  | (k', v) :: rest => if String.eqb k' k then Some v else mapLookup k rest
  end.

(** [Map.prototype.has] *)
Definition mapHas (k : string) (m : list (string * JsValue)) : bool :=
  match mapLookup k m with
  | Some _ => true
  | None => false
  end.

(** [Map.prototype.get]: [undefined] for a missing key. *)
Definition mapGet (k : string) (m : list (string * JsValue)) : JsValue :=
  default JUndefined (mapLookup k m).

(** The [Map<string, any>] in which the update proxy records changes. *)
Definition ChangeTracker : Type := list (string * JsValue).

Definition liftE {S A} (r : TriplitError + A) : Eff S A :=
  fun s => (r, s).

Definition SLASH : Ascii.ascii := "/"%char.

(** The [where] clause as the JavaScript value that [ruleToTuple] stores. *)
Fixpoint filterToJs (f : Filter) : JsValue :=
  match f with
  | FilterStatement path op v => JArr [JStr path; JStr op; v]
  | FilterGroup m fs =>
      JObj [("mod", JStr m); ("filters", JArr (map filterToJs fs))]
  end.

Definition whereToJs (w : QueryWhere) : JsValue := JArr (map filterToJs w).

(** [Object.entries(rule)] *)
Definition ruleEntries (rule : Rule) : list (string * JsValue) :=
  ("filter", whereToJs (rule_filter rule)) ::
  match rule_description rule with
  | Some d => [("description", JStr d)]
  | None => []
  end.

Definition ruleToTuple (collectionName ruleType : string) (index : nat)
  (rule : Rule) : list EAV :=
  map (fun '(key, v) =>
         ("_schema",
          [AStr "collections"; AStr collectionName; AStr "rules";
           AStr ruleType; ANum (Z.of_nat index); AStr key],
          v))
      (ruleEntries rule).

(** [rules[ruleType]] for the three keys that [createCollection] visits;
    [CollectionRules] has no [update] member. *)
Definition rulesOfType (rs : CollectionRules) (ruleType : string)
  : option (list Rule) :=
  if String.eqb ruleType "read" then read rs
  else if String.eqb ruleType "write" then write rs
  else None.

Definition transformTripleAttribute (triples : list TripleRow)
  (attr newAttribute : Attribute) : list TripleRow :=
  map (fun triple =>
         let fullAttribute :=
           splice 0 (length attr) newAttribute (attribute triple) in
         {| id := id triple; attribute := fullAttribute;
            value := value triple; timestamp := timestamp triple;
            expired := expired triple |})
      triples.

(** ** [class DBTransaction] *)

Module DBTransaction.
Section Methods.
Context `{External}.

(** [this.variables] *)
Variable variables : option Variables.

Local Abbreviation Tx := TripleStoreTransaction.t.

Definition getSchema : Eff Tx (option StoreSchema) :=
  gets (fun tx =>
          readSchema
            (metadataTuples (metadata (TripleStoreTransaction.data tx)))).

Definition getCollectionSchema (collectionName : string)
  : Eff Tx (option CollectionSchema) :=
  schema <- getSchema ;;
  match schema with
  | None => ret None
  | Some s =>
      ret (Some (default emptyCollectionSchema
                   (collections s !! collectionName)))
  end.

Definition cancel : Eff Tx unit := TripleStoreTransaction.cancel.

(** The queries that the methods below pass are built on the spot from
    the filters of the rules of a schema that [readSchema] has just read;
    what the call leaves of them is not read again. *)
Definition replaceVariables (query : CollectionQuery)
  : Eff Tx CollectionQuery :=
  liftE (replaceVariablesInQuery variables query).1.

(** [storeTx.getEntity(id)] *)
Definition getEntity (entityId : string) : Eff Tx JsValue :=
  gets (fun tx =>
          constructEntity (TripleStoreTransaction.findByEntity entityId tx)).

Definition fetchById (collectionName id : string) : Eff Tx JsValue :=
  schema <- getCollectionSchema collectionName ;;
  let readRules := readRulesOf schema in
  entity <- getEntity (appendCollectionToId collectionName id) ;;
  if negb (truthy entity) then ret JNull
  else
    match readRules with
    | Some readRules =>
        let whereFilter := ruleFilters readRules in
        query <- replaceVariables
                   {| collectionName := None; where_ := whereFilter;
                      vars := None |} ;;
        if doesEntityObjMatchWhere entity (where_ query) schema
        then ret entity
        else ret JNull
    | None => ret (timestampedObjectToPlainObject entity)
    end.

(** The proxy returned by [createUpdateProxy(changeTracker, entityObj,
    schema, prefix)]: what its traps close over. *)
Record UpdateProxy : Type := {
  entityObj : JsValue;
  proxySchema : option CollectionSchema;
  prefix : string;
}.

Definition createUpdateProxy (entityObj : JsValue)
  (schema : option CollectionSchema) (prefix : string) : UpdateProxy :=
  {| entityObj := entityObj; proxySchema := schema; prefix := prefix |}.

(** The [set] trap: [proxy[prop] = value]. *)
Definition proxySet (proxy : UpdateProxy) (prop : string) (v : JsValue)
  : Eff ChangeTracker unit :=
  let propPointer := join "/" [prefix proxy; prop] in
  match proxySchema proxy with
  | None => modify (mapSet propPointer v)
  | Some schema =>
      let propSchema :=
        getSchemaFromPath schema (split SLASH (slice1 propPointer)) in
      match propSchema with
      | None =>
          throw (JsError ("Cannot set unrecognized property " +:+ propPointer
                          +:+ " to " +:+ templateString v))
      | Some _ => modify (mapSet propPointer v)
      end
  end.

(** The entity handed to the updater is the proxy; what the updater does
    with it is a computation on the change tracker. *)
Definition Updater : Type := UpdateProxy -> Eff ChangeTracker unit.

(** [for (let [path, value] of changes) await this.storeTx.setValue(...)] *)
Definition stageChanges (collectionName fullEntityId : string)
  (changes : ChangeTracker) : Eff Tx unit :=
  forEach changes (fun '(path, v) =>
    modify (TripleStoreTransaction.setValue fullEntityId
              (AStr collectionName :: map AStr (split SLASH (slice1 path)))
              v)).

Definition update (collectionName entityId : string) (updater : Updater)
  : Eff Tx unit :=
  storeSchema <- getSchema ;;
  let schema := storeSchema ≫= (fun s => collections s !! collectionName) in
  entity <- fetchById collectionName entityId ;;
  if negb (truthy entity) then
    throw (EntityNotFoundError entityId collectionName
             "Cannot perform an update on an entity that doesn't exist")
  else
    let updateProxy := createUpdateProxy entity schema "" in
    match updater updateProxy [] with
    | (inl e, _) => throw e
    | (inr _, changes) =>
        let fullEntityId := appendCollectionToId collectionName entityId in
        stageChanges collectionName fullEntityId changes ;;;
        match writeRulesOf schema with
        | Some (rule :: rest) =>
            updatedEntity <- fetchById collectionName entityId ;;
            let filters := ruleFilters (rule :: rest) in
            query <- replaceVariables
                       {| collectionName := None; where_ := filters;
                          vars := None |} ;;
            let satisfiedRule :=
              doesEntityObjMatchWhere
                (objectToTimestampedObject updatedEntity)
                (where_ query) schema in
            if negb satisfiedRule then
              throw (WriteRuleError "Update does not match write rules")
            else ret tt
        | _ => ret tt
        end
    end.

Definition createCollection (name : string)
  (attrs : list (string * CollectionAttribute))
  (rs : option CollectionRules) : Eff Tx unit :=
  let attributeTuples : list EAV :=
    map (fun '(path, attr) =>
           ("_schema",
            [AStr "collections"; AStr name; AStr "attributes"; AStr path;
             AStr "type"],
            JStr (attr_type attr)))
        attrs in
  let ruleTuples : list EAV :=
    match rs with
    | None => []
    | Some rs =>
        flat_map (fun ruleType =>
                    match rulesOfType rs ruleType with
                    | Some l =>
                        concat (imap (fun i rule =>
                                        ruleToTuple name ruleType i rule) l)
                    | None => []
                    end)
                 ["read"; "write"; "update"]
    end in
  modify (TripleStoreTransaction.updateMetadataTuples
            (attributeTuples ++ ruleTuples)).

Definition dropCollection (name : string) : Eff Tx unit :=
  existingAttributeInfo <-
    gets (TripleStoreTransaction.readMetadataTuples "_schema"
            [AStr "collections"; AStr name]) ;;
  let deletes := map (fun eav : EAV => (eav.1.1, eav.1.2))
                     existingAttributeInfo in
  modify (TripleStoreTransaction.deleteMetadataTuples deletes).

Definition renameAttribute (collectionName path newPath : string)
  : Eff Tx unit :=
  schema <- getSchema ;;
  (if schema is Some _ then
     existingAttributeInfo <-
       gets (TripleStoreTransaction.readMetadataTuples "_schema"
               [AStr "collections"; AStr collectionName; AStr "attributes";
                AStr path]) ;;
     let deletes := map (fun eav : EAV => (eav.1.1, eav.1.2))
                        existingAttributeInfo in
     let updates := map (fun eav : EAV =>
                           let attr := splice 3 1 [AStr newPath] eav.1.2 in
                           (eav.1.1, attr, eav.2))
                        existingAttributeInfo in
     modify (TripleStoreTransaction.deleteMetadataTuples deletes) ;;;
     modify (TripleStoreTransaction.updateMetadataTuples updates)
   else ret tt) ;;;
  storageKeys <- gets TripleStoreTransaction.storageKeys ;;
  forEach storageKeys (fun storageKey =>
    let attr := [AStr collectionName; AStr path] in
    let newAttribute := [AStr collectionName; AStr newPath] in
    TripleStoreTransaction.withScope
      {| readScope := [storageKey]; writeScope := [storageKey] |}
      (currentTriples <-
         gets (TripleStoreTransaction.findByAttribute attr) ;;
       let newTriples :=
         transformTripleAttribute currentTriples attr newAttribute in
       modify (TripleStoreTransaction.deleteTriples currentTriples) ;;;
       modify (TripleStoreTransaction.insertTriples newTriples))).

Definition addAttribute (collectionName path : string)
  (attr : CollectionAttribute) : Eff Tx unit :=
  schema <- getSchema ;;
  if schema is Some _ then
    let updates : list EAV :=
      map (fun '(key, v) =>
             ("_schema",
              [AStr "collections"; AStr collectionName; AStr "attributes";
               AStr path; AStr key],
              v))
          [("type", JStr (attr_type attr))] in
    modify (TripleStoreTransaction.updateMetadataTuples updates)
  else ret tt.

Definition dropAttribute (collectionName path : string) : Eff Tx unit :=
  schema <- getSchema ;;
  if schema is Some _ then
    existingAttributeInfo <-
      gets (TripleStoreTransaction.readMetadataTuples "_schema"
              [AStr "collections"; AStr collectionName; AStr "attributes";
               AStr path]) ;;
    let deletes := map (fun eav : EAV => (eav.1.1, eav.1.2))
                       existingAttributeInfo in
    modify (TripleStoreTransaction.deleteMetadataTuples deletes)
  else ret tt.

(** [addReadRulesToQuery(query, schema)] *)
Definition addReadRulesToQuery (query : CollectionQuery)
  (schema : CollectionSchema) : CollectionQuery :=
  match readRulesOf (Some schema) with
  | Some readRules =>
      let updatedWhere := where_ query ++ ruleFilters readRules in
      {| collectionName := collectionName query; where_ := updatedWhere;
         vars := vars query |}
  | None => query
  end.

End Methods.
End DBTransaction.

(** ** The [get] trap of the update proxy *)

(** What the [get] trap takes from outside the repository:
    [ValuePointer.Get] of [@sinclair/typebox] and JavaScript's property
    access [obj[key]]. *)
Class Runtime : Type := {
  valuePointerGet : JsValue -> string -> JsValue;
  getProperty : JsValue -> string -> JsValue;
}.

Module UpdateProxy.
Section Traps.
Context `{External} `{Runtime}.

(** What reading a property of the proxy gives: a value, a proxy on a
    nested object, or the handle of a set with [add], [remove] and [has]. *)
Inductive Read : Type :=
  | Value (v : JsValue)
  | Nested (proxy : DBTransaction.UpdateProxy)
  | SetHandle (propPointer : string) (propValue : JsValue).

(** [typeof v === "object"]; of the built-ins, [Object.prototype] is an
    object and the others are functions. *)
Definition isObject (v : JsValue) : bool :=
  match v with
  | JNull | JArr _ | JObj _ => true
  | JBuiltin name => String.eqb name "Object.prototype"
  | _ => false
  end.

(** [propSchema["x-crdt-type"] === "Set"] for a schema node that exists. *)
Definition isSetSchema (propSchema : option AttributeSchema) : bool :=
  match propSchema with
  | Some node =>
      match x_crdt_type node with
      | Some t => String.eqb t "Set"
      | None => false
      end
  | None => false
  end.

(** The [get] trap: [proxy[prop]]. *)
Definition get (proxy : DBTransaction.UpdateProxy) (prop : string)
  (changeTracker : ChangeTracker) : Read :=
  let propPointer := join "/" [DBTransaction.prefix proxy; prop] in
  let propValue := valuePointerGet (DBTransaction.entityObj proxy) propPointer in
  match propValue with
  | JUndefined => Value (mapGet propPointer changeTracker)
  | _ =>
      let propSchema :=
        match DBTransaction.proxySchema proxy with
        | Some schema =>
            getSchemaFromPath schema (split SLASH (slice1 propPointer))
        | None => None
        end in
      if isObject propValue && negb (isSetSchema propSchema)
         && negb (bool_decide (propValue = JNull))
      then Nested (DBTransaction.createUpdateProxy propValue
                     (DBTransaction.proxySchema proxy) propPointer)
      else if isSetSchema propSchema then SetHandle propPointer propValue
      else Value (if mapHas propPointer changeTracker
                  then mapGet propPointer changeTracker
                  else propValue)
  end.

(** What [Array.prototype.join] writes for an element: nothing for [null]
    and [undefined], its string otherwise. *)
Definition joinItem (v : JsValue) : string :=
  match v with
  | JUndefined | JNull => ""
  | _ => templateString v
  end.

(** [[propPointer, value].join("/")] *)
Definition memberPointer (propPointer : string) (v : JsValue) : string :=
  join "/" [propPointer; joinItem v].

(** The three operations of a set handle. *)
Definition add (propPointer : string) (v : JsValue) : Eff ChangeTracker unit :=
  modify (mapSet (memberPointer propPointer v) (JBool true)).

Definition remove (propPointer : string) (v : JsValue)
  : Eff ChangeTracker unit :=
  modify (mapSet (memberPointer propPointer v) (JBool false)).

Definition has (propPointer : string) (propValue v : JsValue)
  (changeTracker : ChangeTracker) : JsValue :=
  let valuePointer := memberPointer propPointer v in
  if mapHas valuePointer changeTracker then mapGet valuePointer changeTracker
  else getProperty propValue (templateString v).

End Traps.
End UpdateProxy.

(** ** [class DB] *)

(** [ensureMigrated] has resolved by the time a method runs: every method
    awaits it first, and the constructor swallows its failure. *)
Module DB.

Record t : Type := {
  tripleStore : TripleStore.t;
  variables : Variables;
  (** How many ids [nanoid()] has produced. *)
  entropy : nat;
}.

(** A [(tx: DBTransaction) => Promise<void>]: given the variables of the
    transaction it receives, a computation on the staged state. *)
Definition Callback : Type :=
  option Variables -> Eff TripleStoreTransaction.t unit.

Section Methods.
Context `{External}.

Definition liftStore {A} (m : Eff TripleStore.t A) : Eff t A :=
  fun db =>
    let '(r, store') := m (tripleStore db) in
    (r, {| tripleStore := store'; variables := variables db;
           entropy := entropy db |}).

(** [nanoid()] *)
Definition nextId : Eff t string :=
  fun db =>
    (inr (nanoid (entropy db)),
     {| tripleStore := tripleStore db; variables := variables db;
        entropy := S (entropy db) |}).

(** [this.tripleStore.readSchema()] *)
Definition readStoreSchema : Eff t (option StoreSchema) :=
  gets (fun db =>
          readSchema
            (metadataTuples (metadata (TripleStore.data (tripleStore db))))).

(** [getSchema()] with [full = false]: [tripleStoreSchema?.collections]. *)
Definition getSchema : Eff t (option (gmap string CollectionSchema)) :=
  tripleStoreSchema <- readStoreSchema ;;
  ret (collections <$> tripleStoreSchema).

Definition getCollectionSchema (collectionName : string)
  : Eff t (option CollectionSchema) :=
  colls <- getSchema ;;
  match colls with
  | None => ret None
  | Some cs =>
      ret (Some (default emptyCollectionSchema (cs !! collectionName)))
  end.

Definition transact (callback : Callback) (storeScope : option StorageScope)
  : Eff t Timestamp :=
  vs <- gets variables ;;
  liftStore
    (TripleStore.transact
       (tryCatch (callback (Some vs))
                 (fun e => DBTransaction.cancel ;;; throw e))
       storeScope).

(** As in [DBTransaction]: what the call leaves of the query that it is
    given is the second component of [replaceVariablesInQuery]; the methods
    below build that query on the spot and do not read it again. *)
Definition replaceVariables (query : CollectionQuery) : Eff t CollectionQuery :=
  vs <- gets variables ;;
  liftE (replaceVariablesInQuery (Some vs) query).1.

(** [this.tripleStore.getEntity(id)] *)
Definition getEntity (entityId : string) : Eff t JsValue :=
  gets (fun db =>
          constructEntity (TripleStore.findByEntity entityId (tripleStore db))).

Definition fetchById (collectionName id : string) : Eff t JsValue :=
  schema <- getCollectionSchema collectionName ;;
  let readRules := readRulesOf schema in
  entity <- getEntity (appendCollectionToId collectionName id) ;;
  if negb (truthy entity) then ret JNull
  else
    match readRules with
    | Some readRules =>
        let whereFilter := ruleFilters readRules in
        query <- replaceVariables
                   {| collectionName := None; where_ := whereFilter;
                      vars := None |} ;;
        if doesEntityObjMatchWhere entity (where_ query) schema
        then ret entity
        else ret JNull
    | None => ret (timestampedObjectToPlainObject entity)
    end.

Definition insert (collectionName : string) (doc : JsValue)
  (id : option string) (storeScope : option StorageScope) : Eff t Timestamp :=
  (match id with
   | Some s =>
       if negb (String.eqb s "") then
         match validateExternalId s with
         | Some validationError => throw validationError
         | None => ret tt
         end
       else ret tt
   | None => ret tt
   end) ;;;
  schema <- getCollectionSchema collectionName ;;
  (match writeRulesOf schema with
   | Some (rule :: rest) =>
       let filters := ruleFilters (rule :: rest) in
       query <- replaceVariables
                  {| collectionName := None; where_ := filters;
                     vars := None |} ;;
       let timestampDoc := objectToTimestampedObject doc in
       let satisfiedRule :=
         doesEntityObjMatchWhere timestampDoc (where_ query) schema in
       if negb satisfiedRule then
         throw (WriteRuleError "Insert does not match write rules")
       else ret tt
   | _ => ret tt
   end) ;;;
  entityId <- (match id with
               | Some s => ret s
               | None => nextId
               end) ;;
  timestamp <-
    liftStore
      (TripleStore.transact
         (modify (fun tx =>
            TripleStoreTransaction.insertTriples
              (documentTriples (appendCollectionToId collectionName entityId)
                 doc collectionName
                 (TripleStoreTransaction.commitTimestamp tx))
              tx))
         storeScope) ;;
  ret timestamp.

Definition update (collectionName entityId : string)
  (updater : DBTransaction.Updater) (storeScope : option StorageScope)
  : Eff t Timestamp :=
  transact
    (fun vs => DBTransaction.update vs collectionName entityId updater)
    storeScope.

Definition renameAttribute (collectionName path newPath : string)
  : Eff t unit :=
  transact
    (fun _ => DBTransaction.renameAttribute collectionName path newPath)
    None ;;; ret tt.

Definition applyRemoteTransaction (operations : list DBOperation)
  : Eff t unit :=
  liftStore
    (TripleStore.transact
       (forEach operations (fun operation =>
          match operation with
          | create_collection name attrs rs =>
              DBTransaction.createCollection name attrs rs
          | drop_collection name => DBTransaction.dropCollection name
          | rename_attribute c path newPath =>
              DBTransaction.renameAttribute c path newPath
          | add_attribute c path attr => DBTransaction.addAttribute c path attr
          | drop_attribute c path => DBTransaction.dropAttribute c path
          | unknown_operation tag =>
              throw (InvalidMigrationOperationError
                       ("The operation " +:+ tag +:+ " is not recognized."))
          end))
       None) ;;; ret tt.

(** The body of the loop of [migrate]. *)
Definition migrateOne (direction : Direction) (migration : Migration)
  : Eff t unit :=
  tripleSchema <- readStoreSchema ;;
  let dbVersion := default 0%Z (tripleSchema ≫= schemaVersion) in
  if canMigrate migration direction dbVersion then
    tryCatch (applyRemoteTransaction (operationsOf migration direction))
             (fun e => throw e) ;;;
    liftStore
      (TripleStore.updateMetadataTuples
         [("_schema", [AStr "version"],
           JNum (match direction with
                 | Up => version migration
                 | Down => parent migration
                 end))])
  else ret tt.

Definition migrate (migrations : list Migration) (direction : Direction)
  : Eff t unit :=
  forEach migrations (migrateOne direction).

(** [updateVariables(variables)]: [{ ...this.variables, ...variables }] *)
Definition updateVariables (newVariables : Variables) : Eff t unit :=
  modify (fun db =>
    {| tripleStore := tripleStore db;
       variables := newVariables ∪ variables db;
       entropy := entropy db |}).

Definition createCollection (name : string)
  (attrs : list (string * CollectionAttribute)) (rs : option CollectionRules)
  : Eff t unit :=
  transact (fun _ => DBTransaction.createCollection name attrs rs) None ;;;
  ret tt.

Definition dropCollection (name : string) : Eff t unit :=
  transact (fun _ => DBTransaction.dropCollection name) None ;;; ret tt.

Definition addAttribute (collectionName path : string)
  (attr : CollectionAttribute) : Eff t unit :=
  transact (fun _ => DBTransaction.addAttribute collectionName path attr) None ;;;
  ret tt.

(** [dropAttribute] opens the store's transaction itself. *)
Definition dropAttribute (collectionName path : string) : Eff t unit :=
  liftStore
    (TripleStore.transact (DBTransaction.dropAttribute collectionName path)
       None) ;;;
  ret tt.

(** One step of the [reduce] of [getCollectionStats]: the [Map] from
    collection name to entity count, keyed by the value of the marker
    triple (a primitive, so the key comparison of [Map] is equality). *)
Definition countEntity (acc : list (JsValue * Z)) (triple : TripleRow)
  : list (JsValue * Z) :=
  let name := value triple in
  let acc1 := if jsMapHas name acc then acc else jsMapSet name 0%Z acc in
  jsMapSet name (default 0%Z (jsMapGet name acc1) + 1)%Z acc1.

Definition getCollectionStats : Eff t (list (JsValue * Z)) :=
  gets (fun db =>
    let collectionMetaTriples :=
      TripleStoreTransaction.findByAttribute [AStr "_collection"]
        (TripleStore.begin None (tripleStore db)) in
    foldl countEntity [] collectionMetaTriples).

End Methods.
End DB.

(** ** The Vue composable [useQuery] ([packages/vue/src/useQuery.ts])

    The refs of the composable are the fields of a state, and the bodies of
    its callbacks are the transitions; the client delivers the events in
    any order. *)
Module UseQuery.
Section Composable.
(** The type of built queries. *)
Context {Query : Type}.

Record State : Type := {
  builtQuery : Query;
  results : JsValue;
  isInitialFetch : bool;
  fetchingLocal : bool;
  fetchingRemote : bool;
  error : JsValue;
  hasResponseFromServer : bool;
}.

Inductive Event : Type :=
  (** [isFirstTimeFetchingQuery(...)] resolves. *)
  | FirstFetchResolved (isFirstFetch : bool)
  (** The callback of [onConnectionStatusChange]. *)
  | ConnectionStatusChange (status : string)
  (** The two callbacks of [subscribe]. *)
  | Results (newResults : JsValue)
  | SubscriptionError (err : JsValue)
  (** [onRemoteFulfilled] *)
  | RemoteFulfilled
  (** [updateQuery(newQueryBuilder)], with the query that it builds. *)
  | UpdateQuery (newQuery : Query).

(** The refs as [useQuery] creates them, given the query that was built and
    [client.connectionStatus]. *)
Definition init (query : Query) (connectionStatus : string) : State :=
  {| builtQuery := query;
     results := JUndefined;
     isInitialFetch := true;
     fetchingLocal := true;
     fetchingRemote := negb (String.eqb connectionStatus "CLOSED");
     error := JUndefined;
     hasResponseFromServer := false |}.

Definition step (s : State) (e : Event) : State :=
  match e with
  | FirstFetchResolved isFirstFetch =>
      {| builtQuery := builtQuery s;
         results := results s; isInitialFetch := isFirstFetch;
         fetchingLocal := fetchingLocal s; fetchingRemote := fetchingRemote s;
         error := error s; hasResponseFromServer := hasResponseFromServer s |}
  | ConnectionStatusChange status =>
      if String.eqb status "CLOSING" || String.eqb status "CLOSED" then
        {| builtQuery := builtQuery s;
         results := results s; isInitialFetch := isInitialFetch s;
           fetchingLocal := fetchingLocal s; fetchingRemote := false;
           error := error s; hasResponseFromServer := hasResponseFromServer s |}
      else if String.eqb status "OPEN" && negb (hasResponseFromServer s) then
        {| builtQuery := builtQuery s;
         results := results s; isInitialFetch := isInitialFetch s;
           fetchingLocal := fetchingLocal s; fetchingRemote := true;
           error := error s; hasResponseFromServer := hasResponseFromServer s |}
      else s
  | Results newResults =>
      {| builtQuery := builtQuery s;
         results := newResults; isInitialFetch := isInitialFetch s;
         fetchingLocal := false; fetchingRemote := fetchingRemote s;
         error := JUndefined; hasResponseFromServer := hasResponseFromServer s |}
  | SubscriptionError err =>
      {| builtQuery := builtQuery s;
         results := results s; isInitialFetch := isInitialFetch s;
         fetchingLocal := false; fetchingRemote := fetchingRemote s;
         error := err; hasResponseFromServer := hasResponseFromServer s |}
  | RemoteFulfilled =>
      {| builtQuery := builtQuery s;
         results := results s; isInitialFetch := isInitialFetch s;
         fetchingLocal := fetchingLocal s; fetchingRemote := false;
         error := error s; hasResponseFromServer := true |}
  | UpdateQuery newQuery =>
      {| builtQuery := newQuery;
         results := JUndefined; isInitialFetch := isInitialFetch s;
         fetchingLocal := true; fetchingRemote := fetchingRemote s;
         error := error s; hasResponseFromServer := false |}
  end.

(** The computed [fetching]. *)
Definition fetching (s : State) : bool :=
  fetchingLocal s || (isInitialFetch s && fetchingRemote s).

(** The state after a sequence of events. *)
Definition run (s : State) (events : list Event) : State :=
  foldl step s events.

Definition isUpdateQuery (e : Event) : bool :=
  match e with
  | UpdateQuery _ => true
  | _ => false
  end.

End Composable.
End UseQuery.

(** ** A reference implementation of the collaborators

    The document codec, the filter evaluator and the schema reader, as the
    specification describes them. The theorems on [db.ts] do not depend on
    it; it serves to run [db.ts] on concrete databases. *)
Module Reference.

(** [obj[key]] on an object given by its entries. *)
Fixpoint getField (key : string) (fields : list (string * JsValue))
  : option JsValue :=
  match fields with
  | [] => None
  | (k, v) :: rest => if String.eqb k key then Some v else getField key rest
  end.

(** [obj[key] = v] on an object given by its entries. *)
Definition setField (key : string) (v : JsValue)
  (fields : list (string * JsValue)) : list (string * JsValue) :=
  mapSet key v fields.

Definition timestampToJs (ts : Timestamp) : JsValue :=
  JArr [JNum (Z.of_nat ts.1); JStr ts.2].

(** A leaf of a timestamped object: [{ value, timestamp }]. *)
Definition stamped (v ts : JsValue) : JsValue :=
  JObj [("value", v); ("timestamp", ts)].

Definition isStamped (v : JsValue) : option (JsValue * JsValue) :=
  match v with
  | JObj [(k1, x); (k2, ts)] =>
      if String.eqb k1 "value" && String.eqb k2 "timestamp"
      then Some (x, ts) else None
  | _ => None
  end.

(** Modelled from the spec: [timestampedObjectToPlainObject] of [./schema],
    "Timestamped to plain: drop timestamps". *)
Fixpoint timestampedObjectToPlainObject (v : JsValue) : JsValue :=
  match v with
  | JObj fields =>
      match isStamped v with
      | Some (x, _) => x
      | None =>
          JObj ((fix go (fs : list (string * JsValue)) :=
                   match fs with
                   | [] => []
                   | (k, x) :: rest =>
                       (k, timestampedObjectToPlainObject x) :: go rest
                   end) fields)
      end
  | _ => v
  end.

(** Modelled from the spec: [objectToTimestampedObject] of [./schema], a
    nested object "whose leaves are [{ value, timestamp }]"; a document
    that was not read from the store has no timestamps yet. *)
Fixpoint objectToTimestampedObject (v : JsValue) : JsValue :=
  match v with
  | JObj fields =>
      JObj ((fix go (fs : list (string * JsValue)) :=
               match fs with
               | [] => []
               | (k, x) :: rest => (k, objectToTimestampedObject x) :: go rest
               end) fields)
  | _ => stamped v JUndefined
  end.

(** Strict order on hybrid timestamps: by tick, then by client id. *)
Definition timestampLt (a b : Timestamp) : bool :=
  (a.1 <? b.1)%nat || ((a.1 =? b.1)%nat && String.ltb a.2 b.2).

Definition timestampOfJs (v : JsValue) : Timestamp :=
  match v with
  | JArr [JNum n; JStr c] => (Z.to_nat n, c)
  | _ => (0%nat, "")
  end.

Definition itemToString (a : AttributeItem) : string :=
  match a with
  | AStr s => s
  | ANum n => pretty n
  end.

(** Write a leaf at a path of a nested object, unless the leaf already
    there is newer. *)
Fixpoint insertLeaf (path : list string) (v : JsValue) (ts : Timestamp)
  (obj : JsValue) : JsValue :=
  match path with
  | [] =>
      match isStamped obj with
      | Some (_, old) =>
          if timestampLt ts (timestampOfJs old) then obj
          else stamped v (timestampToJs ts)
      | None => stamped v (timestampToJs ts)
      end
  | seg :: rest =>
      let fields := match obj with JObj fs => fs | _ => [] end in
      let child := default (JObj []) (getField seg fields) in
      JObj (setField seg (insertLeaf rest v ts child) fields)
  end.

(** Modelled from the spec: the reduction of [getEntity] in
    [./triple-store], "reduce triples for a single E into a nested object
    whose leaves are [{ value, timestamp }]", the value at a path being
    that of the non-expired triple with the greatest timestamp; [null]
    when the entity has no triples. The first attribute segment is the
    collection name. *)
Definition constructEntity (triples : list TripleRow) : JsValue :=
  match triples with
  | [] => JNull
  | _ =>
      foldl (fun obj row =>
               match attribute row with
               | _ :: seg :: rest =>
                   if expired row then obj
                   else insertLeaf (map itemToString (seg :: rest))
                          (value row) (timestamp row) obj
               | _ => obj
               end)
            (JObj []) triples
  end.

(** Modelled from the spec: [Document.insert] of [./document], "Plain to
    triples": a triple per scalar leaf at [[collectionName, ...path]],
    nothing for the record itself, one triple with value [true] per set
    member (a set is given as an array of its members), and always the
    [_collection] marker. *)
Fixpoint leafTriples (entityId : string) (path : Attribute) (ts : Timestamp)
  (v : JsValue) : list TripleRow :=
  let row a x := {| id := entityId; attribute := a; value := x;
                    timestamp := ts; expired := false |} in
  match v with
  | JObj fields =>
      (fix go (fs : list (string * JsValue)) :=
         match fs with
         | [] => []
         | (k, x) :: rest =>
             leafTriples entityId (path ++ [AStr k]) ts x ++ go rest
         end) fields
  | JArr members =>
      omap (fun m =>
              match m with
              | JStr s => Some (row (path ++ [AStr s]) (JBool true))
              | JNum n => Some (row (path ++ [ANum n]) (JBool true))
              | _ => None
              end) members
  | _ => [row path v]
  end.

Definition documentTriples (entityId : string) (doc : JsValue)
  (collectionName : string) (ts : Timestamp) : list TripleRow :=
  leafTriples entityId [AStr collectionName] ts doc ++
  [ {| id := entityId; attribute := [AStr "_collection"];
       value := JStr collectionName; timestamp := ts; expired := false |} ].

(** The string that a template literal interpolates. *)
Fixpoint templateString (v : JsValue) : string :=
  match v with
  | JUndefined => "undefined"
  | JNull => "null"
  | JBool true => "true"
  | JBool false => "false"
  | JNum n => pretty n
  | JNaN => "NaN"
  | JStr s => s
  | JArr xs => join "," (map templateString xs)
  | JObj _ => "[object Object]"
  | JBuiltin name =>
      if String.eqb name "Object.prototype" then "[object Object]"
      else "function " +:+ name +:+ "() { [native code] }"
  end.

(** The value of a timestamped entity at a dotted path; "missing paths
    compare as null". *)
Fixpoint valueAt (path : list string) (entity : JsValue) : JsValue :=
  match path with
  | [] =>
      match isStamped entity with
      | Some (x, _) => x
      | None => entity
      end
  | seg :: rest =>
      match entity with
      | JObj fields =>
          match getField seg fields with
          | Some child => valueAt rest child
          | None => JNull
          end
      | _ => JNull
      end
  end.

Definition DOT : Ascii.ascii := "."%char.

(** One comparison of the filter evaluator. [like] needs pattern matching
    on strings and is left out: it evaluates to [false]. *)
Definition evalOp (op : string) (actual expected : JsValue) : bool :=
  if String.eqb op "=" then bool_decide (actual = expected)
  else if String.eqb op "!=" then negb (bool_decide (actual = expected))
  else if String.eqb op "<" then
    match actual, expected with JNum a, JNum b => (a <? b)%Z | _, _ => false end
  else if String.eqb op "<=" then
    match actual, expected with JNum a, JNum b => (a <=? b)%Z | _, _ => false end
  else if String.eqb op ">" then
    match actual, expected with JNum a, JNum b => (b <? a)%Z | _, _ => false end
  else if String.eqb op ">=" then
    match actual, expected with JNum a, JNum b => (b <=? a)%Z | _, _ => false end
  else if String.eqb op "in" then
    match expected with JArr xs => bool_decide (actual ∈ xs) | _ => false end
  else if String.eqb op "nin" then
    match expected with
    | JArr xs => negb (bool_decide (actual ∈ xs))
    | _ => false
    end
  else if String.eqb op "has" then
    bool_decide (valueAt [templateString expected] actual = JBool true)
  else if String.eqb op "!has" then
    negb (bool_decide (valueAt [templateString expected] actual = JBool true))
  else false.

(** The value that a statement compares: the leaf at its path, or the set
    object itself for [has]. *)
Definition operand (path : string) (entity : JsValue) : JsValue :=
  valueAt (split DOT path) entity.

Fixpoint matchesFilter (entity : JsValue) (f : Filter) : bool :=
  match f with
  | FilterStatement path op v => evalOp op (operand path entity) v
  | FilterGroup m fs =>
      if String.eqb m "or"
      then (fix go (l : list Filter) :=
              match l with
              | [] => false
              | x :: rest => matchesFilter entity x || go rest
              end) fs
      else (fix go (l : list Filter) :=
              match l with
              | [] => true
              | x :: rest => matchesFilter entity x && go rest
              end) fs
  end.

(** Modelled from the spec: [doesEntityObjMatchWhere] of
    [./collection-query], "predicates are nested boolean trees whose leaves
    are triples [[path, op, value]]", evaluated on "the current value at
    each path" of a timestamped entity; the statements of a where clause
    are conjoined. *)
Definition doesEntityObjMatchWhere (entity : JsValue) (filters : QueryWhere)
  (schema : option CollectionSchema) : bool :=
  forallb (matchesFilter entity) filters.

(** The inverse of [filterToJs]. *)
Fixpoint filterOfJs (v : JsValue) : option Filter :=
  match v with
  | JArr [JStr path; JStr op; x] => Some (FilterStatement path op x)
  | JObj [(k1, JStr m); (k2, JArr fs)] =>
      if String.eqb k1 "mod" && String.eqb k2 "filters" then
        match (fix go (l : list JsValue) : option (list Filter) :=
                 match l with
                 | [] => Some []
                 | x :: rest =>
                     match filterOfJs x, go rest with
                     | Some f, Some r => Some (f :: r)
                     | _, _ => None
                     end
                 end) fs with
        | Some fs' => Some (FilterGroup m fs')
        | None => None
        end
      else None
  | _ => None
  end.

Definition whereOfJs (v : JsValue) : option QueryWhere :=
  match v with
  | JArr fs => mapM filterOfJs fs
  | _ => None
  end.

(** The value stored under an entity and attribute. *)
Definition lookupTuple (entityId : string) (attr : Attribute) (md : list EAV)
  : option JsValue :=
  match list_find (fun eav : EAV => eav.1 = (entityId, attr)) md with
  | Some (_, eav) => Some eav.2
  | None => None
  end.

Definition rulePath (c ruleType : string) (i : nat) (key : string) : Attribute :=
  [AStr "collections"; AStr c; AStr "rules"; AStr ruleType;
   ANum (Z.of_nat i); AStr key].

Definition ruleAt (md : list EAV) (c ruleType : string) (i : nat)
  : option Rule :=
  match lookupTuple "_schema" (rulePath c ruleType i "filter") md with
  | Some v =>
      Some {| rule_filter := default [] (whereOfJs v);
              rule_description :=
                match lookupTuple "_schema"
                        (rulePath c ruleType i "description") md with
                | Some (JStr d) => Some d
                | _ => None
                end |}
  | None => None
  end.

(** The rules of one type are stored under consecutive indices. *)
Definition rulesFor (md : list EAV) (c ruleType : string)
  : option (list Rule) :=
  let stored :=
    filter (fun eav : EAV =>
              [AStr "collections"; AStr c; AStr "rules"; AStr ruleType]
                `prefix_of` eav.1.2) md in
  match omap (ruleAt md c ruleType) (seq 0 (length stored)) with
  | [] => None
  | rs => Some rs
  end.

Definition attributesFor (md : list EAV) (c : string)
  : option (gmap string CollectionAttribute) :=
  let found :=
    omap (fun eav : EAV =>
            match eav.1.2, eav.2 with
            | [AStr k1; AStr c'; AStr k2; AStr path; AStr k3], JStr ty =>
                if String.eqb k1 "collections" && String.eqb c' c
                   && String.eqb k2 "attributes" && String.eqb k3 "type"
                then Some (path, {| attr_type := ty |}) else None
            | _, _ => None
            end) md in
  match found with
  | [] => None
  | _ => Some (list_to_map found)
  end.

Definition collectionNames (md : list EAV) : list string :=
  remove_dups
    (omap (fun eav : EAV =>
             match eav.1.2 with
             | AStr k :: AStr c :: _ =>
                 if String.eqb k "collections" then Some c else None
             | _ => None
             end) md).

Definition collectionSchemaOf (md : list EAV) (c : string) : CollectionSchema :=
  {| attributes := attributesFor md c;
     rules :=
       match rulesFor md c "read", rulesFor md c "write" with
       | None, None => None
       | r, w => Some {| read := r; write := w |}
       end |}.

(** Modelled from the spec: [readSchema] of [./triple-store]; "the
    [_schema] document is itself modeled as triples and read through the
    same store", with the layout that [createCollection], [addAttribute]
    and [migrate] write; no schema when the namespace is empty. *)
Definition readSchema (md : list EAV) : option StoreSchema :=
  let tuples := filter (fun eav : EAV => eav.1.1 = "_schema") md in
  match tuples with
  | [] => None
  | _ =>
      Some {| schemaVersion :=
                match lookupTuple "_schema" [AStr "version"] tuples with
                | Some (JNum v) => Some v
                | _ => None
                end;
              collections :=
                list_to_map
                  (map (fun c => (c, collectionSchemaOf tuples c))
                       (collectionNames tuples)) |}
  end.

(** Modelled from the spec: [getSchemaFromPath] of [./schema]; the
    attributes of a collection are stored under their dotted path, and the
    set types are those whose name starts with [set_]. *)
Definition getSchemaFromPath (schema : CollectionSchema) (path : list string)
  : option AttributeSchema :=
  match attributes schema with
  | Some attrs =>
      match attrs !! join "." path with
      | Some a =>
          Some {| x_crdt_type :=
                    if startsWith (attr_type a) "set_" then Some "Set"
                    else None |}
      | None => None
      end
  | None => None
  end.

(** An id generator: the ids differ and contain no separator. *)
Definition nanoid (n : nat) : string := "id" +:+ pretty n.

Definition collaborators : External :=
  Build_External readSchema getSchemaFromPath doesEntityObjMatchWhere
    timestampedObjectToPlainObject objectToTimestampedObject constructEntity
    documentTriples nanoid templateString.

End Reference.


(** ** The schema diff engine ([./schema/diff])

    Modelled from the spec: [diffSchemas] and the schema model it walks are
    not among the sources (only their tests are), so this module follows
    sections 3 and 4.4 of the specification. *)
Module SchemaDiff.

(** [{ func: "uuid"|"now"|"literal", args }] *)
Record DefaultSpec : Type := { func : string; args : JsValue }.

(** [{ nullable, default?, enum? }] *)
Record Options : Type := {
  nullable : bool;
  defaultValue : option DefaultSpec;
  enum : option (list JsValue);
}.

#[global] Instance DefaultSpec_EqDecision : EqDecision DefaultSpec.
Proof. solve_decision. Defined.

#[global] Instance Options_EqDecision : EqDecision Options.
Proof. solve_decision. Defined.

(** Modelled from the spec: "a discriminated union over Id, String, Number,
    Boolean, Date, Set<item>, Record<fields>, Optional<inner>". *)
Inductive Descriptor : Type :=
  | DId (options : Options)
  | DString (options : Options)
  | DNumber (options : Options)
  | DBoolean (options : Options)
  | DDate (options : Options)
  | DSet (item : Descriptor) (options : Options)
  | DRecord (fields : gmap string Descriptor)
  | DOptional (inner : Descriptor).

Fixpoint Descriptor_eq_dec (a b : Descriptor) {struct a} : Decision (a = b).
Proof.
  refine (match a, b with
  | DId o1, DId o2 => cast_if (decide (o1 = o2))
  | DString o1, DString o2 => cast_if (decide (o1 = o2))
  | DNumber o1, DNumber o2 => cast_if (decide (o1 = o2))
  | DBoolean o1, DBoolean o2 => cast_if (decide (o1 = o2))
  | DDate o1, DDate o2 => cast_if (decide (o1 = o2))
  | DSet i1 o1, DSet i2 o2 =>
      cast_if_and (Descriptor_eq_dec i1 i2) (decide (o1 = o2))
  | DRecord f1, DRecord f2 =>
      cast_if (@gmap_eq_dec string _ _ Descriptor Descriptor_eq_dec f1 f2)
  | DOptional i1, DOptional i2 => cast_if (Descriptor_eq_dec i1 i2)
  | _, _ => right _
  end); congruence.
Defined.

#[global] Instance Descriptor_EqDecision : EqDecision Descriptor :=
  Descriptor_eq_dec.

(** The descriptor under the [Optional] wrappers. *)
Fixpoint core (d : Descriptor) : Descriptor :=
  match d with
  | DOptional inner => core inner
  | _ => d
  end.

(** The [optional] flag that [Optional] sets at a path. *)
Definition isOptional (d : Descriptor) : bool :=
  match d with
  | DOptional _ => true
  | _ => false
  end.

(** The [type] of a descriptor, as the diff reports it; an id is a string
    with a generated default. *)
Definition typeName (d : Descriptor) : string :=
  match core d with
  | DId _ | DString _ => "string"
  | DNumber _ => "number"
  | DBoolean _ => "boolean"
  | DDate _ => "date"
  | DSet _ _ => "set"
  | DRecord _ => "record"
  | DOptional _ => "optional"
  end.

Definition noOptions : Options :=
  {| nullable := false; defaultValue := None; enum := None |}.

Definition optionsOf (d : Descriptor) : Options :=
  match core d with
  | DId o | DString o | DNumber o | DBoolean o | DDate o | DSet _ o => o
  | _ => noOptions
  end.

(** The differing options, each with its new value. *)
Record OptionsChanges : Type := {
  nullableChange : option bool;
  defaultChange : option (option DefaultSpec);
  enumChange : option (option (list JsValue));
}.

Definition changed {A} `{EqDecision A} (old new : A) : option A :=
  if decide (old = new) then None else Some new.

Definition diffOptions (old new : Options) : OptionsChanges :=
  {| nullableChange := changed (nullable old) (nullable new);
     defaultChange := changed (defaultValue old) (defaultValue new);
     enumChange := changed (enum old) (enum new) |}.

(** Modelled from the spec: the [changes] of an [update], "a structural
    object containing only the differing fields ([type], [optional],
    [options.nullable], [options.default], [options.enum], or nested
    differences in [Set] item types)". *)
Inductive Changes : Type :=
  MkChanges (typeChange : option string) (optionalChange : option bool)
            (optionsChange : OptionsChanges) (itemsChange : option Changes).

Fixpoint changes (old new : Descriptor) {struct old} : Changes :=
  let top (items : option Changes) :=
    MkChanges (changed (typeName old) (typeName new))
              (changed (isOptional old) (isOptional new))
              (diffOptions (optionsOf old) (optionsOf new))
              items in
  match old with
  | DOptional inner =>
      match changes inner new with
      | MkChanges _ _ _ items => top items
      end
  | DSet item _ =>
      match core new with
      | DSet item' _ =>
          top (if decide (item = item') then None else Some (changes item item'))
      | _ => top None
      end
  | _ => top None
  end.

Inductive AttributeChange : Type :=
  | Insert (metadata : Descriptor) (isNewCollection : bool)
  | Delete (metadata : Descriptor)
  | Update (changes : Changes).

(** A diff record, by its discriminant. *)
Inductive Diff : Type :=
  | collectionAttribute (collection : string) (attribute : list string)
                        (change : AttributeChange)
  | collectionRules (collection : string)
  | collectionPermissions (collection : string)
  | roles.


Section Schemas.
(** "Opaque matcher blobs compared by deep equality." *)
Context {Blob : Type} `{EqDecision Blob}.






End Schemas.

(** The sort key of a record: collection, attribute path, discriminant. *)
Definition discriminant (d : Diff) : nat :=
  match d with
  | collectionAttribute _ _ _ => 0
  | collectionRules _ => 1
  | collectionPermissions _ => 2
  | roles => 3
  end.

Definition collectionOf (d : Diff) : string :=
  match d with
  | collectionAttribute c _ _ | collectionRules c | collectionPermissions c => c
  | roles => ""
  end.

Definition attributeOf (d : Diff) : list string :=
  match d with
  | collectionAttribute _ p _ => p
  | _ => []
  end.

Fixpoint pathCompare (p q : list string) : comparison :=
  match p, q with
  | [], [] => Eq
  | [], _ :: _ => Lt
  | _ :: _, [] => Gt
  | x :: p', y :: q' =>
      match String.compare x y with
      | Eq => pathCompare p' q'
      | c => c
      end
  end.

Definition diffLeb (a b : Diff) : bool :=
  match String.compare (collectionOf a) (collectionOf b) with
  | Lt => true
  | Gt => false
  | Eq =>
      match pathCompare (attributeOf a) (attributeOf b) with
      | Lt => true
      | Gt => false
      | Eq => (discriminant a <=? discriminant b)%nat
      end
  end.

Definition diffLe (a b : Diff) : Prop := diffLeb a b = true.

#[global] Instance diffLe_dec : RelDecision diffLe.
Proof. intros a b. unfold diffLe. apply _. Defined.







End SchemaDiff.

(** ** Auxiliary definitions for the statements *)

(** Induction on filters, with the hypothesis for every member of a group. *)
Fixpoint Filter_ind' (P : Filter -> Prop)
  (Hs : forall path op v, P (FilterStatement path op v))
  (Hg : forall m fs, Forall P fs -> P (FilterGroup m fs))
  (f : Filter) : P f :=
  match f with
  | FilterStatement path op v => Hs path op v
  | FilterGroup m fs =>
      Hg m fs
        ((fix go (l : list Filter) : Forall P l :=
            match l with
            | [] => @List.Forall_nil _ P
            | x :: rest =>
                @List.Forall_cons _ P x rest (Filter_ind' P Hs Hg x) (go rest)
            end) fs)
  end.

(** [tripleSchema?.version ?? 0], the version that [migrate] compares. *)
Definition currentVersion `{External} (db : DB.t) : Z :=
  default 0%Z
    (readSchema (metadataTuples (metadata (TripleStore.data (DB.tripleStore db))))
       ≫= schemaVersion).

(** The tuple that [migrate] writes after a migration. *)
Definition versionTuple (migration : Migration) (direction : Direction) : EAV :=
  ("_schema", [AStr "version"],
   JNum (match direction with
         | Up => version migration
         | Down => parent migration
         end)).

(** A handle with a new store. *)
Definition withStore (store : TripleStore.t) (db : DB.t) : DB.t :=
  {| DB.tripleStore := store; DB.variables := DB.variables db;
     DB.entropy := DB.entropy db |}.

(** The collection schema that the methods of [DB] read for a collection. *)
Definition schemaOf `{External} (db : DB.t) (collectionName : string)
  : option CollectionSchema :=
  match readSchema
          (metadataTuples (metadata (TripleStore.data (DB.tripleStore db)))) with
  | None => None
  | Some s => Some (default emptyCollectionSchema (collections s !! collectionName))
  end.

(** What [renameAttribute] does to the triples of one storage scope. *)
Definition renameRows (collectionName path newPath : string)
  (rows : list TripleRow) : list TripleRow :=
  let attr := [AStr collectionName; AStr path] in
  let newAttribute := [AStr collectionName; AStr newPath] in
  let currentTriples := filter (fun row => attr `prefix_of` attribute row) rows in
  list_union (list_difference rows currentTriples)
             (transformTripleAttribute currentTriples attr newAttribute).

(** The body of the loop of [renameAttribute] for one storage key. *)
Definition renameStep (c p q k : string) : Eff TripleStoreTransaction.t unit :=
  TripleStoreTransaction.withScope
        {| readScope := [k]; writeScope := [k] |}
        (currentTriples <-
           gets (TripleStoreTransaction.findByAttribute [AStr c; AStr p]) ;;
         let newTriples :=
           transformTripleAttribute currentTriples [AStr c; AStr p] [AStr c; AStr q] in
         modify (TripleStoreTransaction.deleteTriples currentTriples) ;;;
         modify (TripleStoreTransaction.insertTriples newTriples)).

(** A triple with the first [n] segments of its attribute replaced. *)
Definition renamedRow (newAttribute : Attribute) (n : nat) (row : TripleRow)
  : TripleRow :=
  {| id := id row; attribute := newAttribute ++ drop n (attribute row);
     value := value row; timestamp := timestamp row; expired := expired row |}.

(** The attribute under which the schema tuples of a collection's attribute
    are stored. *)
Definition attributeSchemaPath (c p : string) : Attribute :=
  [AStr "collections"; AStr c; AStr "attributes"; AStr p].

(** What [renameAttribute] does to the metadata when there is a schema. *)
Definition renameSchemaTuples (c p q : string)
  (md : gmap (string * Attribute) JsValue) : gmap (string * Attribute) JsValue :=
  let existingAttributeInfo :=
    metadataTuples
      (filter (fun eav : EAV =>
                 eav.1.1 = "_schema" /\ attributeSchemaPath c p `prefix_of` eav.1.2)
              md) in
  let deletes := map (fun eav : EAV => (eav.1.1, eav.1.2)) existingAttributeInfo in
  let updates := map (fun eav : EAV =>
                        let attr := splice 3 1 [AStr q] eav.1.2 in
                        (eav.1.1, attr, eav.2))
                     existingAttributeInfo in
  foldl (fun md (eav : EAV) => <[eav.1 := eav.2]> md)
        (foldl (fun md key => delete key md) md deletes) updates.

(** The store after [insert] has committed a document under an id. *)
Definition inserted `{External} (collectionName : string) (doc : JsValue)
  (entityId : string) (storeScope : option StorageScope)
  (store : TripleStore.t) : TripleStore.t :=
  TripleStore.commit
    (TripleStoreTransaction.insertTriples
       (documentTriples (appendCollectionToId collectionName entityId) doc
          collectionName (S (TripleStore.clock store), TripleStore.clientId store))
       (TripleStore.begin storeScope store))
    store.

(** Two schemas: the second adds a collection, as in the test "can diff
    schemas with different collections". *)
Module DiffExample.
Import SchemaDiff.





End DiffExample.

(** A filter with the values of its statements erased: what variable
    resolution leaves as it is. *)
Fixpoint filterShape (f : Filter) : Filter :=
  match f with
  | FilterStatement path op _ => FilterStatement path op JUndefined
  | FilterGroup m fs => FilterGroup m (map filterShape fs)
  end.

(** Whether a filter has a statement whose value is a string that starts
    with [$]. *)
Fixpoint mentionsVariable (f : Filter) : bool :=
  match f with
  | FilterStatement _ _ (JStr s) => startsWith s "$"
  | FilterStatement _ _ _ => false
  | FilterGroup _ fs => existsb mentionsVariable fs
  end.

(** Whether a filter has a statement whose value is the string [$name], at
    any depth. *)
Fixpoint mentionsName (name : string) (f : Filter) : bool :=
  match f with
  | FilterStatement _ _ (JStr s) => String.eqb s (String "$" name)
  | FilterStatement _ _ _ => false
  | FilterGroup _ fs => existsb (mentionsName name) fs
  end.

(** An element of a where clause after a resolution that returned: a
    statement is the array that it was, a group is the object that was
    returned. *)
Definition keepStatement (before returned : Filter) : Filter :=
  match before with
  | FilterStatement _ _ _ => before
  | FilterGroup _ _ => returned
  end.

Definition isStatement (f : Filter) : bool :=
  match f with
  | FilterStatement _ _ _ => true
  | FilterGroup _ _ => false
  end.

(** The transaction after the method of [DBTransaction] that an operation
    of a migration names; an operation that is not recognised has none. *)
Definition operationTx `{External} (operation : DBOperation)
  (tx : TripleStoreTransaction.t) : TripleStoreTransaction.t :=
  match operation with
  | create_collection name attrs rs =>
      (DBTransaction.createCollection name attrs rs tx).2
  | drop_collection name => (DBTransaction.dropCollection name tx).2
  | rename_attribute c path newPath =>
      (DBTransaction.renameAttribute c path newPath tx).2
  | add_attribute c path attr => (DBTransaction.addAttribute c path attr tx).2
  | drop_attribute c path => (DBTransaction.dropAttribute c path tx).2
  | unknown_operation _ => tx
  end.

(** The transaction after the methods of a list of operations, in order. *)
Definition operationsTx `{External} (operations : list DBOperation)
  (tx : TripleStoreTransaction.t) : TripleStoreTransaction.t :=
  foldl (fun tx operation => operationTx operation tx) tx operations.

(** The database after a migration has been applied in a direction: the
    store holds what one transaction with the methods of the operations
    leaves, and then the version of the migration (its parent, going down)
    under [_schema/version]. *)
Definition migrated `{External} (migration : Migration) (direction : Direction)
  (db : DB.t) : DB.t :=
  let store := DB.tripleStore db in
  let tx := operationsTx (operationsOf migration direction)
              (TripleStore.begin None store) in
  withStore
    {| TripleStore.data :=
         {| storage := storage (TripleStoreTransaction.data tx);
            metadata :=
              <[("_schema", [AStr "version"]) :=
                  JNum (match direction with
                        | Up => version migration
                        | Down => parent migration
                        end)]>
                (metadata (TripleStoreTransaction.data tx)) |};
       TripleStore.clock := S (S (TripleStore.clock store));
       TripleStore.clientId := TripleStore.clientId store |}
    db.

(** The tuples that [createCollection] writes. *)
Definition collectionTuples (name : string)
  (attrs : list (string * CollectionAttribute)) (rs : option CollectionRules)
  : list EAV :=
  map (fun '(path, attr) =>
         ("_schema",
          [AStr "collections"; AStr name; AStr "attributes"; AStr path;
           AStr "type"],
          JStr (attr_type attr)))
      attrs ++
  match rs with
  | None => []
  | Some rs =>
      flat_map (fun ruleType =>
                  match rulesOfType rs ruleType with
                  | Some l =>
                      concat (imap (fun i rule =>
                                      ruleToTuple name ruleType i rule) l)
                  | None => []
                  end)
               ["read"; "write"; "update"]
  end.

(** Whether a metadata key is a schema tuple below a path. *)
Definition schemaKeyUnder (path : Attribute) (key : string * Attribute) : bool :=
  bool_decide (key.1 = "_schema" /\ path `prefix_of` key.2).

(** The tag of the first operation of a migration that [applyRemoteTransaction]
    does not recognise. *)
Fixpoint firstUnknown (operations : list DBOperation) : option string :=
  match operations with
  | [] => None
  | unknown_operation tag :: _ => Some tag
  | _ :: rest => firstUnknown rest
  end.

(** ** A small database

    A store with one storage scope, a migration that creates a [users]
    collection, readable when [name = "x"], and a [posts] collection,
    writable when [title != ""]; then one user and one post. *)
Module Example.

Definition emptyDb : DB.t :=
  {| DB.tripleStore :=
       {| TripleStore.data :=
            {| storage := {[ "default" := [] ]}; metadata := ∅ |};
          TripleStore.clock := 0;
          TripleStore.clientId := "alice" |};
     DB.variables := ∅;
     DB.entropy := 0 |}.

Definition readableUsers : Rule :=
  {| rule_filter := [FilterStatement "name" "=" (JStr "x")];
     rule_description := None |}.

Definition titledPosts : Rule :=
  {| rule_filter := [FilterStatement "title" "!=" (JStr "")];
     rule_description := None |}.

Definition createCollections : Migration :=
  {| up := [create_collection "users"
              [("name", {| attr_type := "string" |})]
              (Some {| read := Some [readableUsers]; write := None |});
            create_collection "posts"
              [("title", {| attr_type := "string" |})]
              (Some {| read := None; write := Some [titledPosts] |})];
     down := [drop_collection "posts"; drop_collection "users"];
     version := 1;
     parent := 0 |}.

(** After [migrate([createCollections], "up")]. *)
Definition migratedDb : DB.t :=
  (DB.migrate (H := Reference.collaborators) [createCollections] Up emptyDb).2.

(** After [insert("users", { name: "x" }, "u1")]. *)
Definition usersDb : DB.t :=
  (DB.insert (H := Reference.collaborators) "users"
     (JObj [("name", JStr "x")]) (Some "u1") None migratedDb).2.

(** After [insert("posts", { title: "hello" }, "p1")]. *)
Definition postsDb : DB.t :=
  (DB.insert (H := Reference.collaborators) "posts"
     (JObj [("title", JStr "hello")]) (Some "p1") None usersDb).2.

(** The stored entity [users#u1], with its timestamps. *)
Definition storedUser : JsValue :=
  JObj [("name",
         JObj [("value", JStr "x");
               ("timestamp", JArr [JNum 3; JStr "alice"])])].

(** The triple of [users#u1] that holds its name. *)
Definition nameTriple : TripleRow :=
  {| id := "users#u1"; attribute := [AStr "users"; AStr "name"];
     value := JStr "x"; timestamp := (3%nat, "alice"); expired := false |}.

(** The schema that [postsDb] stores, and its [posts] collection. *)
Definition postsStoreSchema : StoreSchema :=
  Eval vm_compute in
    default {| schemaVersion := None; collections := ∅ |}
      (readSchema (External := Reference.collaborators)
         (metadataTuples (metadata (TripleStore.data (DB.tripleStore postsDb))))).

Definition postsSchema : CollectionSchema :=
  Eval vm_compute in
    default emptyCollectionSchema (collections postsStoreSchema !! "posts").

(** A [docs] collection that has a read rule and a write rule, and one
    document in it. *)
Definition createDocs : Migration :=
  {| up := [create_collection "docs"
              [("title", {| attr_type := "string" |})]
              (Some {| read := Some [ {| rule_filter :=
                                            [FilterStatement "title" "!="
                                               (JStr "draft")];
                                          rule_description := None |} ];
                       write := Some [titledPosts] |})];
     down := [drop_collection "docs"];
     version := 1;
     parent := 0 |}.

(** After [migrate([createDocs], "up")] and
    [insert("docs", { title: "hello" }, "d1")]. *)
Definition docsDb : DB.t :=
  (DB.insert (H := Reference.collaborators) "docs"
     (JObj [("title", JStr "hello")]) (Some "d1") None
     (DB.migrate (H := Reference.collaborators) [createDocs] Up emptyDb).2).2.

(** A callback that stages a triple, and one that throws after that. *)
Definition stageTitle : DB.Callback :=
  fun _ =>
    modify (TripleStoreTransaction.setValue "posts#p2"
              [AStr "posts"; AStr "title"] (JStr "t")).

Definition stageTitleAndThrow : DB.Callback :=
  fun _ =>
    modify (TripleStoreTransaction.setValue "posts#p2"
              [AStr "posts"; AStr "title"] (JStr "t")) ;;;
    throw (JsError "boom").

(** An updater that empties the title: [post.title = ""]. *)
Definition emptyTitle `{External} : DBTransaction.Updater :=
  fun post => DBTransaction.proxySet post "title" (JStr "").

(** An updater that assigns to an attribute that the schema does not have:
    [post.subtitle = "s"]. *)
Definition setSubtitle `{External} : DBTransaction.Updater :=
  fun post => DBTransaction.proxySet post "subtitle" (JStr "s").

End Example.

(** * Properties *)

(** ** Variable resolution *)

Lemma inheritedProperty_cases (name : string) :
  inheritedProperty name = JUndefined
  \/ exists builtin, inheritedProperty name = JBuiltin builtin.
Proof. unfold inheritedProperty. repeat case_match; eauto. Qed.

Lemma getVariable_falsy (variables : Variables) (name : string) :
  truthy (getVariable variables name) = false <->
  (variables !! name = None /\ inheritedProperty name = JUndefined) \/
  exists v, variables !! name = Some v /\ truthy v = false.
Proof.
  unfold getVariable. destruct (variables !! name) as [v|].
  - split.
    + intros Hv. right. exists v. split; [reflexivity | exact Hv].
    + intros [[Hn _] | (w & Hw & Hf)]; [discriminate | congruence].
  - split.
    + intros Hf. left. split; [reflexivity|].
      destruct (inheritedProperty_cases name) as [Hu | [builtin Hb]];
        [exact Hu|].
      rewrite Hb in Hf. discriminate.
    + intros [[_ ->] | (w & Hw & _)]; [reflexivity | discriminate].
Qed.

Lemma replaceVariablesInFilter_variable (variables : Variables)
  (path op name : string) :
  replaceVariablesInFilter variables
    (FilterStatement path op (JStr (String "$" name))) =
  (if truthy (getVariable variables name)
   then inr (FilterStatement path op (getVariable variables name))
   else inl (SessionVariableNotFoundError (String "$" name)),
   FilterStatement path op (JStr (String "$" name))).
Proof. reflexivity. Qed.

(** The recursive call on the filters of a group is the function itself. *)
Lemma replaceVariablesInFilter_group (variables : Variables) (m : string)
  (fs : list Filter) :
  replaceVariablesInFilter variables (FilterGroup m fs) =
  match replaceVariablesInFilterStatements fs variables with
  | (inl e, fs1) => (inl e, FilterGroup m fs1)
  | (inr fs', _) => (inr (FilterGroup m fs'), FilterGroup m fs')
  end.
Proof.
  cbn [replaceVariablesInFilter].
  match goal with
  | |- match ?g fs with _ => _ end = _ =>
      assert (Hgo : forall l, g l = replaceVariablesInFilterStatements l variables)
  end.
  { induction l as [|f rest IH]; [reflexivity|].
    cbn [replaceVariablesInFilterStatements].
    destruct (replaceVariablesInFilter variables f) as [[e|f'] f1];
      [reflexivity|].
    rewrite IH. reflexivity. }
  rewrite Hgo. reflexivity.
Qed.

Lemma startsWith_dollar (s : string) :
  startsWith s "$" = true -> exists name, s = String "$" name.
Proof.
  destruct s as [|c r]; [discriminate|]. cbn [startsWith].
  intros Hc. apply andb_true_iff in Hc as [Hc _].
  apply Ascii.eqb_eq in Hc. subst c. exists r. reflexivity.
Qed.

(** A statement either has a [$]-string for its value or is returned as it
    is. *)
Lemma replaceVariablesInFilter_cases (variables : Variables)
  (path op : string) (v : JsValue) :
  (exists name, v = JStr (String "$" name))
  \/ (replaceVariablesInFilter variables (FilterStatement path op v) =
        (inr (FilterStatement path op v), FilterStatement path op v)
      /\ mentionsVariable (FilterStatement path op v) = false
      /\ forall name, mentionsName name (FilterStatement path op v) = false).
Proof.
  destruct v as [| |b|n| |s|xs|fields|builtin];
    try (right; split; [reflexivity | split; [reflexivity | reflexivity]]).
  destruct (startsWith s "$") eqn:Hs.
  - left. destruct (startsWith_dollar s Hs) as [name ->]. eauto.
  - right. split; [|split].
    + cbn -[startsWith]. rewrite Hs. reflexivity.
    + cbn -[startsWith]. exact Hs.
    + intros name. cbn [mentionsName].
      destruct (String.eqb s (String "$" name)) eqn:Heq; [|reflexivity].
      apply String.eqb_eq in Heq. subst s.
      cbn in Hs. discriminate.
Qed.

(** Induction on a where clause and on the filters in it together. *)
Lemma Filter_mutual_ind (P : Filter -> Prop) (Q : list Filter -> Prop) :
  (forall path op v, P (FilterStatement path op v)) ->
  (forall m fs, Q fs -> P (FilterGroup m fs)) ->
  Q [] ->
  (forall f rest, P f -> Q rest -> Q (f :: rest)) ->
  (forall f, P f) /\ (forall fs, Q fs).
Proof.
  intros Hs Hg Hnil Hcons.
  assert (HP : forall f, P f).
  { induction f as [path op v | m fs IH] using Filter_ind'; [apply Hs|].
    apply Hg. induction IH as [|f rest Hf _ IHrest]; [exact Hnil|].
    apply Hcons; assumption. }
  split; [exact HP|].
  induction fs as [|f rest IH]; [exact Hnil|].
  apply Hcons; [apply HP | exact IH].
Qed.

(** Resolution throws nothing but [SessionVariableNotFoundError], for a
    [$]-string of the clause whose variable reads as a falsy value. *)
Lemma resolution_error_name (variables : Variables) :
  (forall f e f1,
     replaceVariablesInFilter variables f = (inl e, f1) ->
     exists name,
       e = SessionVariableNotFoundError (String "$" name)
       /\ truthy (getVariable variables name) = false
       /\ mentionsName name f = true)
  /\ (forall fs e fs1,
        replaceVariablesInFilterStatements fs variables = (inl e, fs1) ->
        exists name,
          e = SessionVariableNotFoundError (String "$" name)
          /\ truthy (getVariable variables name) = false
          /\ existsb (mentionsName name) fs = true).
Proof.
  apply Filter_mutual_ind.
  - intros path op v e f1 He.
    destruct (replaceVariablesInFilter_cases variables path op v)
      as [[name ->] | (Hsame & _)]; [|rewrite Hsame in He; discriminate].
    rewrite replaceVariablesInFilter_variable in He.
    destruct (truthy (getVariable variables name)) eqn:Ht; [discriminate|].
    inversion He; subst. exists name.
    split; [reflexivity|]. split; [exact Ht|].
    cbn [mentionsName]. apply String.eqb_refl.
  - intros m fs IH e f1 He. rewrite replaceVariablesInFilter_group in He.
    destruct (replaceVariablesInFilterStatements fs variables)
      as [[e'|fs'] fs1] eqn:Hfs; [|discriminate].
    inversion He; subst. exact (IH _ _ eq_refl).
  - intros e fs1 He. discriminate.
  - intros f rest IHf IHrest e fs1 He.
    cbn [replaceVariablesInFilterStatements] in He.
    destruct (replaceVariablesInFilter variables f) as [[e1|f'] f1] eqn:Hf.
    + inversion He; subst.
      destruct (IHf _ _ eq_refl) as (name & -> & Ht & Hm).
      exists name. cbn [existsb]. rewrite Hm. auto.
    + destruct (replaceVariablesInFilterStatements rest variables)
        as [[e2|r'] r1] eqn:Hr; [|discriminate].
      inversion He; subst.
      destruct (IHrest _ _ eq_refl) as (name & -> & Ht & Hm).
      exists name. cbn [existsb]. rewrite Hm, orb_true_r. auto.
Qed.

(** A [$]-string whose variable reads as a falsy value makes resolution
    throw, wherever it stands in the clause. *)
Lemma resolution_raises (variables : Variables) :
  (forall f name,
     mentionsName name f = true ->
     truthy (getVariable variables name) = false ->
     exists e f1, replaceVariablesInFilter variables f = (inl e, f1))
  /\ (forall fs name,
        existsb (mentionsName name) fs = true ->
        truthy (getVariable variables name) = false ->
        exists e fs1,
          replaceVariablesInFilterStatements fs variables = (inl e, fs1)).
Proof.
  apply Filter_mutual_ind.
  - intros path op v name Hm Hfalsy.
    destruct (replaceVariablesInFilter_cases variables path op v)
      as [[name' ->] | (_ & _ & Hno)]; [|rewrite Hno in Hm; discriminate].
    cbn [mentionsName] in Hm. apply String.eqb_eq in Hm. inversion Hm; subst.
    rewrite replaceVariablesInFilter_variable, Hfalsy. eauto.
  - intros m fs IH name Hm Hfalsy. rewrite replaceVariablesInFilter_group.
    destruct (IH name Hm Hfalsy) as (e & fs1 & ->). eauto.
  - intros name Hm. discriminate.
  - intros f rest IHf IHrest name Hm Hfalsy.
    cbn [replaceVariablesInFilterStatements].
    destruct (replaceVariablesInFilter variables f) as [[e1|f'] f1] eqn:Hf;
      [eauto|].
    cbn [existsb] in Hm. apply orb_true_iff in Hm as [Hm | Hm].
    + destruct (IHf name Hm Hfalsy) as (e & f2 & Hrun). congruence.
    + destruct (IHrest name Hm Hfalsy) as (e & fs1 & ->). eauto.
Qed.

(** Resolution keeps the shape of what it returns and of what it leaves. *)
Lemma resolution_shape (variables : Variables) :
  (forall f r f1,
     replaceVariablesInFilter variables f = (r, f1) ->
     filterShape f1 = filterShape f
     /\ forall f', r = inr f' -> filterShape f' = filterShape f)
  /\ (forall fs r fs1,
        replaceVariablesInFilterStatements fs variables = (r, fs1) ->
        map filterShape fs1 = map filterShape fs
        /\ forall fs', r = inr fs' -> map filterShape fs' = map filterShape fs).
Proof.
  apply Filter_mutual_ind.
  - intros path op v r f1 Hrun.
    destruct (replaceVariablesInFilter_cases variables path op v)
      as [[name ->] | (Hsame & _)].
    + rewrite replaceVariablesInFilter_variable in Hrun.
      inversion Hrun; subst. split; [reflexivity|].
      intros f' Hf'. destruct (truthy _); [|discriminate].
      inversion Hf'. reflexivity.
    + rewrite Hsame in Hrun. inversion Hrun; subst. split; [reflexivity|].
      intros f' Hf'. inversion Hf'. reflexivity.
  - intros m fs IH r f1 Hrun. rewrite replaceVariablesInFilter_group in Hrun.
    destruct (replaceVariablesInFilterStatements fs variables)
      as [[e|fs'] fs1] eqn:Hfs;
      destruct (IH _ _ eq_refl) as [Hleft Hreturned];
      inversion Hrun; subst; cbn [filterShape].
    + rewrite Hleft. split; [reflexivity|]. intros f' Hf'. discriminate.
    + rewrite (Hreturned fs' eq_refl). split; [reflexivity|].
      intros f' Hf'. inversion Hf'; subst. cbn [filterShape].
      rewrite (Hreturned fs' eq_refl). reflexivity.
  - intros r fs1 Hrun. inversion Hrun; subst. split; [reflexivity|].
    intros fs' Hfs'. inversion Hfs'. reflexivity.
  - intros f rest IHf IHrest r fs1 Hrun.
    cbn [replaceVariablesInFilterStatements] in Hrun.
    destruct (replaceVariablesInFilter variables f) as [[e1|f'] f1] eqn:Hf;
      destruct (IHf _ _ eq_refl) as [Hleft Hreturned].
    + inversion Hrun; subst. cbn [map]. rewrite Hleft.
      split; [reflexivity|]. intros fs' Hfs'. discriminate.
    + destruct (replaceVariablesInFilterStatements rest variables)
        as [[e2|r'] r1] eqn:Hr;
        destruct (IHrest _ _ eq_refl) as [Hleft' Hreturned'];
        inversion Hrun; subst; cbn [map]; rewrite Hleft, Hleft';
        (split; [reflexivity|]); intros fs' Hfs'; [discriminate|].
      inversion Hfs'; subst. cbn [map].
      rewrite (Hreturned f' eq_refl), (Hreturned' r' eq_refl). reflexivity.
Qed.

(** Without a [$]-string nothing is replaced and nothing is rewritten. *)
Lemma resolution_variable_free (variables : Variables) :
  (forall f, mentionsVariable f = false ->
     replaceVariablesInFilter variables f = (inr f, f))
  /\ (forall fs, existsb mentionsVariable fs = false ->
        replaceVariablesInFilterStatements fs variables = (inr fs, fs)).
Proof.
  apply Filter_mutual_ind.
  - intros path op v Hfree.
    destruct (replaceVariablesInFilter_cases variables path op v)
      as [[name ->] | (Hsame & _)]; [discriminate | exact Hsame].
  - intros m fs IH Hfree. rewrite replaceVariablesInFilter_group.
    cbn [mentionsVariable] in Hfree. rewrite (IH Hfree). reflexivity.
  - reflexivity.
  - intros f rest IHf IHrest Hfree. cbn [existsb] in Hfree.
    apply orb_false_iff in Hfree as [Hf Hr].
    cbn [replaceVariablesInFilterStatements].
    rewrite (IHf Hf), (IHrest Hr). reflexivity.
Qed.

(** What a resolution that returns leaves of the clause it was given:
    the statements as they were, the groups as they are returned. *)
Lemma resolution_in_place (variables : Variables) :
  (forall f f' f1,
     replaceVariablesInFilter variables f = (inr f', f1) ->
     f1 = keepStatement f f')
  /\ (forall fs fs' fs1,
        replaceVariablesInFilterStatements fs variables = (inr fs', fs1) ->
        fs1 = zip_with keepStatement fs fs').
Proof.
  apply Filter_mutual_ind.
  - intros path op v f' f1 Hrun. cbn [replaceVariablesInFilter] in Hrun.
    inversion Hrun. reflexivity.
  - intros m fs IH f' f1 Hrun. rewrite replaceVariablesInFilter_group in Hrun.
    destruct (replaceVariablesInFilterStatements fs variables)
      as [[e|fs'] fs1]; [discriminate|].
    inversion Hrun. reflexivity.
  - intros fs' fs1 Hrun. inversion Hrun. reflexivity.
  - intros f rest IHf IHrest fs' fs1 Hrun.
    cbn [replaceVariablesInFilterStatements] in Hrun.
    destruct (replaceVariablesInFilter variables f) as [[e1|f'] f1] eqn:Hf;
      [discriminate|].
    destruct (replaceVariablesInFilterStatements rest variables)
      as [[e2|r'] r1] eqn:Hr; [discriminate|].
    inversion Hrun; subst. cbn [zip_with].
    rewrite (IHf _ _ eq_refl), (IHrest _ _ eq_refl). reflexivity.
Qed.

Lemma replaceVariablesInFilterStatements_app (variables : Variables)
  (own added : QueryWhere) :
  replaceVariablesInFilterStatements (own ++ added) variables =
  match replaceVariablesInFilterStatements own variables with
  | (inl e, own1) => (inl e, own1 ++ added)
  | (inr own', own1) =>
      match replaceVariablesInFilterStatements added variables with
      | (inl e, added1) => (inl e, own1 ++ added1)
      | (inr added', added1) => (inr (own' ++ added'), own1 ++ added1)
      end
  end.
Proof.
  induction own as [|f own IH]; cbn [app replaceVariablesInFilterStatements].
  - destruct (replaceVariablesInFilterStatements added variables)
      as [[e|added'] added1]; reflexivity.
  - destruct (replaceVariablesInFilter variables f) as [[e|f'] f1];
      [reflexivity|].
    rewrite IH.
    destruct (replaceVariablesInFilterStatements own variables)
      as [[e|own'] own1]; [reflexivity|].
    destruct (replaceVariablesInFilterStatements added variables)
      as [[e|added'] added1]; reflexivity.
Qed.

(** What [replaceVariablesInQuery] returns or throws. *)
Lemma replaceVariablesInQuery_result (variables : option Variables)
  (query : CollectionQuery) :
  (replaceVariablesInQuery variables query).1 =
  match (replaceVariablesInFilterStatements (where_ query)
           (mergeVariables variables (vars query))).1 with
  | inl e => inl e
  | inr where' =>
      inr {| collectionName := collectionName query; where_ := where';
             vars := vars query |}
  end.
Proof.
  unfold replaceVariablesInQuery.
  destruct (replaceVariablesInFilterStatements _ _) as [r where1].
  reflexivity.
Qed.

(** C10. During variable resolution a filter whose value is a string
    starting with [$] raises [SessionVariableNotFound] whenever the value
    bound to the variable is falsy (0, false, the empty string or null),
    wherever the filter stands in the where clause, and only truthy values
    are substituted. A variable that is absent from the variables map
    raises it too, unless its name is one that every object inherits from
    [Object.prototype]: [variables[name]] then reads the inherited member,
    which is truthy, and the filter [["owner", "=", "$constructor"]] is
    resolved to the function [Object] with an empty map, where the claim
    has it raise. *)
Theorem C10_inherited_name_is_substituted :
  (forall (variables : Variables) (statements : QueryWhere) (name : string),
     existsb (mentionsName name) statements = true ->
     truthy (getVariable variables name) = false ->
     exists name',
       (replaceVariablesInFilterStatements statements variables).1 =
         inl (SessionVariableNotFoundError (String "$" name'))
       /\ truthy (getVariable variables name') = false
       /\ existsb (mentionsName name') statements = true)
  /\ (forall (variables : Variables) (name : string) (v : JsValue),
        variables !! name = Some v ->
        getVariable variables name = v)
  /\ (truthy (JNum 0) = false /\ truthy (JBool false) = false
      /\ truthy (JStr "") = false /\ truthy JNull = false)
  /\ (forall (variables : Variables) (name : string),
        variables !! name = None ->
        (truthy (getVariable variables name) = false <->
         inheritedProperty name = JUndefined))
  /\ (∅ : Variables) !! "constructor" = None
  /\ (replaceVariablesInFilterStatements
        [FilterStatement "owner" "=" (JStr "$constructor")] ∅).1 =
     inr [FilterStatement "owner" "=" (JBuiltin "Object")]
  /\ (replaceVariablesInQuery (Some ∅)
        {| collectionName := Some "posts";
           where_ := [FilterGroup "and"
                        [FilterStatement "owner" "=" (JStr "$toString")]];
           vars := None |}).1 =
     inr {| collectionName := Some "posts";
            where_ := [FilterGroup "and"
                         [FilterStatement "owner" "="
                            (JBuiltin "Object.prototype.toString")]];
            vars := None |}
  /\ (replaceVariablesInFilterStatements
        [FilterStatement "owner" "=" (JStr "$user")] ∅).1 =
     inl (SessionVariableNotFoundError "$user").
Proof.
  split; [|split; [|split; [|split]]].
  - intros variables statements name Hmentioned Hfalsy.
    destruct (proj2 (resolution_raises variables) statements name Hmentioned
                Hfalsy) as (e & fs1 & Hrun).
    destruct (proj2 (resolution_error_name variables) _ _ _ Hrun)
      as (name' & -> & Hfalsy' & Hmentioned').
    exists name'. rewrite Hrun. auto.
  - intros variables name v Hbound. unfold getVariable. rewrite Hbound.
    reflexivity.
  - repeat split.
  - intros variables name Habsent. rewrite getVariable_falsy. split.
    + intros [[_ Hu] | (v & Hv & _)]; [exact Hu | congruence].
    + intros Hu. left. split; assumption.
  - repeat split.
Qed.

Lemma C10_inherited_name_is_substituted_witness :
  exists name',
    (replaceVariablesInFilterStatements
       [FilterStatement "draft" "=" (JBool false);
        FilterGroup "or" [FilterStatement "owner" "=" (JStr "$user");
                          FilterStatement "team" "=" (JStr "$team")]]
       {[ "user" := JStr "ann"; "team" := JNum 0 ]}).1 =
      inl (SessionVariableNotFoundError (String "$" name'))
    /\ truthy (getVariable {[ "user" := JStr "ann"; "team" := JNum 0 ]} name')
       = false
    /\ existsb (mentionsName name')
         [FilterStatement "draft" "=" (JBool false);
          FilterGroup "or" [FilterStatement "owner" "=" (JStr "$user");
                            FilterStatement "team" "=" (JStr "$team")]] = true.
Proof.
  apply (proj1 C10_inherited_name_is_substituted
           {[ "user" := JStr "ann"; "team" := JNum 0 ]} _ "team");
    vm_compute; reflexivity.
Defined.

(** ** Computations *)

Lemma bind_ret_tt {S} (m : Eff S unit) (s : S) : (m ;;; ret tt) s = m s.
Proof. unfold bind, ret. destruct (m s) as [[e|[]] s']; reflexivity. Qed.

Lemma forEach_one {S A} (x : A) (body : A -> Eff S unit) (s : S) :
  forEach [x] body s = body x s.
Proof. cbn [forEach]. apply bind_ret_tt. Qed.

Lemma withStore_same (db : DB.t) : withStore (DB.tripleStore db) db = db.
Proof. destruct db; reflexivity. Qed.

(** ** Transactions *)

(** [TripleStore.transact] leaves the store as it was when the callback
    throws. *)
Lemma TripleStore_transact_throw {A} (callback : Eff TripleStoreTransaction.t A)
  (scope : option StorageScope) (store : TripleStore.t) (e : TriplitError)
  (tx : TripleStoreTransaction.t) :
  callback (TripleStore.begin scope store) = (inl e, tx) ->
  TripleStore.transact callback scope store = (inl e, store).
Proof. intros Hcb. unfold TripleStore.transact. rewrite Hcb. reflexivity. Qed.

Lemma TripleStore_transact_return {A} (callback : Eff TripleStoreTransaction.t A)
  (scope : option StorageScope) (store : TripleStore.t) (a : A)
  (tx : TripleStoreTransaction.t) :
  callback (TripleStore.begin scope store) = (inr a, tx) ->
  TripleStore.transact callback scope store =
  (inr (TripleStoreTransaction.commitTimestamp tx), TripleStore.commit tx store).
Proof. intros Hcb. unfold TripleStore.transact. rewrite Hcb. reflexivity. Qed.

(** C7. [transact(cb, scope)] commits the transaction when [cb] returns
    without throwing: the store then holds the data of the transaction.
    When [cb] throws, the transaction is cancelled (it is reset to its
    snapshot, and the store is left as it was) and the same exception is
    raised to the caller. *)
Theorem C7_transact_commits_or_cancels :
  forall (callback : DB.Callback) (storeScope : option StorageScope)
         (db : DB.t),
    let tx0 := TripleStore.begin storeScope (DB.tripleStore db) in
    let wrapped :=
      tryCatch (callback (Some (DB.variables db)))
               (fun e => DBTransaction.cancel ;;; throw e) in
    (forall tx, callback (Some (DB.variables db)) tx0 = (inr tt, tx) ->
       DB.transact callback storeScope db =
         (inr (TripleStoreTransaction.commitTimestamp tx),
          withStore (TripleStore.commit tx (DB.tripleStore db)) db)
       /\ TripleStore.data (TripleStore.commit tx (DB.tripleStore db)) =
          TripleStoreTransaction.data tx)
    /\ (forall e tx, callback (Some (DB.variables db)) tx0 = (inl e, tx) ->
       DB.transact callback storeScope db = (inl e, db)
       /\ exists tx',
            wrapped tx0 = (inl e, tx')
            /\ TripleStoreTransaction.canceled tx' = true
            /\ TripleStoreTransaction.data tx' =
               TripleStoreTransaction.snapshot tx).
Proof.
  intros callback storeScope db tx0 wrapped. split.
  - intros tx Hcb. split; [|reflexivity].
    change (DB.transact callback storeScope db)
      with (DB.liftStore (TripleStore.transact wrapped storeScope) db).
    unfold DB.liftStore.
    rewrite (TripleStore_transact_return wrapped _ _ tt tx).
    + reflexivity.
    + unfold wrapped, tryCatch. fold tx0. rewrite Hcb. reflexivity.
  - intros e tx Hcb.
    assert (Hw : wrapped tx0 =
                 (inl e, (DBTransaction.cancel tx).2)).
    { unfold wrapped, tryCatch. rewrite Hcb. reflexivity. }
    split.
    + change (DB.transact callback storeScope db)
        with (DB.liftStore (TripleStore.transact wrapped storeScope) db).
      unfold DB.liftStore.
      rewrite (TripleStore_transact_throw wrapped _ _ e _ Hw).
      destruct db; reflexivity.
    + eexists. split; [exact Hw|]. split; reflexivity.
Qed.

(** ** Migrations *)

Lemma canMigrate_spec (migration : Migration) (direction : Direction) (v : Z) :
  canMigrate migration direction v = true <->
  (direction = Up /\ parent migration = v) \/
  (direction = Down /\ version migration = v).
Proof.
  destruct direction; cbn [canMigrate]; rewrite Z.eqb_eq; split.
  - intros Hp. left. split; [reflexivity | exact Hp].
  - intros [[_ Hp] | [Hd _]]; [exact Hp | discriminate].
  - intros Hv. right. split; [reflexivity | exact Hv].
  - intros [[Hd _] | [_ Hv]]; [discriminate | exact Hv].
Qed.

(** What one step of [migrate] does when the gate is open: the operations
    in a transaction, then the version tuple. *)
Lemma migrateOne_open `{External} (direction : Direction)
  (migration : Migration) (db : DB.t) :
  canMigrate migration direction (currentVersion db) = true ->
  DB.migrateOne direction migration db =
  (DB.applyRemoteTransaction (operationsOf migration direction) ;;;
   DB.liftStore
     (TripleStore.updateMetadataTuples [versionTuple migration direction])) db.
Proof.
  intros Hgate. unfold DB.migrateOne.
  unfold bind at 1. unfold DB.readStoreSchema, gets.
  fold (currentVersion db). rewrite Hgate.
  unfold bind, tryCatch, throw.
  destruct (DB.applyRemoteTransaction _ db) as [[e|[]] db1]; reflexivity.
Qed.

Lemma migrateOne_closed `{External} (direction : Direction)
  (migration : Migration) (db : DB.t) :
  canMigrate migration direction (currentVersion db) = false ->
  DB.migrateOne direction migration db = (inr tt, db).
Proof.
  intros Hgate. unfold DB.migrateOne.
  unfold bind at 1. unfold DB.readStoreSchema, gets.
  fold (currentVersion db). rewrite Hgate. reflexivity.
Qed.

(** The operations of a migration are all applied or none is: when one of
    them throws, the store is left as it was and the version tuple is not
    written. *)
Lemma applyRemoteTransaction_throw `{External} (operations : list DBOperation)
  (db db' : DB.t) (e : TriplitError) :
  DB.applyRemoteTransaction operations db = (inl e, db') -> db' = db.
Proof.
  unfold DB.applyRemoteTransaction, bind, DB.liftStore, TripleStore.transact.
  destruct (forEach operations _ _) as [[e'|[]] tx]; cbn.
  - intros Heq. inversion Heq; subst. destruct db; reflexivity.
  - discriminate.
Qed.

Lemma migrate_throw_unchanged `{External} (direction : Direction)
  (migration : Migration) (db db' : DB.t) (e : TriplitError) :
  canMigrate migration direction (currentVersion db) = true ->
  DB.applyRemoteTransaction (operationsOf migration direction) db = (inl e, db') ->
  DB.migrate [migration] direction db = (inl e, db).
Proof.
  intros Hgate Hops.
  pose proof (applyRemoteTransaction_throw _ _ _ _ Hops) as ->.
  unfold DB.migrate. rewrite forEach_one, migrateOne_open by exact Hgate.
  unfold bind at 1. rewrite Hops. reflexivity.
Qed.

(** When the operations succeed, the version tuple is written by a second
    transaction, after the one of the operations has committed. *)
Lemma migrate_two_transactions `{External} (direction : Direction)
  (migration : Migration) (db db1 : DB.t) :
  canMigrate migration direction (currentVersion db) = true ->
  DB.applyRemoteTransaction (operationsOf migration direction) db = (inr tt, db1) ->
  TripleStore.clock (DB.tripleStore db1) = S (TripleStore.clock (DB.tripleStore db))
  /\ exists db2,
       DB.migrate [migration] direction db = (inr tt, db2)
       /\ TripleStore.clock (DB.tripleStore db2) =
          S (TripleStore.clock (DB.tripleStore db1))
       /\ metadata (TripleStore.data (DB.tripleStore db2)) =
          <[("_schema", [AStr "version"]) := (versionTuple migration direction).2]>
            (metadata (TripleStore.data (DB.tripleStore db1))).
Proof.
  intros Hgate Hops. split.
  - revert Hops.
    unfold DB.applyRemoteTransaction, bind, DB.liftStore, TripleStore.transact.
    destruct (forEach _ _ _) as [[e'|[]] tx]; cbn; [discriminate|].
    intros Heq. inversion Heq; subst. reflexivity.
  - unfold DB.migrate. rewrite forEach_one, migrateOne_open by exact Hgate.
    unfold bind at 1. rewrite Hops.
    eexists. split; [reflexivity|]. split; reflexivity.
Qed.

(** C2. Evaluation of [migrate] on a migration that applies: the
    operations commit in a first transaction, in which the version is still
    the old one, and the version tuple is written by a second transaction.
    The claim puts the version tuple in the transaction of the
    operations. *)
Theorem C2_version_written_outside_transaction :
  let ext := Reference.collaborators in
  let afterOperations :=
    (DB.applyRemoteTransaction (H := ext) (up Example.createCollections)
       Example.emptyDb).2 in
  DB.migrate (H := ext) [Example.createCollections] Up Example.emptyDb =
    (inr tt, Example.migratedDb)
  /\ TripleStore.clock (DB.tripleStore afterOperations) = 1%nat
  /\ metadata (TripleStore.data (DB.tripleStore afterOperations))
       !! ("_schema", [AStr "collections"; AStr "users"; AStr "attributes";
                       AStr "name"; AStr "type"]) = Some (JStr "string")
  /\ metadata (TripleStore.data (DB.tripleStore afterOperations))
       !! ("_schema", [AStr "version"]) = None
  /\ currentVersion (H := ext) afterOperations = 0%Z
  /\ TripleStore.clock (DB.tripleStore Example.migratedDb) = 2%nat
  /\ currentVersion (H := ext) Example.migratedDb = 1%Z.
Proof.
  intros ext afterOperations. split.
  - unfold Example.migratedDb.
    rewrite (surjective_pairing (DB.migrate _ _ _)) at 1.
    apply pair_equal_spec. split; [vm_compute; reflexivity | reflexivity].
  - repeat split; vm_compute; reflexivity.
Qed.

(** ** Reading *)

Lemma DB_getCollectionSchema_run `{External} (collectionName : string)
  (db : DB.t) :
  DB.getCollectionSchema collectionName db = (inr (schemaOf db collectionName), db).
Proof.
  unfold DB.getCollectionSchema, DB.getSchema, DB.readStoreSchema, schemaOf,
    bind, gets, ret.
  destruct (readSchema _); reflexivity.
Qed.

Lemma DB_replaceVariables_run (query : CollectionQuery) (db : DB.t) :
  DB.replaceVariables query db =
  ((replaceVariablesInQuery (Some (DB.variables db)) query).1, db).
Proof. reflexivity. Qed.

(** The entity that [fetchById] reads from the store. *)
Lemma DB_fetchById_run `{External} (collectionName id : string) (db : DB.t) :
  let schema := schemaOf db collectionName in
  let entity :=
    constructEntity
      (TripleStore.findByEntity (appendCollectionToId collectionName id)
         (DB.tripleStore db)) in
  DB.fetchById collectionName id db =
  (if negb (truthy entity) then inr JNull
   else match readRulesOf schema with
        | Some readRules =>
            match (replaceVariablesInQuery (Some (DB.variables db))
                     {| collectionName := None;
                        where_ := ruleFilters readRules; vars := None |}).1 with
            | inl e => inl e
            | inr query =>
                if doesEntityObjMatchWhere entity (where_ query) schema
                then inr entity else inr JNull
            end
        | None => inr (timestampedObjectToPlainObject entity)
        end,
   db).
Proof.
  intros schema entity. unfold DB.fetchById.
  unfold bind at 1. rewrite DB_getCollectionSchema_run. fold schema.
  unfold bind at 1. unfold DB.getEntity, gets. fold entity.
  destruct (truthy entity); cbn [negb]; [|reflexivity].
  destruct (readRulesOf schema) as [readRules|]; [|reflexivity].
  unfold bind. rewrite DB_replaceVariables_run.
  destruct (replaceVariablesInQuery _ _).1 as [e|query]; [reflexivity|].
  destruct (doesEntityObjMatchWhere _ _ _); reflexivity.
Qed.

(** [fetchById] returns [null] when there is no entity, and the plain
    document when the collection has no read rules. *)
Lemma DB_fetchById_missing `{External} (collectionName id : string) (db : DB.t) :
  truthy (constructEntity
            (TripleStore.findByEntity (appendCollectionToId collectionName id)
               (DB.tripleStore db))) = false ->
  DB.fetchById collectionName id db = (inr JNull, db).
Proof. intros Hnone. rewrite DB_fetchById_run, Hnone. reflexivity. Qed.

Lemma DB_fetchById_plain `{External} (collectionName id : string) (db : DB.t) :
  let entity :=
    constructEntity
      (TripleStore.findByEntity (appendCollectionToId collectionName id)
         (DB.tripleStore db)) in
  truthy entity = true ->
  readRulesOf (schemaOf db collectionName) = None ->
  DB.fetchById collectionName id db =
  (inr (timestampedObjectToPlainObject entity), db).
Proof.
  intros entity Hsome Hrules. rewrite DB_fetchById_run.
  fold entity. rewrite Hsome, Hrules. reflexivity.
Qed.

(** With read rules that the entity satisfies, [fetchById] returns the
    timestamped entity itself. *)
Lemma DB_fetchById_read_rules `{External} (collectionName id : string)
  (db : DB.t) (readRules : list Rule) (query : CollectionQuery) :
  let schema := schemaOf db collectionName in
  let entity :=
    constructEntity
      (TripleStore.findByEntity (appendCollectionToId collectionName id)
         (DB.tripleStore db)) in
  truthy entity = true ->
  readRulesOf schema = Some readRules ->
  (replaceVariablesInQuery (Some (DB.variables db))
     {| collectionName := None; where_ := ruleFilters readRules;
        vars := None |}).1
  = inr query ->
  doesEntityObjMatchWhere entity (where_ query) schema = true ->
  DB.fetchById collectionName id db = (inr entity, db).
Proof.
  intros schema entity Hsome Hrules Hquery Hmatch. rewrite DB_fetchById_run.
  fold entity schema. rewrite Hsome, Hrules, Hquery, Hmatch. reflexivity.
Qed.

(** C4. Evaluation of [fetchById] on a collection with a read rule that the
    entity satisfies: the result is the timestamped entity, every leaf
    still carrying its timestamp, where the claim has the plain document
    [{ name: "x" }]. *)
Theorem C4_fetchById_read_rules_keeps_timestamps :
  let ext := Reference.collaborators in
  readRulesOf (schemaOf (H := ext) Example.usersDb "users") =
    Some [ {| rule_filter := [FilterStatement "name" "=" (JStr "x")];
              rule_description := None |} ]
  /\ DB.fetchById (H := ext) "users" "u1" Example.usersDb =
     (inr Example.storedUser, Example.usersDb)
  /\ timestampedObjectToPlainObject (External := ext) Example.storedUser =
     JObj [("name", JStr "x")]
  /\ Example.storedUser <> JObj [("name", JStr "x")]
  /\ DB.fetchById (H := ext) "users" "u2" Example.usersDb =
     (inr JNull, Example.usersDb).
Proof.
  intros ext. split; [vm_compute; reflexivity|].
  split; [|split; [vm_compute; reflexivity|split; [discriminate|]]].
  - rewrite DB_fetchById_run.
    apply pair_equal_spec. split; [vm_compute; reflexivity | reflexivity].
  - rewrite DB_fetchById_run.
    apply pair_equal_spec. split; [vm_compute; reflexivity | reflexivity].
Qed.

(** ** The update proxy *)

(** C5. In the mutator of [update], when a schema is present, assigning to
    a path that the schema does not recognise throws and stages no change
    for that path; what is thrown is a bare [Error], not a typed error of
    [./errors] such as the [UnknownAttribute] of the claim. *)
Theorem C5_unknown_attribute_throws_untyped_error :
  forall `{External} (entity : JsValue) (schema : CollectionSchema)
         (pre prop : string) (v : JsValue) (changes : ChangeTracker),
    getSchemaFromPath schema
      (split SLASH (slice1 (join "/" [pre; prop]))) = None ->
    exists e,
      DBTransaction.proxySet
        (DBTransaction.createUpdateProxy entity (Some schema) pre) prop v changes
      = (inl e, changes)
      /\ e = JsError ("Cannot set unrecognized property " +:+ join "/" [pre; prop]
                      +:+ " to " +:+ templateString v)
      /\ isTriplitError e = false.
Proof.
  intros ext entity schema pre prop v changes Hunknown.
  eexists. split; [|split; reflexivity].
  unfold DBTransaction.proxySet, DBTransaction.createUpdateProxy.
  cbn [DBTransaction.prefix DBTransaction.proxySchema].
  rewrite Hunknown. reflexivity.
Qed.

(** ** Inserting *)

Lemma includes_nonempty (s : string) (c : Ascii.ascii) :
  includes s c = true -> String.eqb s "" = false.
Proof. destruct s; [discriminate | reflexivity]. Qed.

(** What the write-rule check of [insert] does. *)
Lemma DB_insert_run `{External} (collectionName : string) (doc : JsValue)
  (storeScope : option StorageScope) (db : DB.t) :
  let schema := schemaOf db collectionName in
  let store := DB.tripleStore db in
  let committed :=
    {| DB.tripleStore :=
         inserted collectionName doc (nanoid (DB.entropy db)) storeScope store;
       DB.variables := DB.variables db;
       DB.entropy := S (DB.entropy db) |} in
  let success :=
    (inr (S (TripleStore.clock store), TripleStore.clientId store), committed) in
  DB.insert collectionName doc None storeScope db =
  match writeRulesOf schema with
  | Some (rule :: rest) =>
      match (replaceVariablesInQuery (Some (DB.variables db))
               {| collectionName := None;
                  where_ := ruleFilters (rule :: rest); vars := None |}).1 with
      | inl e => (inl e, db)
      | inr query =>
          if doesEntityObjMatchWhere (objectToTimestampedObject doc)
               (where_ query) schema
          then success
          else (inl (WriteRuleError "Insert does not match write rules"), db)
      end
  | _ => success
  end.
Proof.
  intros schema store committed success. unfold DB.insert.
  unfold bind at 1. cbn [ret].
  unfold bind at 1. rewrite DB_getCollectionSchema_run. fold schema.
  assert (Hrun : forall db',
    db' = db ->
    (entityId <- DB.nextId ;;
     timestamp <-
       DB.liftStore
         (TripleStore.transact
            (modify (fun tx =>
               TripleStoreTransaction.insertTriples
                 (documentTriples (appendCollectionToId collectionName entityId)
                    doc collectionName
                    (TripleStoreTransaction.commitTimestamp tx)) tx))
            storeScope) ;;
     ret timestamp) db' = success).
  { intros db' ->. reflexivity. }
  destruct (writeRulesOf schema) as [[|rule rest]|].
  - unfold bind at 1. cbn [ret]. apply Hrun. reflexivity.
  - unfold bind at 1. unfold bind at 1. rewrite DB_replaceVariables_run.
    destruct (replaceVariablesInQuery _ _).1 as [e|query]; [reflexivity|].
    destruct (doesEntityObjMatchWhere _ _ _); cbn [negb].
    + cbn [ret]. apply Hrun. reflexivity.
    + reflexivity.
  - unfold bind at 1. cbn [ret]. apply Hrun. reflexivity.
Qed.

(** What the rule check of [insert] resolves: the filters of the write
    rules, with the variables of the handle. *)
Lemma replaceVariablesInQuery_rules (variables : option Variables)
  (filters : QueryWhere) :
  (replaceVariablesInQuery variables
     {| collectionName := None; where_ := filters; vars := None |}).1 =
  match (replaceVariablesInFilterStatements filters
           (mergeVariables variables None)).1 with
  | inl e => inl e
  | inr where' =>
      inr {| collectionName := None; where_ := where'; vars := None |}
  end.
Proof. apply replaceVariablesInQuery_result. Qed.

(** The claim has every insert without an id generate one and return the
    commit timestamp. An insert that the write rules of the collection
    reject does neither: [posts] takes no document with an empty title. *)
Lemma C8_insert_without_id_can_be_rejected :
  ~ (exists timestamp db',
       DB.insert (H := Reference.collaborators) "posts"
         (JObj [("title", JStr "")]) None None Example.postsDb =
       (inr timestamp, db')).
Proof.
  intros (timestamp & db' & Hrun).
  rewrite DB_insert_run in Hrun. cbv zeta in Hrun.
  assert (Hrules :
    writeRulesOf (schemaOf (H := Reference.collaborators) Example.postsDb
                    "posts") = Some [Example.titledPosts])
    by (vm_compute; reflexivity).
  rewrite Hrules in Hrun.
  assert (Hquery :
    (replaceVariablesInQuery (Some (DB.variables Example.postsDb))
       {| collectionName := None;
          where_ := ruleFilters [Example.titledPosts]; vars := None |}).1 =
    inr {| collectionName := None;
           where_ := [FilterStatement "title" "!=" (JStr "")];
           vars := None |})
    by (vm_compute; reflexivity).
  rewrite Hquery in Hrun. cbn [where_] in Hrun.
  assert (Hmatch :
    doesEntityObjMatchWhere (External := Reference.collaborators)
      (objectToTimestampedObject (External := Reference.collaborators)
         (JObj [("title", JStr "")]))
      [FilterStatement "title" "!=" (JStr "")]
      (schemaOf (H := Reference.collaborators) Example.postsDb "posts") = false)
    by (vm_compute; reflexivity).
  rewrite Hmatch in Hrun.
  apply (f_equal fst) in Hrun. cbn [fst] in Hrun. discriminate Hrun.
Qed.

(** C8. An [insert] whose id contains [#] fails with [InvalidEntityId] and
    writes nothing. When the id is omitted and the collection has no write
    rules, or the document satisfies them, an id is generated and the
    insert returns the commit timestamp, the document being stored under
    the generated id. When the document does not satisfy the write rules,
    the insert throws [WriteRuleError], and when a variable of the write
    rules cannot be resolved it throws what the resolution throws; in both
    cases no id is generated and nothing is written. *)
Theorem C8_insert_validates_or_generates_id :
  forall `{External} (collectionName : string) (doc : JsValue)
         (storeScope : option StorageScope) (db : DB.t),
    let store := DB.tripleStore db in
    let schema := schemaOf db collectionName in
    let committed :=
      {| DB.tripleStore :=
           inserted collectionName doc (nanoid (DB.entropy db)) storeScope store;
         DB.variables := DB.variables db;
         DB.entropy := S (DB.entropy db) |} in
    let success :=
      (inr (S (TripleStore.clock store), TripleStore.clientId store), committed) in
    (forall id, includes id ID_SEPARATOR = true ->
       DB.insert collectionName doc (Some id) storeScope db =
       (inl (InvalidEntityIdError id "Id cannot include #."), db))
    /\ (writeRulesOf schema = None \/ writeRulesOf schema = Some [] ->
        DB.insert collectionName doc None storeScope db = success)
    /\ (forall rule rest,
          writeRulesOf schema = Some (rule :: rest) ->
          let resolution :=
            (replaceVariablesInFilterStatements (ruleFilters (rule :: rest))
               (mergeVariables (Some (DB.variables db)) None)).1 in
          (forall filters,
             resolution = inr filters ->
             doesEntityObjMatchWhere (objectToTimestampedObject doc) filters
               schema = true ->
             DB.insert collectionName doc None storeScope db = success)
          /\ (forall filters,
                resolution = inr filters ->
                doesEntityObjMatchWhere (objectToTimestampedObject doc) filters
                  schema = false ->
                DB.insert collectionName doc None storeScope db =
                (inl (WriteRuleError "Insert does not match write rules"), db))
          /\ (forall e,
                resolution = inl e ->
                DB.insert collectionName doc None storeScope db = (inl e, db))).
Proof.
  intros ext collectionName doc storeScope db store schema committed success.
  split; [|split].
  - intros id Hsep. unfold DB.insert. unfold bind at 1.
    rewrite (includes_nonempty _ _ Hsep). cbn [negb].
    unfold validateExternalId. rewrite Hsep. reflexivity.
  - intros Hrules. rewrite DB_insert_run. cbv zeta. fold schema.
    destruct Hrules as [-> | ->]; reflexivity.
  - intros rule rest Hrules resolution.
    assert (Hrun :
      DB.insert collectionName doc None storeScope db =
      match resolution with
      | inl e => (inl e, db)
      | inr filters =>
          if doesEntityObjMatchWhere (objectToTimestampedObject doc) filters
               schema
          then success
          else (inl (WriteRuleError "Insert does not match write rules"), db)
      end).
    { rewrite DB_insert_run. cbv zeta. fold schema. rewrite Hrules.
      rewrite replaceVariablesInQuery_rules. fold resolution.
      destruct resolution as [e|filters]; reflexivity. }
    rewrite Hrun. split; [|split].
    + intros filters -> ->. reflexivity.
    + intros filters -> ->. reflexivity.
    + intros e ->. reflexivity.
Qed.

(** ** Updating *)

(** What [update] does once the entity is found and the updater has
    returned: it stages the changes, reads the entity again and checks it
    against the write rules. *)
Lemma DBTransaction_update_checked `{External} (variables : option Variables)
  (collectionName entityId : string) (updater : DBTransaction.Updater)
  (tx : TripleStoreTransaction.t) (storeSchema : StoreSchema)
  (schema : CollectionSchema) (rule : Rule) (rest : list Rule)
  (entity updatedEntity : JsValue) (changes : ChangeTracker)
  (filters : QueryWhere) :
  let tx1 :=
    (DBTransaction.stageChanges collectionName
       (appendCollectionToId collectionName entityId) changes tx).2 in
  readSchema (metadataTuples (metadata (TripleStoreTransaction.data tx)))
    = Some storeSchema ->
  collections storeSchema !! collectionName = Some schema ->
  writeRulesOf (Some schema) = Some (rule :: rest) ->
  DBTransaction.fetchById variables collectionName entityId tx = (inr entity, tx) ->
  truthy entity = true ->
  updater (DBTransaction.createUpdateProxy entity (Some schema) "") []
    = (inr tt, changes) ->
  DBTransaction.fetchById variables collectionName entityId tx1
    = (inr updatedEntity, tx1) ->
  (replaceVariablesInFilterStatements (ruleFilters (rule :: rest))
     (mergeVariables variables None)).1 = inr filters ->
  DBTransaction.update variables collectionName entityId updater tx =
  (if doesEntityObjMatchWhere (objectToTimestampedObject updatedEntity)
        filters (Some schema)
   then inr tt
   else inl (WriteRuleError "Update does not match write rules"),
   tx1).
Proof.
  intros tx1 Hschema Hcollection Hrules Hfetch Hentity Hupdater Hfetch1 Hvars.
  unfold DBTransaction.update.
  unfold bind at 1. unfold DBTransaction.getSchema, gets. rewrite Hschema.
  cbn [mbind option_bind]. rewrite Hcollection.
  unfold bind at 1. rewrite Hfetch, Hentity. cbn [negb].
  rewrite Hupdater.
  unfold bind at 1.
  assert (Hstage :
    DBTransaction.stageChanges collectionName
      (appendCollectionToId collectionName entityId) changes tx = (inr tt, tx1)).
  { unfold tx1. clear. generalize (appendCollectionToId collectionName entityId).
    intros full. revert tx. unfold DBTransaction.stageChanges.
    induction changes as [|[path v] more IH]; intros tx; [reflexivity|].
    cbn [forEach]. unfold bind, modify. apply IH. }
  rewrite Hstage, Hrules.
  unfold bind at 1. rewrite Hfetch1.
  unfold bind at 1. unfold DBTransaction.replaceVariables, liftE.
  rewrite replaceVariablesInQuery_rules, Hvars. cbn [where_].
  destruct (doesEntityObjMatchWhere _ _ _); reflexivity.
Qed.

(** [update] through the handle: the transaction commits when the check
    passes and is cancelled when it does not. *)
Lemma DB_update_checked `{External} (collectionName entityId : string)
  (updater : DBTransaction.Updater) (storeScope : option StorageScope)
  (db : DB.t) (storeSchema : StoreSchema) (schema : CollectionSchema)
  (rule : Rule) (rest : list Rule) (entity updatedEntity : JsValue)
  (changes : ChangeTracker) (filters : QueryWhere) :
  let variables := Some (DB.variables db) in
  let tx0 := TripleStore.begin storeScope (DB.tripleStore db) in
  let tx1 :=
    (DBTransaction.stageChanges collectionName
       (appendCollectionToId collectionName entityId) changes tx0).2 in
  readSchema
    (metadataTuples (metadata (TripleStore.data (DB.tripleStore db))))
    = Some storeSchema ->
  collections storeSchema !! collectionName = Some schema ->
  writeRulesOf (Some schema) = Some (rule :: rest) ->
  DBTransaction.fetchById variables collectionName entityId tx0
    = (inr entity, tx0) ->
  truthy entity = true ->
  updater (DBTransaction.createUpdateProxy entity (Some schema) "") []
    = (inr tt, changes) ->
  DBTransaction.fetchById variables collectionName entityId tx1
    = (inr updatedEntity, tx1) ->
  (replaceVariablesInFilterStatements (ruleFilters (rule :: rest))
     (mergeVariables variables None)).1 = inr filters ->
  DB.update collectionName entityId updater storeScope db =
  if doesEntityObjMatchWhere (objectToTimestampedObject updatedEntity)
       filters (Some schema)
  then (inr (TripleStoreTransaction.commitTimestamp tx1),
        withStore (TripleStore.commit tx1 (DB.tripleStore db)) db)
  else (inl (WriteRuleError "Update does not match write rules"), db).
Proof.
  intros variables tx0 tx1
    Hschema Hcollection Hrules Hfetch Hentity Hupdater Hfetch1 Hvars.
  pose proof (DBTransaction_update_checked variables collectionName entityId
                updater tx0 storeSchema schema rule rest entity updatedEntity
                changes filters Hschema Hcollection Hrules Hfetch Hentity
                Hupdater Hfetch1 Hvars) as Hrun.
  fold tx1 in Hrun.
  set (wrapped :=
         tryCatch (DBTransaction.update variables collectionName entityId updater)
                  (fun e => DBTransaction.cancel ;;; throw e)).
  change (DB.update collectionName entityId updater storeScope db)
    with (DB.liftStore (TripleStore.transact wrapped storeScope) db).
  unfold DB.liftStore.
  destruct (doesEntityObjMatchWhere _ _ _).
  - rewrite (TripleStore_transact_return wrapped _ _ tt tx1).
    + reflexivity.
    + unfold wrapped, tryCatch. fold tx0. rewrite Hrun. reflexivity.
  - rewrite (TripleStore_transact_throw wrapped _ _
               (WriteRuleError "Update does not match write rules")
               (DBTransaction.cancel tx1).2).
    + destruct db; reflexivity.
    + unfold wrapped, tryCatch. fold tx0. rewrite Hrun. reflexivity.
Qed.

(** C6. After the staged changes of the mutator, [update] reads the entity
    again with [fetchById] and tests [objectToTimestampedObject] of what it
    read against the write rules. On a collection that also has read
    rules, [fetchById] returns the entity with its timestamps (it skips
    [timestampedObjectToPlainObject] there), so the test runs on an object
    that is wrapped twice, and an update that breaks the write rules is
    committed: on [docs], whose write rule asks for a title that is not
    empty, [update] stores the empty title, which [insert] refuses. *)
Theorem C6_update_with_read_rules_escapes_the_write_rules :
  let ext := Reference.collaborators in
  let schema := schemaOf (H := ext) Example.docsDb "docs" in
  let updated :=
    DB.update (H := ext) "docs" "d1" (Example.emptyTitle (H := ext)) None
      Example.docsDb in
  let stored :=
    constructEntity (External := ext)
      (TripleStore.findByEntity "docs#d1" (DB.tripleStore updated.2)) in
  readRulesOf schema =
    Some [ {| rule_filter := [FilterStatement "title" "!=" (JStr "draft")];
              rule_description := None |} ]
  /\ writeRulesOf schema = Some [Example.titledPosts]
  /\ updated.1 = inr (4%nat, "alice")
  /\ stored =
     JObj [("title",
            JObj [("value", JStr "");
                  ("timestamp", JArr [JNum 4; JStr "alice"])])]
  /\ doesEntityObjMatchWhere (External := ext) stored
       (ruleFilters [Example.titledPosts]) schema = false
  /\ (DB.fetchById (H := ext) "docs" "d1" updated.2).1 = inr stored
  /\ doesEntityObjMatchWhere (External := ext)
       (objectToTimestampedObject (External := ext) stored)
       (ruleFilters [Example.titledPosts]) schema = true
  /\ (DB.insert (H := ext) "docs" (JObj [("title", JStr "")]) None None
        Example.docsDb).1 =
     inl (WriteRuleError "Insert does not match write rules").
Proof.
  intros ext schema updated stored.
  repeat split; vm_compute; reflexivity.
Qed.

(** ** Renaming an attribute *)

Lemma step_run (c p q k : string) (tx : TripleStoreTransaction.t) :
  exists tx',
  renameStep c p q k tx = (inr tt, tx')
  /\ metadata (TripleStoreTransaction.data tx') = metadata (TripleStoreTransaction.data tx)
  /\ TripleStoreTransaction.scope tx' = TripleStoreTransaction.scope tx
  /\ forall k', storage (TripleStoreTransaction.data tx') !! k' =
       if decide (k' = k) then renameRows c p q <$> storage (TripleStoreTransaction.data tx) !! k'
       else storage (TripleStoreTransaction.data tx) !! k'.
Proof.
  eexists. split; [reflexivity|].
  split; [reflexivity|]. split; [reflexivity|].
  intros k'. cbn.
  rewrite !map_lookup_imap.
  destruct (storage (TripleStoreTransaction.data tx) !! k') as [rows|] eqn:Hk'; cbn; [|by case_decide].
  unfold TripleStoreTransaction.findByAttribute, TripleStoreTransaction.readTriples. cbn.
  case_decide as Hkk.
  - subst k'. rewrite Hk'. cbn. rewrite app_nil_r.
    rewrite bool_decide_eq_true_2 by (apply list_elem_of_singleton; reflexivity).
    reflexivity.
  - rewrite bool_decide_eq_false_2; [reflexivity|].
    intros Hin. apply list_elem_of_singleton in Hin. contradiction.
Qed.

Lemma loop_run (c p q : string) (ks : list string) :
  NoDup ks ->
  forall tx : TripleStoreTransaction.t,
  exists tx',
    forEach ks (renameStep c p q) tx = (inr tt, tx')
    /\ metadata (TripleStoreTransaction.data tx') = metadata (TripleStoreTransaction.data tx)
    /\ TripleStoreTransaction.scope tx' = TripleStoreTransaction.scope tx
    /\ forall k', storage (TripleStoreTransaction.data tx') !! k' =
         if decide (k' ∈ ks)
         then renameRows c p q <$> storage (TripleStoreTransaction.data tx) !! k'
         else storage (TripleStoreTransaction.data tx) !! k'.
Proof.
  induction 1 as [|k ks Hk Hnd IH]; intros tx.
  - exists tx. split; [reflexivity|]. split; [reflexivity|]. split; [reflexivity|].
    intros k'. case_decide as Hin; [|reflexivity]. inversion Hin.
  - destruct (step_run c p q k tx) as (tx1 & Hstep & Hmd1 & Hsc1 & Hst1).
    destruct (IH tx1) as (tx' & Hloop & Hmd & Hsc & Hst).
    exists tx'. split.
    + cbn [forEach]. unfold bind at 1. rewrite Hstep. exact Hloop.
    + split; [congruence|]. split; [congruence|].
      intros k'. rewrite Hst, Hst1.
      destruct (decide (k' = k)) as [->|Hne].
      * rewrite decide_False by exact Hk.
        rewrite decide_True by (left). reflexivity.
      * destruct (decide (k' ∈ ks)) as [Hin|Hnin].
        -- rewrite decide_True by (right; exact Hin). reflexivity.
        -- rewrite decide_False; [reflexivity|].
           intros Hin. inversion Hin; subst; contradiction.
Qed.

Lemma transformTripleAttribute_elem (triples : list TripleRow)
  (attr newAttribute : Attribute) (row' : TripleRow) :
  row' ∈ transformTripleAttribute triples attr newAttribute <->
  exists row, row ∈ triples /\ row' = renamedRow newAttribute (length attr) row.
Proof.
  unfold transformTripleAttribute. rewrite list_elem_of_In, in_map_iff.
  split; intros (row & H1 & H2); exists row.
  - apply list_elem_of_In in H2. split; [exact H2|]. subst row'. reflexivity.
  - apply list_elem_of_In in H1. split; [|exact H1]. subst row'. reflexivity.
Qed.

Lemma renameRows_elem (c p q : string) (rows : list TripleRow) (row' : TripleRow) :
  row' ∈ renameRows c p q rows <->
  (row' ∈ rows /\ ~ [AStr c; AStr p] `prefix_of` attribute row') \/
  (exists row, row ∈ rows /\ [AStr c; AStr p] `prefix_of` attribute row /\
               row' = renamedRow [AStr c; AStr q] 2 row).
Proof.
  unfold renameRows. rewrite list_elem_of_union, list_elem_of_difference.
  rewrite transformTripleAttribute_elem. cbn [length].
  rewrite list_elem_of_filter. split.
  - intros [[Hin Hnot] | (row & Hrow & ->)].
    + left. split; [exact Hin|]. intros Hp. apply Hnot. split; assumption.
    + right. apply list_elem_of_filter in Hrow. destruct Hrow as [Hp Hin].
      exists row. repeat split; assumption.
  - intros [[Hin Hnot] | (row & Hin & Hp & ->)].
    + left. split; [exact Hin|]. intros [Hp _]. contradiction.
    + right. exists row. split; [|reflexivity].
      apply list_elem_of_filter. split; assumption.
Qed.

Lemma renamed_not_old (c p q : string) (row : TripleRow) :
  p <> q ->
  ~ [AStr c; AStr p] `prefix_of` attribute (renamedRow [AStr c; AStr q] 2 row).
Proof.
  intros Hpq [k Hk]. cbn in Hk. inversion Hk. congruence.
Qed.

Section FoldLookups.

Context {K V : Type} `{Countable K}.

Lemma foldl_delete_lookup (ks : list K) (m : gmap K V) (k : K) :
  foldl (fun md key => delete key md) m ks !! k =
  if decide (k ∈ ks) then None else m !! k.
Proof.
  revert m. induction ks as [|k0 ks IH]; intros m; cbn [foldl].
  - rewrite decide_False; [reflexivity|]. intros Hin; inversion Hin.
  - rewrite IH. destruct (decide (k ∈ ks)) as [Hin|Hnin].
    + rewrite decide_True by (right; exact Hin). reflexivity.
    + destruct (decide (k = k0)) as [->|Hne].
      * rewrite decide_True by left. apply lookup_delete_eq.
      * rewrite decide_False.
        -- apply lookup_delete_ne. congruence.
        -- intros Hin. inversion Hin; subst; contradiction.
Qed.

Lemma foldl_insert_lookup_notin (l : list (K * V)) (m : gmap K V) (k : K) :
  k ∉ l.*1 ->
  foldl (fun md (eav : K * V) => <[eav.1 := eav.2]> md) m l !! k = m !! k.
Proof.
  revert m. induction l as [|[k0 v0] l IH]; intros m Hnin; cbn [foldl];
    [reflexivity|].
  rewrite IH.
  - cbn [fst snd]. apply lookup_insert_ne. intros ->. apply Hnin. cbn. left.
  - intros Hin. apply Hnin. cbn. right. exact Hin.
Qed.

Lemma foldl_insert_lookup_in (l : list (K * V)) (m : gmap K V) (k : K) (v : V) :
  NoDup l.*1 -> (k, v) ∈ l ->
  foldl (fun md (eav : K * V) => <[eav.1 := eav.2]> md) m l !! k = Some v.
Proof.
  revert m. induction l as [|[k0 v0] l IH]; intros m Hnd Hin; [inversion Hin|].
  cbn [foldl]. cbn in Hnd. apply NoDup_cons in Hnd as [Hk0 Hnd].
  inversion Hin as [|? ? ? Hin']; subst.
  - rewrite foldl_insert_lookup_notin by exact Hk0. cbn [fst snd].
    apply lookup_insert_eq.
  - apply IH; assumption.
Qed.

End FoldLookups.

Lemma map_is_fmap {A B} (f : A -> B) (l : list A) : map f l = f <$> l.
Proof. induction l as [|x l IH]; [reflexivity|]. cbn. rewrite IH. reflexivity. Qed.

Lemma map_fst {A B C} (f : A -> B * C) (l : list A) :
  (map f l).*1 = (fun x => (f x).1) <$> l.
Proof. induction l as [|x l IH]; [reflexivity|]. cbn. rewrite <- IH. reflexivity. Qed.

Lemma splice_schema_path (c p q : string) (suffix : Attribute) :
  splice 3 1 [AStr q] (attributeSchemaPath c p ++ suffix) =
  attributeSchemaPath c q ++ suffix.
Proof. reflexivity. Qed.

Lemma existing_elem (c p : string) (md : gmap (string * Attribute) JsValue)
  (eav : EAV) :
  eav ∈ metadataTuples
           (filter (fun eav : EAV =>
                      eav.1.1 = "_schema" /\
                      attributeSchemaPath c p `prefix_of` eav.1.2) md) <->
  exists suffix,
    eav.1 = ("_schema", attributeSchemaPath c p ++ suffix) /\
    md !! eav.1 = Some eav.2.
Proof.
  unfold metadataTuples, EAV in *. rewrite elem_of_map_to_list', map_lookup_filter_Some.
  destruct eav as [[e a] v]. cbn [fst snd]. split.
  - intros [Hlook [-> [suffix ->]]]. exists suffix. split; [reflexivity | exact Hlook].
  - intros (suffix & Hkey & Hlook). inversion Hkey; subst.
    split; [exact Hlook|]. split; [reflexivity|]. exists suffix. reflexivity.
Qed.

Lemma renameSchemaTuples_updates_NoDup (c p q : string)
  (md : gmap (string * Attribute) JsValue) :
  let existing :=
    metadataTuples
      (filter (fun eav : EAV =>
                 eav.1.1 = "_schema" /\ attributeSchemaPath c p `prefix_of` eav.1.2)
              md) in
  NoDup (map (fun eav : EAV =>
                let attr := splice 3 1 [AStr q] eav.1.2 in
                (eav.1.1, attr, eav.2)) existing).*1.
Proof.
  intros existing. rewrite map_fst.
  apply NoDup_fmap_2_strong; [|apply NoDup_map_to_list].
  intros x y Hx Hy Heq.
  apply existing_elem in Hx as (sx & Hkx & Hlx).
  apply existing_elem in Hy as (sy & Hky & Hly).
  destruct x as [[ex ax] vx], y as [[ey ay] vy]. cbn [fst snd] in *.
  cbn [fst snd] in Heq.
  inversion Hkx; subst. inversion Hky; subst.
  cbn in Heq. rewrite !drop_0 in Heq. inversion Heq; subst.
  rewrite Hlx in Hly. inversion Hly. reflexivity.
Qed.

Lemma renameSchemaTuples_new (c p q : string)
  (md : gmap (string * Attribute) JsValue) (suffix : Attribute) (v : JsValue) :
  md !! ("_schema", attributeSchemaPath c p ++ suffix) = Some v ->
  renameSchemaTuples c p q md !! ("_schema", attributeSchemaPath c q ++ suffix)
  = Some v.
Proof.
  intros Hlook. unfold renameSchemaTuples.
  apply foldl_insert_lookup_in; [apply renameSchemaTuples_updates_NoDup|].
  apply list_elem_of_In, in_map_iff.
  exists ("_schema", attributeSchemaPath c p ++ suffix, v). split.
  - cbn [fst snd]. rewrite splice_schema_path. reflexivity.
  - apply list_elem_of_In, existing_elem. exists suffix.
    split; [reflexivity | exact Hlook].
Qed.

Lemma renameSchemaTuples_old (c p q : string)
  (md : gmap (string * Attribute) JsValue) (suffix : Attribute) :
  p <> q ->
  renameSchemaTuples c p q md !! ("_schema", attributeSchemaPath c p ++ suffix)
  = None.
Proof.
  intros Hpq. unfold renameSchemaTuples.
  etrans; [apply foldl_insert_lookup_notin|].
  - rewrite map_fst. intros Hin.
    apply list_elem_of_fmap in Hin as (eav & Heq & Hin).
    apply existing_elem in Hin as (s' & Hkey & _).
    destruct eav as [[e a] v]. cbn [fst snd] in *.
    inversion Hkey; subst.
    cbn in Heq. inversion Heq. congruence.
  - rewrite foldl_delete_lookup. case_decide as Hin; [reflexivity|].
    destruct (md !! ("_schema", attributeSchemaPath c p ++ suffix)) as [v|] eqn:Hlook;
      [|exact Hlook].
    exfalso. apply Hin. apply list_elem_of_In, in_map_iff.
    exists ("_schema", attributeSchemaPath c p ++ suffix, v). split; [reflexivity|].
    apply list_elem_of_In, existing_elem. exists suffix.
    split; [reflexivity | exact Hlook].
Qed.

Lemma storageKeys_NoDup (tx : TripleStoreTransaction.t) :
  NoDup (TripleStoreTransaction.storageKeys tx).
Proof. apply NoDup_fst_map_to_list. Qed.

Lemma storageKeys_elem (tx : TripleStoreTransaction.t) (k : string) :
  k ∈ TripleStoreTransaction.storageKeys tx <->
  is_Some (storage (TripleStoreTransaction.data tx) !! k).
Proof.
  unfold TripleStoreTransaction.storageKeys. rewrite list_elem_of_fmap. split.
  - intros ([k' rows] & -> & Hin). apply elem_of_map_to_list in Hin.
    exists rows. exact Hin.
  - intros [rows Hrows]. exists (k, rows). split; [reflexivity|].
    apply elem_of_map_to_list. exact Hrows.
Qed.

Lemma renameAttribute_run `{External} (c p q : string)
  (tx : TripleStoreTransaction.t) :
  exists tx',
    DBTransaction.renameAttribute c p q tx = (inr tt, tx')
    /\ storage (TripleStoreTransaction.data tx') =
       renameRows c p q <$> storage (TripleStoreTransaction.data tx)
    /\ metadata (TripleStoreTransaction.data tx') =
       match readSchema
               (metadataTuples (metadata (TripleStoreTransaction.data tx))) with
       | Some _ =>
           renameSchemaTuples c p q (metadata (TripleStoreTransaction.data tx))
       | None => metadata (TripleStoreTransaction.data tx)
       end.
Proof.
  set (txs :=
    match readSchema
            (metadataTuples (metadata (TripleStoreTransaction.data tx))) with
    | Some _ =>
        TripleStoreTransaction.setMetadata
          (renameSchemaTuples c p q (metadata (TripleStoreTransaction.data tx)))
          tx
    | None => tx
    end).
  assert (Hst : storage (TripleStoreTransaction.data txs) =
                storage (TripleStoreTransaction.data tx)).
  { unfold txs. destruct (readSchema _); reflexivity. }
  destruct (loop_run c p q (TripleStoreTransaction.storageKeys txs)
              (storageKeys_NoDup txs) txs) as (tx' & Hloop & Hmd & _ & Hlook).
  exists tx'. split; [|split].
  - unfold DBTransaction.renameAttribute.
    unfold bind at 1. unfold DBTransaction.getSchema, gets.
    unfold bind at 1.
    destruct (readSchema _) eqn:Hschema.
    + unfold txs in Hloop. exact Hloop.
    + unfold txs in Hloop. exact Hloop.
  - apply map_eq. intros k. rewrite Hlook, Hst, lookup_fmap.
    case_decide as Hin; [reflexivity|].
    destruct (storage (TripleStoreTransaction.data tx) !! k) as [rows|] eqn:Hk;
      [|reflexivity].
    exfalso. apply Hin. apply storageKeys_elem. rewrite Hst, Hk. eauto.
  - rewrite Hmd. unfold txs. destruct (readSchema _); reflexivity.
Qed.

(** C9 as stated fails when the new path is the old one: the triples are
    deleted and inserted again, so triples with the old attribute prefix
    remain. *)
Lemma C9_rename_to_same_path_keeps_triples :
  let ext := Reference.collaborators in
  let tx := TripleStore.begin None (DB.tripleStore Example.usersDb) in
  let tx' := (DBTransaction.renameAttribute (H := ext) "users" "name" "name" tx).2 in
  ~ (forall rows row,
       storage (TripleStoreTransaction.data tx') !! "default" = Some rows ->
       row ∈ rows ->
       ~ [AStr "users"; AStr "name"] `prefix_of` attribute row).
Proof.
  intros ext tx tx' Hnone.
  apply (Hnone [ {| id := "users#u1"; attribute := [AStr "_collection"];
                    value := JStr "users"; timestamp := (3%nat, "alice");
                    expired := false |};
                 Example.nameTriple ] Example.nameTriple).
  - vm_compute. reflexivity.
  - right. left.
  - exists []. reflexivity.
Qed.

(** C9 (amended). After [rename_attribute] from path [p] to path [q] in
    collection [c], in every configured storage scope every data triple
    whose attribute started with [[c, p]] exists with that prefix replaced
    by [[c, q]], its entity id, value, timestamp and tombstone flag
    unchanged, and the other triples are untouched; when [q] differs from
    [p] no triple with the old attribute prefix remains; and when the
    store has a schema, the [_schema] tuples of the attribute are stored
    under the new path, none remaining under the old one when [q] differs
    from [p]. *)
Theorem C9_rename_attribute_rewrites_triples :
  forall `{External} (c p q : string) (tx : TripleStoreTransaction.t),
    let old := [AStr c; AStr p] in
    let new := [AStr c; AStr q] in
    exists tx',
      DBTransaction.renameAttribute c p q tx = (inr tt, tx')
      /\ (forall k rows,
            storage (TripleStoreTransaction.data tx) !! k = Some rows ->
            exists rows',
              storage (TripleStoreTransaction.data tx') !! k = Some rows'
              /\ (forall row, row ∈ rows -> old `prefix_of` attribute row ->
                    exists row',
                      row' ∈ rows'
                      /\ attribute row' = new ++ drop 2 (attribute row)
                      /\ id row' = id row /\ value row' = value row
                      /\ timestamp row' = timestamp row
                      /\ expired row' = expired row)
              /\ (forall row, row ∈ rows -> ~ old `prefix_of` attribute row ->
                    row ∈ rows')
              /\ (forall row', row' ∈ rows' ->
                    (row' ∈ rows /\ ~ old `prefix_of` attribute row')
                    \/ exists row, row ∈ rows /\ old `prefix_of` attribute row
                                   /\ row' = renamedRow new 2 row)
              /\ (p <> q ->
                  forall row', row' ∈ rows' -> ~ old `prefix_of` attribute row'))
      /\ (is_Some (readSchema
                     (metadataTuples (metadata (TripleStoreTransaction.data tx)))) ->
          (forall suffix v,
             metadata (TripleStoreTransaction.data tx)
               !! ("_schema", attributeSchemaPath c p ++ suffix) = Some v ->
             metadata (TripleStoreTransaction.data tx')
               !! ("_schema", attributeSchemaPath c q ++ suffix) = Some v)
          /\ (p <> q -> forall suffix,
                metadata (TripleStoreTransaction.data tx')
                  !! ("_schema", attributeSchemaPath c p ++ suffix) = None)).
Proof.
  intros ext c p q tx old new.
  destruct (renameAttribute_run c p q tx) as (tx' & Hrun & Hstorage & Hmeta).
  exists tx'. split; [exact Hrun|]. split.
  - intros k rows Hk. exists (renameRows c p q rows).
    split; [rewrite Hstorage, lookup_fmap, Hk; reflexivity|].
    split; [|split; [|split]].
    + intros row Hrow Hold. exists (renamedRow new 2 row).
      split; [|repeat split].
      apply renameRows_elem. right. exists row. repeat split; assumption.
    + intros row Hrow Hold. apply renameRows_elem. left. split; assumption.
    + intros row' Hrow'. apply renameRows_elem in Hrow'. exact Hrow'.
    + intros Hpq row' Hrow'. apply renameRows_elem in Hrow'.
      destruct Hrow' as [[_ Hnot] | (row & _ & _ & ->)]; [exact Hnot|].
      apply renamed_not_old. exact Hpq.
  - intros [schema Hschema]. rewrite Hschema in Hmeta. rewrite Hmeta. split.
    + intros suffix v. apply renameSchemaTuples_new.
    + intros Hpq suffix. apply renameSchemaTuples_old. exact Hpq.
Qed.

(** ** The schema diff *)

Section DiffProperties.
Import SchemaDiff.



Lemma elem_of_map_fold_app {A B} (f : string -> A -> list B) (m : gmap string A) (x : B) :
  x ∈ map_fold (fun k v acc => f k v ++ acc) [] m <->
  exists k v, m !! k = Some v /\ x ∈ f k v.
Proof.
  rewrite map_fold_foldr.
  assert (Hl : forall l : list (string * A),
            x ∈ foldr (uncurry (fun k v acc => f k v ++ acc)) [] l <->
            exists k v, (k, v) ∈ l /\ x ∈ f k v).
  { induction l as [|[k v] l IH]; cbn [foldr uncurry].
    - split; [intros Hin; inversion Hin | intros (k & v & Hin & _); inversion Hin].
    - rewrite elem_of_app, IH. split.
      + intros [Hx | (k' & v' & Hin & Hx)].
        * exists k, v. split; [left | exact Hx].
        * exists k', v'. split; [right; exact Hin | exact Hx].
      + intros (k' & v' & Hin & Hx). inversion Hin; subst.
        * left. exact Hx.
        * right. exists k', v'. split; assumption. }
  rewrite Hl. split; intros (k & v & Hin & Hx); exists k, v; split; try exact Hx.
  - apply elem_of_map_to_list. exact Hin.
  - apply elem_of_map_to_list. exact Hin.
Qed.

Lemma map_fold_app_nil {A B} (f : string -> A -> list B) (m : gmap string A) :
  (forall k v, m !! k = Some v -> f k v = []) ->
  map_fold (fun k v acc => f k v ++ acc) [] m = [].
Proof.
  intros Hall. apply elem_of_nil_inv. intros x Hx.
  apply elem_of_map_fold_app in Hx as (k & v & Hk & Hx).
  rewrite (Hall k v Hk) in Hx. inversion Hx.
Qed.




Section Walk.
Context {Blob : Type} `{EqDecision Blob}.







End Walk.

End DiffProperties.

(** ** The theorems at work on the small database *)

(** [fetchById] in a transaction reads only: the transaction is as before. *)
Lemma DBTransaction_fetchById_run `{External} (variables : option Variables)
  (collectionName id : string) (tx : TripleStoreTransaction.t) :
  let schema :=
    match readSchema
            (metadataTuples (metadata (TripleStoreTransaction.data tx))) with
    | None => None
    | Some s =>
        Some (default emptyCollectionSchema (collections s !! collectionName))
    end in
  let entity :=
    constructEntity
      (TripleStoreTransaction.findByEntity
         (appendCollectionToId collectionName id) tx) in
  DBTransaction.fetchById variables collectionName id tx =
  (if negb (truthy entity) then inr JNull
   else match readRulesOf schema with
        | Some readRules =>
            match (replaceVariablesInQuery variables
                     {| collectionName := None;
                        where_ := ruleFilters readRules; vars := None |}).1 with
            | inl e => inl e
            | inr query =>
                if doesEntityObjMatchWhere entity (where_ query) schema
                then inr entity else inr JNull
            end
        | None => inr (timestampedObjectToPlainObject entity)
        end,
   tx).
Proof.
  intros schema entity. unfold DBTransaction.fetchById.
  unfold bind at 1.
  unfold DBTransaction.getCollectionSchema, DBTransaction.getSchema.
  unfold bind at 1. unfold gets at 1.
  assert (Hs : (match readSchema
                        (metadataTuples
                           (metadata (TripleStoreTransaction.data tx))) with
                | Some s =>
                    ret (Some (default emptyCollectionSchema
                                 (collections s !! collectionName)))
                | None => ret None
                end) tx = (inr schema, tx)).
  { unfold schema. destruct (readSchema _); reflexivity. }
  rewrite Hs. unfold bind at 1. unfold DBTransaction.getEntity, gets.
  fold entity.
  destruct (truthy entity); cbn [negb]; [|reflexivity].
  destruct (readRulesOf schema) as [readRules|]; [|reflexivity].
  unfold bind, DBTransaction.replaceVariables, liftE.
  destruct (replaceVariablesInQuery _ _).1 as [e|query]; [reflexivity|].
  destruct (doesEntityObjMatchWhere _ _ _); reflexivity.
Qed.


Lemma C5_unknown_attribute_throws_untyped_error_witness :
  exists e,
    DBTransaction.proxySet (H := Reference.collaborators)
      (DBTransaction.createUpdateProxy JNull (Some Example.postsSchema) "")
      "subtitle" (JStr "s") []
    = (inl e, [])
    /\ e = JsError ("Cannot set unrecognized property " +:+ join "/" [""; "subtitle"]
                    +:+ " to " +:+
                    templateString (External := Reference.collaborators) (JStr "s"))
    /\ isTriplitError e = false.
Proof.
  apply (C5_unknown_attribute_throws_untyped_error
           (H := Reference.collaborators) JNull Example.postsSchema ""
           "subtitle" (JStr "s") []).
  vm_compute. reflexivity.
Defined.

Lemma C7_transact_commits_or_cancels_witness :
  DB.transact Example.stageTitleAndThrow None Example.postsDb =
    (inl (JsError "boom"), Example.postsDb)
  /\ (DB.transact Example.stageTitle None Example.postsDb).1 =
     inr (5%nat, "alice").
Proof.
  split.
  - exact (proj1 (proj2 (C7_transact_commits_or_cancels Example.stageTitleAndThrow
                           None Example.postsDb)
                    (JsError "boom") _ eq_refl)).
  - rewrite (proj1 (proj1 (C7_transact_commits_or_cancels Example.stageTitle
                             None Example.postsDb) _ eq_refl)).
    vm_compute. reflexivity.
Defined.

Lemma C8_insert_validates_or_generates_id_witness :
  DB.insert (H := Reference.collaborators) "posts"
    (JObj [("title", JStr "t")]) None None Example.postsDb =
  (inr (S (TripleStore.clock (DB.tripleStore Example.postsDb)),
        TripleStore.clientId (DB.tripleStore Example.postsDb)),
   {| DB.tripleStore :=
        inserted (H := Reference.collaborators) "posts"
          (JObj [("title", JStr "t")])
          (nanoid (External := Reference.collaborators)
             (DB.entropy Example.postsDb))
          None (DB.tripleStore Example.postsDb);
      DB.variables := DB.variables Example.postsDb;
      DB.entropy := S (DB.entropy Example.postsDb) |}).
Proof.
  refine (proj1 (proj2 (proj2 (C8_insert_validates_or_generates_id
                                 (H := Reference.collaborators) "posts"
                                 (JObj [("title", JStr "t")]) None
                                 Example.postsDb))
                   Example.titledPosts [] _)
            [FilterStatement "title" "!=" (JStr "")] _ _);
    vm_compute; reflexivity.
Defined.

Lemma C9_rename_attribute_rewrites_triples_witness :
  exists tx' rows',
    DBTransaction.renameAttribute (H := Reference.collaborators)
      "users" "name" "fullName"
      (TripleStore.begin None (DB.tripleStore Example.usersDb)) = (inr tt, tx')
    /\ storage (TripleStoreTransaction.data tx') !! "default" = Some rows'
    /\ renamedRow [AStr "users"; AStr "fullName"] 2 Example.nameTriple ∈ rows'
    /\ (forall row', row' ∈ rows' ->
          ~ [AStr "users"; AStr "name"] `prefix_of` attribute row').
Proof.
  destruct (C9_rename_attribute_rewrites_triples (H := Reference.collaborators)
              "users" "name" "fullName"
              (TripleStore.begin None (DB.tripleStore Example.usersDb)))
    as (tx' & Hrun & Hdata & _).
  assert (Hrows :
    storage (TripleStoreTransaction.data
               (TripleStore.begin None (DB.tripleStore Example.usersDb)))
      !! "default" =
    Some [Example.nameTriple;
          {| id := "users#u1"; attribute := [AStr "_collection"];
             value := JStr "users"; timestamp := (3%nat, "alice");
             expired := false |}]).
  { vm_compute. reflexivity. }
  destruct (Hdata "default" _ Hrows)
    as (rows' & Hrows' & Hrenamed & _ & _ & Hnone).
  exists tx', rows'. split; [exact Hrun|]. split; [exact Hrows'|]. split.
  - destruct (Hrenamed Example.nameTriple) as (row' & Hin & Hattr & Hid & Hv & Hts & Hex).
    + left.
    + exists []. reflexivity.
    + destruct row'. cbn in *. subst. exact Hin.
  - apply Hnone. discriminate.
Defined.

(** ** Entity ids *)

Lemma split_nonempty (sep : Ascii.ascii) (s : string) : split sep s <> [].
Proof.
  destruct s as [|c r]; cbn [split]; [discriminate|].
  destruct (Ascii.eqb c sep); [discriminate|].
  destruct (split sep r); discriminate.
Qed.

Lemma split_without_separator (sep : Ascii.ascii) (s : string) :
  includes s sep = false -> split sep s = [s].
Proof.
  induction s as [|c r IH]; [reflexivity|].
  cbn [includes split]. intros Hinc.
  apply orb_false_iff in Hinc as [Hc Hr].
  rewrite Hc, (IH Hr). reflexivity.
Qed.

Lemma split_with_separator (sep : Ascii.ascii) (s : string) :
  includes s sep = true -> (2 <= length (split sep s))%nat.
Proof.
  induction s as [|c r IH]; [discriminate|].
  cbn [includes split]. destruct (Ascii.eqb c sep) eqn:Hc.
  - intros _. pose proof (split_nonempty sep r).
    destruct (split sep r); [contradiction | cbn; lia].
  - cbn [orb]. intros Hr. specialize (IH Hr).
    destruct (split sep r) as [|seg segs]; cbn in *; lia.
Qed.

(** Splitting a string built around a separator gives the segments of
    both sides. *)
Lemma split_append (sep : Ascii.ascii) (a b : string) :
  split sep (a +:+ String sep b) = split sep a ++ split sep b.
Proof.
  induction a as [|c r IH]; simpl.
  - rewrite Ascii.eqb_refl. reflexivity.
  - destruct (Ascii.eqb c sep); [rewrite IH; reflexivity|].
    rewrite IH. pose proof (split_nonempty sep r).
    destruct (split sep r) as [|seg segs]; [contradiction | reflexivity].
Qed.

(** X1. [splitIdParts] undoes [appendCollectionToId] exactly when neither
    the collection name nor the external id contains the separator [#];
    otherwise it throws [InvalidInternalEntityIdError]. So for a collection
    name without [#], the ids that [validateExternalId] accepts are the ids
    whose internal form can be split again, and [stripCollectionFromId]
    gives the external id back. *)
Theorem X1_splitIdParts_appendCollectionToId :
  forall (collectionName id : string),
    let full := appendCollectionToId collectionName id in
    splitIdParts full =
      (if includes collectionName ID_SEPARATOR || includes id ID_SEPARATOR
       then inl (InvalidInternalEntityIdError
                   ("Malformed ID: " +:+ full
                    +:+ " should only include one separator(#)"))
       else inr (collectionName, id))
    /\ (includes collectionName ID_SEPARATOR = false ->
        (validateExternalId id = None <->
         splitIdParts full = inr (collectionName, id))
        /\ (validateExternalId id = None ->
            stripCollectionFromId full = inr id)).
Proof.
  intros collectionName id full.
  assert (Hsplit :
    splitIdParts full =
      (if includes collectionName ID_SEPARATOR || includes id ID_SEPARATOR
       then inl (InvalidInternalEntityIdError
                   ("Malformed ID: " +:+ full
                    +:+ " should only include one separator(#)"))
       else inr (collectionName, id))).
  { unfold splitIdParts, full, appendCollectionToId. rewrite split_append.
    destruct (includes collectionName ID_SEPARATOR) eqn:Hc.
    - pose proof (split_with_separator _ _ Hc) as Hlen.
      pose proof (split_nonempty ID_SEPARATOR id) as Hid.
      destruct (split ID_SEPARATOR collectionName) as [|x [|y l]];
        cbn in Hlen; try lia.
      destruct (split ID_SEPARATOR id); [contradiction|].
      cbn. destruct l; reflexivity.
    - rewrite (split_without_separator _ _ Hc). cbn [orb app].
      destruct (includes id ID_SEPARATOR) eqn:Hi.
      + pose proof (split_with_separator _ _ Hi) as Hlen.
        destruct (split ID_SEPARATOR id) as [|x [|y l]]; cbn in Hlen; try lia.
        reflexivity.
      + rewrite (split_without_separator _ _ Hi). reflexivity. }
  split; [exact Hsplit|].
  intros Hc. unfold stripCollectionFromId. rewrite Hsplit, Hc. cbn [orb].
  unfold validateExternalId.
  destruct (includes id ID_SEPARATOR); split.
  - split; discriminate.
  - discriminate.
  - split; reflexivity.
  - reflexivity.
Qed.

Lemma X1_splitIdParts_appendCollectionToId_witness :
  splitIdParts (appendCollectionToId "users" "u1") = inr ("users", "u1")
  /\ stripCollectionFromId (appendCollectionToId "users" "u1") = inr "u1".
Proof.
  destruct (proj2 (X1_splitIdParts_appendCollectionToId "users" "u1") eq_refl)
    as [Hiff Hstrip].
  split; [apply Hiff; reflexivity | apply Hstrip; reflexivity].
Defined.

(** ** More on variable resolution *)

(** X2. Variable resolution throws nothing but [SessionVariableNotFound],
    and the name it reports is that of a [$]-string which is the value of
    a statement of the where clause, at some depth, and whose variable
    reads as a falsy value. *)
Theorem X2_resolution_throws_only_for_a_mentioned_variable :
  forall (variables : Variables) (statements : QueryWhere) (e : TriplitError),
    (replaceVariablesInFilterStatements statements variables).1 = inl e ->
    exists name,
      e = SessionVariableNotFoundError (String "$" name)
      /\ truthy (getVariable variables name) = false
      /\ existsb (mentionsName name) statements = true.
Proof.
  intros variables statements e Hrun.
  destruct (replaceVariablesInFilterStatements statements variables)
    as [r statements1] eqn:Hpair.
  cbn [fst] in Hrun. subst r.
  exact (proj2 (resolution_error_name variables) _ _ _ Hpair).
Qed.

Lemma X2_resolution_throws_only_for_a_mentioned_variable_witness :
  exists name,
    SessionVariableNotFoundError "$user" =
      SessionVariableNotFoundError (String "$" name)
    /\ truthy (getVariable {[ "user" := JNum 0 ]} name) = false
    /\ existsb (mentionsName name)
         [FilterStatement "title" "=" (JStr "$constructor");
          FilterGroup "or" [FilterStatement "owner" "=" (JStr "$user")]] = true.
Proof.
  apply (X2_resolution_throws_only_for_a_mentioned_variable
           {[ "user" := JNum 0 ]}
           [FilterStatement "title" "=" (JStr "$constructor");
            FilterGroup "or" [FilterStatement "owner" "=" (JStr "$user")]]).
  vm_compute. reflexivity.
Defined.

(** X3. When variable resolution succeeds, the where clause keeps its
    shape: as many filters, every statement with its path and operator,
    every group with its mode; only values of statements are replaced. The
    clause that was passed keeps its shape as well. *)
Theorem X3_resolution_keeps_the_shape :
  forall (variables : Variables) (statements resolved : QueryWhere),
    (replaceVariablesInFilterStatements statements variables).1 = inr resolved ->
    map filterShape resolved = map filterShape statements
    /\ length resolved = length statements
    /\ map filterShape
         (replaceVariablesInFilterStatements statements variables).2 =
       map filterShape statements.
Proof.
  intros variables statements resolved Hrun.
  destruct (replaceVariablesInFilterStatements statements variables)
    as [r statements1] eqn:Hpair.
  cbn [fst snd] in *. subst r.
  destruct (proj2 (resolution_shape variables) _ _ _ Hpair)
    as [Hleft Hreturned].
  specialize (Hreturned resolved eq_refl).
  split; [exact Hreturned|]. split; [|exact Hleft].
  rewrite <- (length_map filterShape resolved), Hreturned, length_map.
  reflexivity.
Qed.

Lemma X3_resolution_keeps_the_shape_witness :
  map filterShape [FilterStatement "owner" "=" (JNum 7)] =
    map filterShape [FilterStatement "owner" "=" (JStr "$user")]
  /\ length [FilterStatement "owner" "=" (JNum 7)] =
     length [FilterStatement "owner" "=" (JStr "$user")]
  /\ map filterShape
       (replaceVariablesInFilterStatements
          [FilterStatement "owner" "=" (JStr "$user")]
          {[ "user" := JNum 7 ]}).2 =
     map filterShape [FilterStatement "owner" "=" (JStr "$user")].
Proof.
  apply (X3_resolution_keeps_the_shape {[ "user" := JNum 7 ]}).
  vm_compute. reflexivity.
Defined.

(** X4. A where clause without [$]-strings is returned as it is, whatever
    the variables are, and is left as it is: resolution touches nothing
    else. *)
Theorem X4_resolution_is_the_identity_without_variables :
  forall (variables : Variables) (statements : QueryWhere),
    existsb mentionsVariable statements = false ->
    replaceVariablesInFilterStatements statements variables =
    (inr statements, statements).
Proof.
  intros variables statements.
  apply (proj2 (resolution_variable_free variables)).
Qed.

Lemma X4_resolution_is_the_identity_without_variables_witness :
  replaceVariablesInFilterStatements
    [FilterGroup "and" [FilterStatement "price" "<" (JNum 5);
                        FilterStatement "name" "=" (JStr "US$")]] ∅ =
  (inr [FilterGroup "and" [FilterStatement "price" "<" (JNum 5);
                           FilterStatement "name" "=" (JStr "US$")]],
   [FilterGroup "and" [FilterStatement "price" "<" (JNum 5);
                       FilterStatement "name" "=" (JStr "US$")]]).
Proof.
  apply X4_resolution_is_the_identity_without_variables. reflexivity.
Defined.

(** X5. The scopes of a variable, innermost first: the [vars] of the query,
    then the variables given to the last [updateVariables], then the ones
    that the handle had before. A binding shadows the outer ones whatever
    its value is, and [updateVariables] touches nothing but the variables. *)
Theorem X5_variable_scopes :
  forall (newVariables : Variables) (query : CollectionQuery) (db : DB.t),
    let db' := (DB.updateVariables newVariables db).2 in
    let merged :=
      default ∅ (vars query) ∪ (newVariables ∪ DB.variables db) in
    (DB.updateVariables newVariables ;;; DB.replaceVariables query) db =
      (match (replaceVariablesInFilterStatements (where_ query) merged).1 with
       | inl e => inl e
       | inr where' =>
           inr {| collectionName := collectionName query; where_ := where';
                  vars := vars query |}
       end, db')
    /\ (forall name,
          merged !! name =
          match default ∅ (vars query) !! name with
          | Some v => Some v
          | None =>
              match newVariables !! name with
              | Some v => Some v
              | None => DB.variables db !! name
              end
          end)
    /\ DB.tripleStore db' = DB.tripleStore db
    /\ DB.entropy db' = DB.entropy db.
Proof.
  intros newVariables query db db' merged.
  split; [|split; [|split; reflexivity]].
  - change ((DB.updateVariables newVariables ;;; DB.replaceVariables query) db)
      with (DB.replaceVariables query db').
    rewrite DB_replaceVariables_run, replaceVariablesInQuery_result.
    reflexivity.
  - intros name. unfold merged. clear db' merged.
    destruct (vars query) as [queryVars|]; cbn [from_option Datatypes.id];
      unfold Variables in *; rewrite !lookup_union, ?lookup_empty.
    + destruct (queryVars !! name); destruct (newVariables !! name);
        destruct (_ !! name); reflexivity.
    + destruct (newVariables !! name); destruct (_ !! name); reflexivity.
Qed.

(** ** More on updating *)

Lemma DB_transact_return (callback : DB.Callback)
  (storeScope : option StorageScope) (db : DB.t)
  (tx : TripleStoreTransaction.t) :
  callback (Some (DB.variables db))
    (TripleStore.begin storeScope (DB.tripleStore db)) = (inr tt, tx) ->
  DB.transact callback storeScope db =
  (inr (TripleStoreTransaction.commitTimestamp tx),
   withStore (TripleStore.commit tx (DB.tripleStore db)) db).
Proof.
  intros Hcb. unfold DB.transact, bind, gets, DB.liftStore.
  rewrite (TripleStore_transact_return _ _ _ tt tx); [reflexivity|].
  unfold tryCatch. rewrite Hcb. reflexivity.
Qed.

Lemma DB_transact_throw (callback : DB.Callback)
  (storeScope : option StorageScope) (db : DB.t) (e : TriplitError)
  (tx : TripleStoreTransaction.t) :
  callback (Some (DB.variables db))
    (TripleStore.begin storeScope (DB.tripleStore db)) = (inl e, tx) ->
  DB.transact callback storeScope db = (inl e, db).
Proof.
  intros Hcb. unfold DB.transact, bind, gets, DB.liftStore.
  rewrite (TripleStore_transact_throw _ _ _ e (DBTransaction.cancel tx).2).
  - destruct db; reflexivity.
  - unfold tryCatch. rewrite Hcb. reflexivity.
Qed.

Lemma DBTransaction_fetchById_state `{External} (variables : option Variables)
  (collectionName id : string) (tx : TripleStoreTransaction.t) :
  DBTransaction.fetchById variables collectionName id tx =
  ((DBTransaction.fetchById variables collectionName id tx).1, tx).
Proof. rewrite DBTransaction_fetchById_run. reflexivity. Qed.

(** X6. [update] reads the entity before anything else. When [fetchById]
    gives a falsy value (no such entity, or one that the read rules hide),
    [update] throws [EntityNotFoundError]; when [fetchById] throws, [update]
    throws the same. Either way the updater has no effect and the database
    is as it was. *)
Theorem X6_update_of_an_unreadable_entity :
  forall `{External} (collectionName entityId : string)
         (updater : DBTransaction.Updater) (storeScope : option StorageScope)
         (db : DB.t),
    let tx0 := TripleStore.begin storeScope (DB.tripleStore db) in
    let found :=
      (DBTransaction.fetchById (Some (DB.variables db)) collectionName entityId
         tx0).1 in
    (forall entity, found = inr entity -> truthy entity = false ->
       DB.update collectionName entityId updater storeScope db =
       (inl (EntityNotFoundError entityId collectionName
               "Cannot perform an update on an entity that doesn't exist"),
        db))
    /\ (forall e, found = inl e ->
          DB.update collectionName entityId updater storeScope db = (inl e, db)).
Proof.
  intros ext collectionName entityId updater storeScope db tx0 found.
  pose proof (DBTransaction_fetchById_state (Some (DB.variables db))
                collectionName entityId tx0) as Hfetch.
  fold found in Hfetch. split.
  - intros entity Hfound Hfalsy. unfold DB.update.
    apply (DB_transact_throw _ _ _ _ tx0). fold tx0.
    unfold DBTransaction.update. unfold bind at 1.
    unfold DBTransaction.getSchema at 1, gets at 1.
    unfold bind at 1. rewrite Hfetch, Hfound, Hfalsy. reflexivity.
  - intros e Hfound. unfold DB.update.
    apply (DB_transact_throw _ _ _ _ tx0). fold tx0.
    unfold DBTransaction.update. unfold bind at 1.
    unfold DBTransaction.getSchema at 1, gets at 1.
    unfold bind at 1. rewrite Hfetch, Hfound. reflexivity.
Qed.

Lemma X6_update_of_an_unreadable_entity_witness :
  DB.update (H := Reference.collaborators) "users" "u2"
    (Example.emptyTitle (H := Reference.collaborators)) None Example.usersDb =
  (inl (EntityNotFoundError "u2" "users"
          "Cannot perform an update on an entity that doesn't exist"),
   Example.usersDb).
Proof.
  apply (proj1 (X6_update_of_an_unreadable_entity
                  (H := Reference.collaborators) "users" "u2"
                  (Example.emptyTitle (H := Reference.collaborators)) None
                  Example.usersDb) JNull).
  - rewrite DBTransaction_fetchById_run. vm_compute. reflexivity.
  - reflexivity.
Defined.

(** X7. An exception of the updater (such as the one for an assignment
    to an attribute that the schema does not have) leaves [update] before
    any change is staged: [update] throws the same exception and the
    database is as it was, also when assignments came before the throw. *)
Theorem X7_update_rethrows_the_updater_s_exception :
  forall `{External} (collectionName entityId : string)
         (updater : DBTransaction.Updater) (storeScope : option StorageScope)
         (db : DB.t) (entity : JsValue) (e : TriplitError)
         (changes : ChangeTracker),
    let tx0 := TripleStore.begin storeScope (DB.tripleStore db) in
    let schema :=
      readSchema
        (metadataTuples (metadata (TripleStore.data (DB.tripleStore db))))
        ≫= (fun s => collections s !! collectionName) in
    DBTransaction.fetchById (Some (DB.variables db)) collectionName entityId tx0
      = (inr entity, tx0) ->
    truthy entity = true ->
    updater (DBTransaction.createUpdateProxy entity schema "") []
      = (inl e, changes) ->
    DB.update collectionName entityId updater storeScope db = (inl e, db).
Proof.
  intros ext collectionName entityId updater storeScope db entity e changes
    tx0 schema Hfetch Htruthy Hupdater.
  unfold DB.update. apply (DB_transact_throw _ _ _ _ tx0). fold tx0.
  unfold DBTransaction.update. unfold bind at 1.
  unfold DBTransaction.getSchema at 1, gets at 1.
  unfold bind at 1. rewrite Hfetch, Htruthy. cbn [negb].
  change (readSchema (metadataTuples (metadata (TripleStoreTransaction.data tx0)))
            ≫= (fun s => collections s !! collectionName)) with schema.
  rewrite Hupdater. reflexivity.
Qed.

Lemma X7_update_rethrows_the_updater_s_exception_witness :
  DB.update (H := Reference.collaborators) "posts" "p1"
    (Example.setSubtitle (H := Reference.collaborators)) None Example.postsDb =
  (inl (JsError "Cannot set unrecognized property /subtitle to s"),
   Example.postsDb).
Proof.
  apply (X7_update_rethrows_the_updater_s_exception
           (H := Reference.collaborators) "posts" "p1"
           (Example.setSubtitle (H := Reference.collaborators)) None
           Example.postsDb (JObj [("title", JStr "hello")])
           (JsError "Cannot set unrecognized property /subtitle to s") []).
  - rewrite DBTransaction_fetchById_run.
    apply pair_equal_spec. split; [vm_compute; reflexivity | reflexivity].
  - reflexivity.
  - vm_compute. reflexivity.
Defined.

Lemma stageChanges_one (collectionName fullEntityId path : string) (v : JsValue)
  (tx : TripleStoreTransaction.t) :
  DBTransaction.stageChanges collectionName fullEntityId [(path, v)] tx =
  (inr tt,
   TripleStoreTransaction.setValue fullEntityId
     (AStr collectionName :: map AStr (split SLASH (slice1 path))) v tx).
Proof. reflexivity. Qed.

(** X8. One assignment [entity[prop] = v] in the updater of [update], on a
    collection without write rules, is one [setValue] on the entity: the
    attribute is the collection name followed by the segments of [prop]
    between slashes, so that a property name with a slash addresses a
    nested attribute. With a schema for the collection, this holds when the
    schema knows the path. *)
Theorem X8_update_stages_an_assignment :
  forall `{External} (variables : option Variables)
         (collectionName entityId prop : string) (v entity : JsValue)
         (tx : TripleStoreTransaction.t),
    let schema :=
      readSchema (metadataTuples (metadata (TripleStoreTransaction.data tx)))
        ≫= (fun s => collections s !! collectionName) in
    DBTransaction.fetchById variables collectionName entityId tx
      = (inr entity, tx) ->
    truthy entity = true ->
    (forall s, schema = Some s ->
       is_Some (getSchemaFromPath s (split SLASH prop))) ->
    writeRulesOf schema = None \/ writeRulesOf schema = Some [] ->
    DBTransaction.update variables collectionName entityId
      (fun proxy => DBTransaction.proxySet proxy prop v) tx =
    (inr tt,
     TripleStoreTransaction.setValue
       (appendCollectionToId collectionName entityId)
       (AStr collectionName :: map AStr (split SLASH prop)) v tx).
Proof.
  intros ext variables collectionName entityId prop v entity tx schema
    Hfetch Htruthy Hknown Hrules.
  assert (Hset :
    DBTransaction.proxySet (DBTransaction.createUpdateProxy entity schema "")
      prop v [] = (inr tt, [(String "/" prop, v)])).
  { unfold DBTransaction.proxySet, DBTransaction.createUpdateProxy.
    cbn [DBTransaction.proxySchema DBTransaction.prefix].
    destruct schema as [s|] eqn:Hs; [|reflexivity].
    change (slice1 (join "/" [""; prop])) with prop.
    destruct (Hknown s eq_refl) as [node ->]. reflexivity. }
  unfold DBTransaction.update. unfold bind at 1.
  unfold DBTransaction.getSchema at 1, gets at 1.
  unfold bind at 1. rewrite Hfetch, Htruthy. cbn [negb].
  change (readSchema (metadataTuples (metadata (TripleStoreTransaction.data tx)))
            ≫= (fun s => collections s !! collectionName)) with schema.
  rewrite Hset. unfold bind at 1. rewrite stageChanges_one.
  change (slice1 (String "/" prop)) with prop.
  destruct Hrules as [-> | ->]; reflexivity.
Qed.

Lemma X8_update_stages_an_assignment_witness :
  let tx := TripleStore.begin None (DB.tripleStore Example.usersDb) in
  DBTransaction.update (H := Reference.collaborators) (Some ∅) "users" "u1"
    (fun proxy =>
       DBTransaction.proxySet (H := Reference.collaborators) proxy "name"
         (JStr "x"))
    tx =
  (inr tt,
   TripleStoreTransaction.setValue "users#u1" [AStr "users"; AStr "name"]
     (JStr "x") tx).
Proof.
  apply (X8_update_stages_an_assignment (H := Reference.collaborators)
           (Some ∅) "users" "u1" "name" (JStr "x") Example.storedUser).
  - rewrite DBTransaction_fetchById_run.
    apply pair_equal_spec. split; [vm_compute; reflexivity | reflexivity].
  - reflexivity.
  - intros s Hs.
    assert (Hschema : s = default emptyCollectionSchema
                           (readSchema (External := Reference.collaborators)
                              (metadataTuples
                                 (metadata (TripleStore.data
                                              (DB.tripleStore Example.usersDb))))
                              ≫= (fun s => collections s !! "users"))).
    { cbn [TripleStore.begin TripleStoreTransaction.data] in Hs.
      rewrite Hs. reflexivity. }
    rewrite Hschema. vm_compute. eexists. reflexivity.
  - left. vm_compute. reflexivity.
Defined.

(** ** The traps of the update proxy *)

Lemma mapLookup_mapSet (k k' : string) (v : JsValue) (m : ChangeTracker) :
  mapLookup k' (mapSet k v m) =
  if String.eqb k k' then Some v else mapLookup k' m.
Proof.
  induction m as [|[k0 v0] m IH]; cbn [mapSet mapLookup].
  - reflexivity.
  - destruct (String.eqb k0 k) eqn:E0; cbn [mapLookup].
    + apply String.eqb_eq in E0. subst k0.
      destruct (String.eqb k k'); reflexivity.
    + rewrite IH. destruct (String.eqb k0 k') eqn:E1; [|reflexivity].
      apply String.eqb_eq in E1. subst k'.
      rewrite String.eqb_sym, E0. reflexivity.
Qed.

Lemma mapGet_mapSet (k : string) (v : JsValue) (m : ChangeTracker) :
  mapHas k (mapSet k v m) = true /\ mapGet k (mapSet k v m) = v.
Proof.
  unfold mapHas, mapGet. rewrite mapLookup_mapSet, String.eqb_refl.
  split; reflexivity.
Qed.

Lemma proxySet_tracker `{External} (proxy : DBTransaction.UpdateProxy)
  (prop : string) (v : JsValue) (changes changes' : ChangeTracker) :
  DBTransaction.proxySet proxy prop v changes = (inr tt, changes') ->
  changes' = mapSet (join "/" [DBTransaction.prefix proxy; prop]) v changes.
Proof.
  unfold DBTransaction.proxySet.
  destruct (DBTransaction.proxySchema proxy) as [schema|].
  - destruct (getSchemaFromPath _ _); [|discriminate].
    unfold modify. intros Heq. inversion Heq. reflexivity.
  - unfold modify. intros Heq. inversion Heq. reflexivity.
Qed.

(** X9. Reading a property of the update proxy after assigning to it. The
    assigned value is read back when the entity has no value there, or a
    value that is not an object, and the schema does not make the property
    a set. When the entity holds an object there, the read gives a proxy on
    that object: the assignment is recorded but the read does not show it. *)
Theorem X9_proxy_read_after_assignment :
  forall `{External} `{Runtime} (proxy : DBTransaction.UpdateProxy)
         (prop : string) (v : JsValue) (changes changes' : ChangeTracker),
    let propPointer := join "/" [DBTransaction.prefix proxy; prop] in
    let old := valuePointerGet (DBTransaction.entityObj proxy) propPointer in
    let isSet :=
      UpdateProxy.isSetSchema
        match DBTransaction.proxySchema proxy with
        | Some schema =>
            getSchemaFromPath schema (split SLASH (slice1 propPointer))
        | None => None
        end in
    DBTransaction.proxySet proxy prop v changes = (inr tt, changes') ->
    mapGet propPointer changes' = v
    /\ (old = JUndefined \/
        (isSet = false /\ (UpdateProxy.isObject old = false \/ old = JNull)) ->
        UpdateProxy.get proxy prop changes' = UpdateProxy.Value v)
    /\ (isSet = false -> UpdateProxy.isObject old = true -> old <> JNull ->
        UpdateProxy.get proxy prop changes' =
        UpdateProxy.Nested
          (DBTransaction.createUpdateProxy old
             (DBTransaction.proxySchema proxy) propPointer)).
Proof.
  intros ext rt proxy prop v changes changes' propPointer old isSet Hset.
  apply proxySet_tracker in Hset. fold propPointer in Hset. subst changes'.
  destruct (mapGet_mapSet propPointer v changes) as [Hhas Hget].
  split; [exact Hget|]. split.
  - intros Hold. unfold UpdateProxy.get. fold propPointer. fold old. fold isSet.
    destruct Hold as [-> | [Hnoset Hscalar]]; [rewrite Hget; reflexivity|].
    rewrite Hnoset, Hhas, Hget.
    destruct Hscalar as [Hscalar | ->]; [|reflexivity].
    rewrite Hscalar. destruct old; try reflexivity; discriminate.
  - intros Hnoset Hobject Hold.
    unfold UpdateProxy.get. fold propPointer. fold old. fold isSet.
    rewrite Hnoset, Hobject.
    rewrite (bool_decide_eq_false_2 _ Hold).
    destruct old; try discriminate; reflexivity.
Qed.

Lemma X9_proxy_read_after_assignment_witness :
  let rt := {| valuePointerGet := fun _ _ => JObj [("city", JStr "a")];
               getProperty := fun _ _ => JUndefined |} in
  let proxy := DBTransaction.createUpdateProxy
                 (JObj [("address", JObj [("city", JStr "a")])]) None "" in
  UpdateProxy.get (H := Reference.collaborators) (H0 := rt) proxy "address"
    [("/address", JStr "moved")] =
  UpdateProxy.Nested
    (DBTransaction.createUpdateProxy (JObj [("city", JStr "a")]) None "/address").
Proof.
  intros rt proxy.
  apply (proj2 (proj2 (X9_proxy_read_after_assignment
                         (H := Reference.collaborators) (H0 := rt) proxy
                         "address" (JStr "moved") [] [("/address", JStr "moved")]
                         eq_refl)));
    [reflexivity | reflexivity | discriminate].
Defined.

(** X10. The handle of a set attribute: after [add(x)], [has(x)] is [true];
    after [remove(x)] it is [false]. Members are told apart by the string
    that they join to: [has(y)] is also [true] after [add(x)] when [y]
    joins to the same string as [x], and it is as before when the pointer
    of [y] differs from that of [x]. *)
Theorem X10_set_handle_membership :
  forall `{External} `{Runtime} (propPointer : string) (propValue x y : JsValue)
         (changes : ChangeTracker),
    let added := (UpdateProxy.add propPointer x changes).2 in
    let removed := (UpdateProxy.remove propPointer x changes).2 in
    UpdateProxy.has propPointer propValue x added = JBool true
    /\ UpdateProxy.has propPointer propValue x removed = JBool false
    /\ UpdateProxy.has propPointer propValue x
         (UpdateProxy.remove propPointer x added).2 = JBool false
    /\ (UpdateProxy.joinItem x = UpdateProxy.joinItem y ->
        UpdateProxy.has propPointer propValue y added = JBool true)
    /\ (UpdateProxy.memberPointer propPointer y <>
        UpdateProxy.memberPointer propPointer x ->
        UpdateProxy.has propPointer propValue y added =
        UpdateProxy.has propPointer propValue y changes).
Proof.
  intros ext rt propPointer propValue x y changes added removed.
  unfold added, removed, UpdateProxy.add, UpdateProxy.remove, modify,
    UpdateProxy.has. cbn [snd].
  repeat split.
  - destruct (mapGet_mapSet (UpdateProxy.memberPointer propPointer x)
                (JBool true) changes) as [-> ->]. reflexivity.
  - destruct (mapGet_mapSet (UpdateProxy.memberPointer propPointer x)
                (JBool false) changes) as [-> ->]. reflexivity.
  - destruct (mapGet_mapSet (UpdateProxy.memberPointer propPointer x)
                (JBool false)
                (mapSet (UpdateProxy.memberPointer propPointer x) (JBool true)
                   changes)) as [-> ->]. reflexivity.
  - intros Hsame.
    assert (Hptr : UpdateProxy.memberPointer propPointer y =
                   UpdateProxy.memberPointer propPointer x).
    { unfold UpdateProxy.memberPointer. rewrite Hsame. reflexivity. }
    rewrite Hptr.
    destruct (mapGet_mapSet (UpdateProxy.memberPointer propPointer x)
                (JBool true) changes) as [-> ->]. reflexivity.
  - intros Hother. unfold mapHas, mapGet. rewrite mapLookup_mapSet.
    destruct (String.eqb _ _) eqn:E; [|reflexivity].
    apply String.eqb_eq in E. congruence.
Qed.

Lemma X10_set_handle_membership_witness :
  let rt := {| valuePointerGet := fun _ _ => JUndefined;
               getProperty := fun _ _ => JUndefined |} in
  UpdateProxy.has (H := Reference.collaborators) (H0 := rt) "/tags" (JObj [])
    (JStr "1")
    (UpdateProxy.add (H := Reference.collaborators) "/tags" (JNum 1) []).2 =
  JBool true.
Proof.
  intros rt.
  apply (proj1 (proj2 (proj2 (proj2 (X10_set_handle_membership
                  (H := Reference.collaborators) (H0 := rt) "/tags" (JObj [])
                  (JNum 1) (JStr "1") []))))).
  vm_compute. reflexivity.
Defined.

(** ** Operations on the schema *)

Lemma readMetadataTuples_elem (entityId : string) (path : Attribute)
  (tx : TripleStoreTransaction.t) (eav : EAV) :
  eav ∈ TripleStoreTransaction.readMetadataTuples entityId path tx <->
  (eav.1.1 = entityId /\ path `prefix_of` eav.1.2)
  /\ metadata (TripleStoreTransaction.data tx) !! eav.1 = Some eav.2.
Proof.
  unfold TripleStoreTransaction.readMetadataTuples, metadataTuples, EAV in *.
  rewrite elem_of_map_to_list', map_lookup_filter_Some.
  destruct eav as [[e a] v]. cbn [fst snd]. tauto.
Qed.

(** Deleting the tuples read below a path removes those and no others. *)
Lemma delete_read_lookup (path : Attribute) (tx : TripleStoreTransaction.t)
  (key : string * Attribute) :
  metadata
    (TripleStoreTransaction.data
       (TripleStoreTransaction.deleteMetadataTuples
          (map (fun eav : EAV => (eav.1.1, eav.1.2))
             (TripleStoreTransaction.readMetadataTuples "_schema" path tx))
          tx)) !! key =
  if schemaKeyUnder path key then None
  else metadata (TripleStoreTransaction.data tx) !! key.
Proof.
  unfold TripleStoreTransaction.deleteMetadataTuples,
    TripleStoreTransaction.setMetadata, TripleStoreTransaction.setData.
  cbn [TripleStoreTransaction.data metadata].
  rewrite foldl_delete_lookup. unfold schemaKeyUnder.
  case_decide as Hin.
  - apply list_elem_of_In, in_map_iff in Hin as (eav & Hkey & Hin).
    apply list_elem_of_In, readMetadataTuples_elem in Hin as [Hunder _].
    subst key. cbn [fst snd]. rewrite bool_decide_eq_true_2; [reflexivity|].
    exact Hunder.
  - case_bool_decide as Hunder; [|reflexivity].
    destruct (metadata (TripleStoreTransaction.data tx) !! key) as [v|] eqn:Hlook;
      [|reflexivity].
    exfalso. apply Hin. apply list_elem_of_In, in_map_iff.
    exists (key, v). split; [destruct key; reflexivity|].
    apply list_elem_of_In, readMetadataTuples_elem. cbn [fst snd].
    split; [exact Hunder | exact Hlook].
Qed.

(** X11. [dropCollection] removes the schema tuples below
    [collections/<name>], and nothing else: the other metadata stays, and so
    do all triples, those of the entities of the collection included. It
    does so whether or not the store has a schema. *)
Theorem X11_dropCollection_removes_the_schema_only :
  forall (name : string) (tx : TripleStoreTransaction.t),
    exists tx',
      DBTransaction.dropCollection name tx = (inr tt, tx')
      /\ storage (TripleStoreTransaction.data tx') =
         storage (TripleStoreTransaction.data tx)
      /\ (forall key,
            metadata (TripleStoreTransaction.data tx') !! key =
            if schemaKeyUnder [AStr "collections"; AStr name] key then None
            else metadata (TripleStoreTransaction.data tx) !! key).
Proof.
  intros name tx.
  exists (TripleStoreTransaction.deleteMetadataTuples
            (map (fun eav : EAV => (eav.1.1, eav.1.2))
               (TripleStoreTransaction.readMetadataTuples "_schema"
                  [AStr "collections"; AStr name] tx))
            tx).
  split; [reflexivity|]. split; [reflexivity|].
  intros key. apply delete_read_lookup.
Qed.

Lemma ruleToTuple_under (name ruleType : string) (index : nat) (rule : Rule)
  (eav : EAV) :
  eav ∈ ruleToTuple name ruleType index rule ->
  exists key v,
    (key, v) ∈ ruleEntries rule
    /\ eav = ("_schema",
              [AStr "collections"; AStr name; AStr "rules"; AStr ruleType;
               ANum (Z.of_nat index); AStr key], v).
Proof.
  unfold ruleToTuple. intros Hin.
  apply list_elem_of_In, in_map_iff in Hin as ([key v] & Heq & Hin).
  exists key, v. split; [apply list_elem_of_In; exact Hin | symmetry; exact Heq].
Qed.

Lemma collectionTuples_elem (name : string)
  (attrs : list (string * CollectionAttribute)) (rs : option CollectionRules)
  (eav : EAV) :
  eav ∈ collectionTuples name attrs rs ->
  (exists path attr,
     (path, attr) ∈ attrs
     /\ eav = ("_schema",
               [AStr "collections"; AStr name; AStr "attributes"; AStr path;
                AStr "type"], JStr (attr_type attr)))
  \/ (exists ruleType index key v,
        eav = ("_schema",
               [AStr "collections"; AStr name; AStr "rules"; AStr ruleType;
                ANum index; AStr key], v)).
Proof.
  unfold collectionTuples. intros Hin. apply elem_of_app in Hin as [Hin | Hin].
  - left. apply list_elem_of_In, in_map_iff in Hin as ([path attr] & Heq & Hin).
    exists path, attr. split; [apply list_elem_of_In; exact Hin | symmetry; exact Heq].
  - right. destruct rs as [rs|]; [|inversion Hin].
    apply list_elem_of_In, in_flat_map in Hin as (ruleType & _ & Hin).
    destruct (rulesOfType rs ruleType) as [l|]; [|destruct Hin].
    apply in_concat in Hin as (tuples & Htuples & Hin).
    apply list_elem_of_In, elem_of_lookup_imap in Htuples
      as (i & rule & -> & _).
    apply list_elem_of_In, ruleToTuple_under in Hin as (key & v & _ & ->).
    eauto.
Qed.

Lemma collectionTuples_under (name : string)
  (attrs : list (string * CollectionAttribute)) (rs : option CollectionRules)
  (eav : EAV) :
  eav ∈ collectionTuples name attrs rs ->
  schemaKeyUnder [AStr "collections"; AStr name] eav.1 = true.
Proof.
  intros Hin. unfold schemaKeyUnder. apply bool_decide_eq_true_2.
  apply collectionTuples_elem in Hin
    as [(path & attr & _ & ->) | (ruleType & index & key & v & ->)];
    (split; [reflexivity|]); cbn [fst snd]; eexists; reflexivity.
Qed.

Lemma drop_after_create_data (name : string)
  (attrs : list (string * CollectionAttribute)) (rs : option CollectionRules)
  (tx tx1 : TripleStoreTransaction.t) :
  (forall key, schemaKeyUnder [AStr "collections"; AStr name] key = true ->
     metadata (TripleStoreTransaction.data tx) !! key = None) ->
  TripleStoreTransaction.data tx1 =
    TripleStoreTransaction.data
      (TripleStoreTransaction.updateMetadataTuples
         (collectionTuples name attrs rs) tx) ->
  TripleStoreTransaction.data
    (TripleStoreTransaction.deleteMetadataTuples
       (map (fun eav : EAV => (eav.1.1, eav.1.2))
          (TripleStoreTransaction.readMetadataTuples "_schema"
             [AStr "collections"; AStr name] tx1))
       tx1) = TripleStoreTransaction.data tx.
Proof.
  intros Hfresh Hdata1.
  assert (Hmd : forall key,
    metadata
      (TripleStoreTransaction.data
         (TripleStoreTransaction.deleteMetadataTuples
            (map (fun eav : EAV => (eav.1.1, eav.1.2))
               (TripleStoreTransaction.readMetadataTuples "_schema"
                  [AStr "collections"; AStr name] tx1))
            tx1)) !! key =
    metadata (TripleStoreTransaction.data tx) !! key).
  { intros key. rewrite delete_read_lookup, Hdata1.
    destruct (schemaKeyUnder _ key) eqn:Hunder.
    - symmetry. apply Hfresh. exact Hunder.
    - unfold TripleStoreTransaction.updateMetadataTuples,
        TripleStoreTransaction.setMetadata, TripleStoreTransaction.setData.
      cbn [TripleStoreTransaction.data metadata].
      apply foldl_insert_lookup_notin. intros Hin.
      apply list_elem_of_fmap in Hin as (eav & -> & Hin).
      apply collectionTuples_under in Hin. congruence. }
  assert (Hst :
    storage
      (TripleStoreTransaction.data
         (TripleStoreTransaction.deleteMetadataTuples
            (map (fun eav : EAV => (eav.1.1, eav.1.2))
               (TripleStoreTransaction.readMetadataTuples "_schema"
                  [AStr "collections"; AStr name] tx1))
            tx1)) =
    storage (TripleStoreTransaction.data tx)).
  { unfold TripleStoreTransaction.deleteMetadataTuples,
      TripleStoreTransaction.setMetadata, TripleStoreTransaction.setData.
    cbn [TripleStoreTransaction.data storage]. rewrite Hdata1. reflexivity. }
  apply map_eq in Hmd. revert Hst Hmd.
  generalize (TripleStoreTransaction.data
                (TripleStoreTransaction.deleteMetadataTuples
                   (map (fun eav : EAV => (eav.1.1, eav.1.2))
                      (TripleStoreTransaction.readMetadataTuples "_schema"
                         [AStr "collections"; AStr name] tx1))
                   tx1)).
  intros [st md]. destruct (TripleStoreTransaction.data tx) as [st0 md0].
  cbn [storage metadata]. intros -> ->. reflexivity.
Qed.

(** X12. Dropping a collection right after creating it undoes the creation,
    when the schema had nothing below [collections/<name>] before: within
    one transaction the transaction holds the data that it held, and with
    the two methods of the handle, each in a transaction of its own, the
    store holds the data that it held. *)
Theorem X12_dropCollection_undoes_createCollection :
  forall (name : string) (attrs : list (string * CollectionAttribute))
         (rs : option CollectionRules),
    (forall tx : TripleStoreTransaction.t,
       (forall key, schemaKeyUnder [AStr "collections"; AStr name] key = true ->
          metadata (TripleStoreTransaction.data tx) !! key = None) ->
       exists tx',
         (DBTransaction.createCollection name attrs rs ;;;
          DBTransaction.dropCollection name) tx = (inr tt, tx')
         /\ TripleStoreTransaction.data tx' = TripleStoreTransaction.data tx)
    /\ (forall db : DB.t,
          (forall key, schemaKeyUnder [AStr "collections"; AStr name] key = true ->
             metadata (TripleStore.data (DB.tripleStore db)) !! key = None) ->
          exists db',
            (DB.createCollection name attrs rs ;;; DB.dropCollection name) db =
            (inr tt, db')
            /\ TripleStore.data (DB.tripleStore db') =
               TripleStore.data (DB.tripleStore db)
            /\ DB.variables db' = DB.variables db).
Proof.
  intros name attrs rs. split.
  - intros tx Hfresh.
    set (tx1 := TripleStoreTransaction.updateMetadataTuples
                  (collectionTuples name attrs rs) tx).
    exists (TripleStoreTransaction.deleteMetadataTuples
              (map (fun eav : EAV => (eav.1.1, eav.1.2))
                 (TripleStoreTransaction.readMetadataTuples "_schema"
                    [AStr "collections"; AStr name] tx1))
              tx1).
    split; [reflexivity|].
    apply (drop_after_create_data name attrs rs tx tx1 Hfresh). reflexivity.
  - intros db Hfresh.
    set (tx0 := TripleStore.begin None (DB.tripleStore db)).
    set (tx1 := TripleStoreTransaction.updateMetadataTuples
                  (collectionTuples name attrs rs) tx0).
    set (db1 := withStore (TripleStore.commit tx1 (DB.tripleStore db)) db).
    set (tx2 := TripleStore.begin None (DB.tripleStore db1)).
    set (tx3 := TripleStoreTransaction.deleteMetadataTuples
                  (map (fun eav : EAV => (eav.1.1, eav.1.2))
                     (TripleStoreTransaction.readMetadataTuples "_schema"
                        [AStr "collections"; AStr name] tx2))
                  tx2).
    exists (withStore (TripleStore.commit tx3 (DB.tripleStore db1)) db1).
    split; [|split; [|reflexivity]].
    + assert (Hcreate : DB.createCollection name attrs rs db = (inr tt, db1)).
      { unfold DB.createCollection, bind.
        rewrite (DB_transact_return _ None db tx1 eq_refl). reflexivity. }
      assert (Hdrop : DB.dropCollection name db1 =
                      (inr tt,
                       withStore (TripleStore.commit tx3 (DB.tripleStore db1))
                         db1)).
      { unfold DB.dropCollection, bind.
        rewrite (DB_transact_return _ None db1 tx3 eq_refl). reflexivity. }
      unfold bind at 1. rewrite Hcreate. exact Hdrop.
    + change (TripleStoreTransaction.data tx3 =
              TripleStoreTransaction.data tx0).
      apply (drop_after_create_data name attrs rs tx0 tx2 Hfresh). reflexivity.
Qed.

Lemma X12_dropCollection_undoes_createCollection_witness :
  exists db',
    (DB.createCollection "users" [("name", {| attr_type := "string" |})]
       (Some {| read := Some [Example.readableUsers]; write := None |}) ;;;
     DB.dropCollection "users") Example.emptyDb = (inr tt, db')
    /\ TripleStore.data (DB.tripleStore db') =
       TripleStore.data (DB.tripleStore Example.emptyDb)
    /\ DB.variables db' = DB.variables Example.emptyDb.
Proof.
  apply (proj2 (X12_dropCollection_undoes_createCollection "users"
                  [("name", {| attr_type := "string" |})]
                  (Some {| read := Some [Example.readableUsers];
                           write := None |}))
           Example.emptyDb).
  intros key _. apply lookup_empty.
Defined.

Section FoldInsert.
Context {K V : Type} `{Countable K}.

(** The last tuple written under a key is the one that stays; when all
    tuples of a key carry the same value, that value. *)
Lemma foldl_insert_lookup_fun (l : list (K * V)) (m : gmap K V) (k : K) (v : V) :
  (k, v) ∈ l -> (forall v', (k, v') ∈ l -> v' = v) ->
  foldl (fun md (eav : K * V) => <[eav.1 := eav.2]> md) m l !! k = Some v.
Proof.
  revert m. induction l as [|[k0 v0] l IH]; intros m Hin Hfun;
    [inversion Hin|].
  cbn [foldl fst snd].
  destruct (decide (k ∈ l.*1)) as [Hlater | Hlater].
  - apply list_elem_of_fmap in Hlater as ([k1 v1] & Hk & Hlater).
    cbn [fst] in Hk. subst k1.
    assert (v1 = v) as -> by (apply Hfun; right; exact Hlater).
    apply IH; [exact Hlater|]. intros v' Hv'. apply Hfun. right. exact Hv'.
  - rewrite foldl_insert_lookup_notin by exact Hlater.
    apply elem_of_cons in Hin as [Heq | Hin].
    + inversion Heq; subst. apply lookup_insert_eq.
    + exfalso. apply Hlater. apply list_elem_of_fmap. exists (k, v).
      split; [reflexivity | exact Hin].
Qed.

End FoldInsert.

Lemma rulesOfType_cases (rs : CollectionRules) (ruleType : string)
  (l : list Rule) :
  rulesOfType rs ruleType = Some l ->
  (ruleType = "read" /\ read rs = Some l)
  \/ (ruleType = "write" /\ write rs = Some l).
Proof.
  unfold rulesOfType. destruct (String.eqb ruleType "read") eqn:Hread.
  - apply String.eqb_eq in Hread. auto.
  - destruct (String.eqb ruleType "write") eqn:Hwrite; [|discriminate].
    apply String.eqb_eq in Hwrite. auto.
Qed.

Lemma collectionTuples_rule (name : string)
  (attrs : list (string * CollectionAttribute)) (rs : CollectionRules)
  (ruleType key : string) (index : Z) (v : JsValue) :
  let eav : EAV :=
    ("_schema",
     [AStr "collections"; AStr name; AStr "rules"; AStr ruleType; ANum index;
      AStr key], v) in
  eav ∈ collectionTuples name attrs (Some rs) <->
  exists l i rule,
    rulesOfType rs ruleType = Some l /\ l !! i = Some rule
    /\ index = Z.of_nat i /\ (key, v) ∈ ruleEntries rule.
Proof.
  intros eav. unfold collectionTuples. rewrite elem_of_app. split.
  - intros [Hin | Hin].
    + apply list_elem_of_In, in_map_iff in Hin as ([path attr] & Heq & _).
      discriminate.
    + apply list_elem_of_In, in_flat_map in Hin as (ruleType' & _ & Hin).
      destruct (rulesOfType rs ruleType') as [l|] eqn:Hl; [|destruct Hin].
      apply in_concat in Hin as (tuples & Htuples & Hin).
      apply list_elem_of_In, elem_of_lookup_imap in Htuples
        as (i & rule & -> & Hrule).
      apply list_elem_of_In, ruleToTuple_under in Hin as (key' & v' & Hentry & Heq).
      unfold eav in Heq. inversion Heq; subst.
      exists l, i, rule. auto.
  - intros (l & i & rule & Hl & Hrule & -> & Hentry). right.
    apply list_elem_of_In, in_flat_map. exists ruleType. split.
    + destruct (rulesOfType_cases _ _ _ Hl) as [[-> _] | [-> _]];
        cbn; auto.
    + rewrite Hl. apply in_concat.
      exists (ruleToTuple name ruleType i rule). split.
      * apply list_elem_of_In, elem_of_lookup_imap. eauto.
      * unfold ruleToTuple. apply in_map_iff. exists (key, v).
        split; [reflexivity | apply list_elem_of_In; exact Hentry].
Qed.

Lemma ruleEntries_filter (rule : Rule) (v : JsValue) :
  ("filter", v) ∈ ruleEntries rule <-> v = whereToJs (rule_filter rule).
Proof.
  unfold ruleEntries. rewrite elem_of_cons. split.
  - intros [Heq | Hin]; [inversion Heq; reflexivity|].
    destruct (rule_description rule); [|inversion Hin].
    apply list_elem_of_singleton in Hin. discriminate.
  - intros ->. left. reflexivity.
Qed.

(** X13. What [createCollection] leaves in the schema: the type of every
    attribute below [attributes/<path>/type], the filter of the [i]-th read
    or write rule below [rules/<read or write>/<i>/filter], and every tuple
    that is not below [collections/<name>] as it was. No triple changes. *)
Theorem X13_createCollection_writes_the_schema :
  forall (name : string) (attrs : list (string * CollectionAttribute))
         (rs : option CollectionRules) (tx : TripleStoreTransaction.t),
    let tx' := (DBTransaction.createCollection name attrs rs tx).2 in
    let md' := metadata (TripleStoreTransaction.data tx') in
    (DBTransaction.createCollection name attrs rs tx).1 = inr tt
    /\ storage (TripleStoreTransaction.data tx') =
       storage (TripleStoreTransaction.data tx)
    /\ (forall path attr,
          (path, attr) ∈ attrs ->
          (forall attr', (path, attr') ∈ attrs -> attr' = attr) ->
          md' !! ("_schema",
                  [AStr "collections"; AStr name; AStr "attributes"; AStr path;
                   AStr "type"]) = Some (JStr (attr_type attr)))
    /\ (forall rules ruleType l i rule,
          rs = Some rules -> rulesOfType rules ruleType = Some l ->
          l !! i = Some rule ->
          md' !! ("_schema",
                  [AStr "collections"; AStr name; AStr "rules"; AStr ruleType;
                   ANum (Z.of_nat i); AStr "filter"]) =
          Some (whereToJs (rule_filter rule)))
    /\ (forall key,
          schemaKeyUnder [AStr "collections"; AStr name] key = false ->
          md' !! key = metadata (TripleStoreTransaction.data tx) !! key).
Proof.
  intros name attrs rs tx tx' md'.
  assert (Hmd : md' =
    foldl (fun md (eav : EAV) => <[eav.1 := eav.2]> md)
      (metadata (TripleStoreTransaction.data tx))
      (collectionTuples name attrs rs)) by reflexivity.
  split; [reflexivity|]. split; [reflexivity|]. rewrite Hmd. clear Hmd.
  split; [|split].
  - intros path attr Hin Hfun. unfold EAV in *.
    apply foldl_insert_lookup_fun.
    + unfold collectionTuples. apply elem_of_app. left.
      apply list_elem_of_In, in_map_iff. exists (path, attr).
      split; [reflexivity | apply list_elem_of_In; exact Hin].
    + intros v' Hv'.
      apply collectionTuples_elem in Hv'
        as [(path' & attr' & Hin' & Heq) | (ruleType & index & key & v & Heq)];
        [|discriminate].
      inversion Heq; subst. rewrite (Hfun attr' Hin'). reflexivity.
  - intros rules ruleType l i rule -> Hl Hrule. unfold EAV in *.
    apply foldl_insert_lookup_fun.
    + apply collectionTuples_rule. exists l, i, rule.
      repeat split; try assumption. apply ruleEntries_filter. reflexivity.
    + intros v' Hv'.
      apply collectionTuples_rule in Hv' as (l' & i' & rule' & Hl' & Hrule' & Hi & Hentry).
      apply Nat2Z.inj in Hi. subst i'.
      rewrite Hl in Hl'. inversion Hl'; subst l'.
      rewrite Hrule in Hrule'. inversion Hrule'; subst rule'.
      apply ruleEntries_filter. exact Hentry.
  - intros key Hunder. unfold EAV in *.
    apply foldl_insert_lookup_notin. intros Hin.
    apply list_elem_of_fmap in Hin as (eav & -> & Hin).
    apply collectionTuples_under in Hin. congruence.
Qed.

Lemma X13_createCollection_writes_the_schema_witness :
  metadata
    (TripleStoreTransaction.data
       (DBTransaction.createCollection "users"
          [("name", {| attr_type := "string" |})]
          (Some {| read := Some [Example.readableUsers]; write := None |})
          (TripleStore.begin None (DB.tripleStore Example.emptyDb))).2)
    !! ("_schema",
        [AStr "collections"; AStr "users"; AStr "rules"; AStr "read";
         ANum (Z.of_nat 0); AStr "filter"]) =
  Some (whereToJs (rule_filter Example.readableUsers)).
Proof.
  apply (proj1 (proj2 (proj2 (proj2 (X13_createCollection_writes_the_schema
           "users" [("name", {| attr_type := "string" |})]
           (Some {| read := Some [Example.readableUsers]; write := None |})
           (TripleStore.begin None (DB.tripleStore Example.emptyDb))))))
           {| read := Some [Example.readableUsers]; write := None |} "read"
           [Example.readableUsers] 0%nat Example.readableUsers);
    reflexivity.
Defined.

(** X14. [addAttribute] and [dropAttribute] do nothing to a store without
    a schema, and return normally. With a schema, [addAttribute] writes the
    type of the attribute and [dropAttribute] removes the schema tuples
    below the attribute; neither touches a triple. *)
Theorem X14_attributes_change_only_an_existing_schema :
  forall `{External} (collectionName path : string)
         (attr : CollectionAttribute) (db : DB.t),
    let md := metadata (TripleStore.data (DB.tripleStore db)) in
    let hasSchema := readSchema (metadataTuples md) in
    (exists db',
       DB.addAttribute collectionName path attr db = (inr tt, db')
       /\ storage (TripleStore.data (DB.tripleStore db')) =
          storage (TripleStore.data (DB.tripleStore db))
       /\ metadata (TripleStore.data (DB.tripleStore db')) =
          if hasSchema is Some _
          then <[("_schema",
                  attributeSchemaPath collectionName path ++ [AStr "type"])
                 := JStr (attr_type attr)]> md
          else md)
    /\ (exists db',
          DB.dropAttribute collectionName path db = (inr tt, db')
          /\ storage (TripleStore.data (DB.tripleStore db')) =
             storage (TripleStore.data (DB.tripleStore db))
          /\ forall key,
               metadata (TripleStore.data (DB.tripleStore db')) !! key =
               if hasSchema is Some _
               then if schemaKeyUnder
                         (attributeSchemaPath collectionName path) key
                    then None else md !! key
               else md !! key).
Proof.
  intros ext collectionName path attr db md hasSchema.
  set (tx0 := TripleStore.begin None (DB.tripleStore db)).
  split.
  - set (tx1 :=
      if hasSchema is Some _
      then TripleStoreTransaction.updateMetadataTuples
             [("_schema",
               attributeSchemaPath collectionName path ++ [AStr "type"],
               JStr (attr_type attr))] tx0
      else tx0).
    assert (Hrun : DBTransaction.addAttribute collectionName path attr tx0 =
                   (inr tt, tx1)).
    { unfold DBTransaction.addAttribute, bind, DBTransaction.getSchema, gets.
      unfold tx1, hasSchema, md.
      change (metadata (TripleStoreTransaction.data tx0))
        with (metadata (TripleStore.data (DB.tripleStore db))).
      destruct (readSchema _); reflexivity. }
    exists (withStore (TripleStore.commit tx1 (DB.tripleStore db)) db).
    split; [|split].
    + unfold DB.addAttribute, bind.
      rewrite (DB_transact_return _ None db tx1 Hrun). reflexivity.
    + unfold tx1. destruct hasSchema; reflexivity.
    + unfold tx1. destruct hasSchema; reflexivity.
  - set (tx1 :=
      if hasSchema is Some _
      then TripleStoreTransaction.deleteMetadataTuples
             (map (fun eav : EAV => (eav.1.1, eav.1.2))
                (TripleStoreTransaction.readMetadataTuples "_schema"
                   (attributeSchemaPath collectionName path) tx0))
             tx0
      else tx0).
    assert (Hrun : DBTransaction.dropAttribute collectionName path tx0 =
                   (inr tt, tx1)).
    { unfold DBTransaction.dropAttribute, bind, DBTransaction.getSchema, gets.
      unfold tx1, hasSchema, md.
      change (metadata (TripleStoreTransaction.data tx0))
        with (metadata (TripleStore.data (DB.tripleStore db))).
      destruct (readSchema _); reflexivity. }
    exists (withStore (TripleStore.commit tx1 (DB.tripleStore db)) db).
    split; [|split].
    + unfold DB.dropAttribute, bind, DB.liftStore.
      rewrite (TripleStore_transact_return _ None _ tt tx1 Hrun). reflexivity.
    + unfold tx1. destruct hasSchema; reflexivity.
    + intros key. unfold tx1. destruct hasSchema; [|reflexivity].
      cbn [withStore DB.tripleStore TripleStore.commit TripleStore.data].
      apply delete_read_lookup.
Qed.

(** ** More on migrations *)

Lemma forEach_app {S A} (xs ys : list A) (body : A -> Eff S unit) (s : S) :
  forEach (xs ++ ys) body s = (forEach xs body ;;; forEach ys body) s.
Proof.
  revert s. induction xs as [|x xs IH]; intros s; cbn [forEach app].
  - reflexivity.
  - unfold bind in *. destruct (body x s) as [[e|[]] s1]; [reflexivity|].
    apply IH.
Qed.

(** The transaction of [applyRemoteTransaction] throws at the first
    operation that it does not recognise, and only there; otherwise it
    commits what the methods of the operations leave, in order. *)
Lemma applyRemoteTransaction_run `{External} (operations : list DBOperation)
  (db : DB.t) :
  match firstUnknown operations with
  | Some tag =>
      DB.applyRemoteTransaction operations db =
      (inl (InvalidMigrationOperationError
              ("The operation " +:+ tag +:+ " is not recognized.")), db)
  | None =>
      DB.applyRemoteTransaction operations db =
      (inr tt,
       withStore
         (TripleStore.commit
            (operationsTx operations
               (TripleStore.begin None (DB.tripleStore db)))
            (DB.tripleStore db))
         db)
  end.
Proof.
  unfold DB.applyRemoteTransaction, bind, DB.liftStore, TripleStore.transact.
  match goal with
  | |- context [forEach operations ?b] => set (body := b)
  end.
  assert (Hloop : forall tx,
    match firstUnknown operations with
    | Some tag =>
        exists tx',
          forEach operations body tx =
          (inl (InvalidMigrationOperationError
                  ("The operation " +:+ tag +:+ " is not recognized.")), tx')
    | None => forEach operations body tx = (inr tt, operationsTx operations tx)
    end).
  { induction operations as [|operation rest IH]; intros tx; [reflexivity|].
    assert (Hstep :
      body operation tx = (inr tt, operationTx operation tx) ->
      match firstUnknown rest with
      | Some tag =>
          exists tx',
            forEach (operation :: rest) body tx =
            (inl (InvalidMigrationOperationError
                    ("The operation " +:+ tag +:+ " is not recognized.")), tx')
      | None =>
          forEach (operation :: rest) body tx =
          (inr tt, operationsTx (operation :: rest) tx)
      end).
    { intros Hrun. cbn [forEach]. unfold bind. rewrite Hrun.
      apply IH. }
    destruct operation as [name attrs rs | name | c path attr | c path
                          | c path newPath | tag]; cbn [firstUnknown].
    - apply Hstep. reflexivity.
    - apply Hstep. reflexivity.
    - apply Hstep.
      unfold body, operationTx, DBTransaction.addAttribute, bind,
        DBTransaction.getSchema, gets.
      destruct (readSchema _); reflexivity.
    - apply Hstep.
      unfold body, operationTx, DBTransaction.dropAttribute, bind,
        DBTransaction.getSchema, gets.
      destruct (readSchema _); reflexivity.
    - apply Hstep.
      destruct (renameAttribute_run c path newPath tx) as (tx1 & Hrun & _).
      unfold body, operationTx. rewrite Hrun. reflexivity.
    - eexists. reflexivity. }
  specialize (Hloop (TripleStore.begin None (DB.tripleStore db))).
  destruct (firstUnknown operations) as [tag|].
  - destruct Hloop as [tx' ->]. destruct db; reflexivity.
  - rewrite Hloop. reflexivity.
Qed.

(** C3. For every migration of the list that [migrate] is given, in the
    direction [d], with [v] the version of the database when its turn
    comes: going up, its [up] operations are applied if and only if its
    parent is [v]; going down, its [down] operations are applied if and
    only if its version is [v]. Applied means that the store then holds what
    the methods of the operations leave, one after the other, and the new
    version; [migrate] goes on with the rest of the list from there. A
    migration whose gate is closed is skipped: the database is as it was,
    and [migrate] goes on with the rest. (An operation that is not
    recognised makes [migrate] throw, nothing being applied.) *)
Theorem C3_migrate_gate :
  forall `{External} (migration : Migration) (rest : list Migration)
         (direction : Direction) (db : DB.t),
    let v := currentVersion db in
    let open :=
      (direction = Up /\ parent migration = v)
      \/ (direction = Down /\ version migration = v) in
    let operations :=
      match direction with
      | Up => up migration
      | Down => down migration
      end in
    (open -> firstUnknown operations = None ->
     DB.migrate (migration :: rest) direction db =
     DB.migrate rest direction (migrated migration direction db))
    /\ (open -> forall tag, firstUnknown operations = Some tag ->
        DB.migrate (migration :: rest) direction db =
        (inl (InvalidMigrationOperationError
                ("The operation " +:+ tag +:+ " is not recognized.")), db))
    /\ (~ open ->
        DB.migrate (migration :: rest) direction db =
        DB.migrate rest direction db)
    /\ DB.migrate [] direction db = (inr tt, db)
    /\ TripleStore.data (DB.tripleStore (migrated migration direction db)) =
       {| storage :=
            storage
              (TripleStoreTransaction.data
                 (operationsTx operations
                    (TripleStore.begin None (DB.tripleStore db))));
          metadata :=
            <[("_schema", [AStr "version"]) :=
                JNum (match direction with
                      | Up => version migration
                      | Down => parent migration
                      end)]>
              (metadata
                 (TripleStoreTransaction.data
                    (operationsTx operations
                       (TripleStore.begin None (DB.tripleStore db))))) |}.
Proof.
  intros ext migration rest direction db v open operations.
  assert (Hgate : canMigrate migration direction v = true <-> open)
    by apply canMigrate_spec.
  assert (Hoperations : operations = operationsOf migration direction)
    by (destruct direction; reflexivity).
  pose proof (applyRemoteTransaction_run (operationsOf migration direction) db)
    as Hrun.
  rewrite <- Hoperations in Hrun.
  split; [|split; [|split; [|split]]].
  - intros Hopen Hknown. apply Hgate in Hopen.
    unfold DB.migrate. cbn [forEach]. unfold bind at 1.
    rewrite (migrateOne_open _ _ _ Hopen). unfold bind at 1.
    rewrite <- Hoperations, Hknown in *. rewrite Hrun.
    destruct direction; reflexivity.
  - intros Hopen tag Hunknown. apply Hgate in Hopen.
    unfold DB.migrate. cbn [forEach]. unfold bind at 1.
    rewrite (migrateOne_open _ _ _ Hopen). unfold bind at 1.
    rewrite <- Hoperations, Hunknown in *. rewrite Hrun. reflexivity.
  - intros Hclosed.
    assert (Hno : canMigrate migration direction v = false).
    { destruct (canMigrate migration direction v) eqn:Hcan; [|reflexivity].
      exfalso. apply Hclosed, Hgate. reflexivity. }
    unfold DB.migrate. cbn [forEach]. unfold bind at 1.
    rewrite (migrateOne_closed _ _ _ Hno). reflexivity.
  - reflexivity.
  - destruct direction; reflexivity.
Qed.

Lemma C3_migrate_gate_witness :
  DB.migrate (H := Reference.collaborators) [Example.createCollections] Up
    Example.emptyDb =
  (inr tt,
   migrated (H := Reference.collaborators) Example.createCollections Up
     Example.emptyDb)
  /\ metadata
       (TripleStore.data
          (DB.tripleStore
             (migrated (H := Reference.collaborators)
                Example.createCollections Up Example.emptyDb)))
       !! ("_schema", [AStr "collections"; AStr "users"; AStr "attributes";
                       AStr "name"; AStr "type"]) = Some (JStr "string")
  /\ currentVersion (H := Reference.collaborators)
       (migrated (H := Reference.collaborators) Example.createCollections Up
          Example.emptyDb) = 1%Z.
Proof.
  split; [|split; vm_compute; reflexivity].
  rewrite (proj1 (C3_migrate_gate (H := Reference.collaborators)
                    Example.createCollections [] Up Example.emptyDb)).
  - reflexivity.
  - left. split; [reflexivity | vm_compute; reflexivity].
  - reflexivity.
Defined.

(** X15. [applyRemoteTransaction] applies a list of recognised operations
    in one transaction, which commits: the store then holds the data that
    the methods of the operations leave, one after the other, on a
    transaction begun on the store. An operation that is not recognised
    makes it throw [InvalidMigrationOperationError] with the tag of the
    first such operation, and none of the operations takes effect, those
    before the unrecognised one included. *)
Theorem X15_migration_operations_apply_together_or_not_at_all :
  forall `{External} (operations : list DBOperation) (db : DB.t),
    match firstUnknown operations with
    | Some tag =>
        DB.applyRemoteTransaction operations db =
        (inl (InvalidMigrationOperationError
                ("The operation " +:+ tag +:+ " is not recognized.")), db)
    | None =>
        exists db',
          DB.applyRemoteTransaction operations db = (inr tt, db')
          /\ TripleStore.data (DB.tripleStore db') =
             TripleStoreTransaction.data
               (foldl (fun tx operation =>
                         match operation with
                         | create_collection name attrs rs =>
                             (DBTransaction.createCollection name attrs rs tx).2
                         | drop_collection name =>
                             (DBTransaction.dropCollection name tx).2
                         | rename_attribute c path newPath =>
                             (DBTransaction.renameAttribute c path newPath tx).2
                         | add_attribute c path attr =>
                             (DBTransaction.addAttribute c path attr tx).2
                         | drop_attribute c path =>
                             (DBTransaction.dropAttribute c path tx).2
                         | unknown_operation _ => tx
                         end)
                      (TripleStore.begin None (DB.tripleStore db))
                      operations)
          /\ DB.variables db' = DB.variables db
    end.
Proof.
  intros ext operations db.
  pose proof (applyRemoteTransaction_run operations db) as Hrun.
  destruct (firstUnknown operations) as [tag|]; [exact Hrun|].
  eexists. split; [exact Hrun|]. split; reflexivity.
Qed.

(** X16. [migrate] passes over the migrations whose gate is closed without
    changing the database, and stops at a migration that fails: when the
    first migration with an open gate has an operation that is not
    recognised, [migrate] throws, the database is as it was (its version
    too), and the migrations after it are not looked at. *)
Theorem X16_migrate_skips_closed_gates_and_stops_at_a_failure :
  forall `{External} (direction : Direction) (skipped : list Migration)
         (db : DB.t),
    Forall (fun m => canMigrate m direction (currentVersion db) = false)
           skipped ->
    DB.migrate skipped direction db = (inr tt, db)
    /\ (forall migration rest tag,
          canMigrate migration direction (currentVersion db) = true ->
          firstUnknown (operationsOf migration direction) = Some tag ->
          DB.migrate (skipped ++ migration :: rest) direction db =
          (inl (InvalidMigrationOperationError
                  ("The operation " +:+ tag +:+ " is not recognized.")), db)).
Proof.
  intros ext direction skipped db Hclosed.
  assert (Hskip : DB.migrate skipped direction db = (inr tt, db)).
  { unfold DB.migrate. induction Hclosed as [|m ms Hm Hms IH]; [reflexivity|].
    cbn [forEach]. unfold bind. rewrite (migrateOne_closed _ _ _ Hm).
    exact IH. }
  split; [exact Hskip|].
  intros migration rest tag Hopen Hunknown.
  unfold DB.migrate in *. rewrite forEach_app. unfold bind at 1.
  rewrite Hskip. cbn [forEach]. unfold bind at 1.
  rewrite (migrateOne_open _ _ _ Hopen). unfold bind at 1.
  pose proof (applyRemoteTransaction_run (operationsOf migration direction) db)
    as Hrun.
  rewrite Hunknown in Hrun. rewrite Hrun. reflexivity.
Qed.

Lemma X16_migrate_skips_closed_gates_and_stops_at_a_failure_witness :
  let later := {| up := [drop_collection "users"]; down := [];
                  version := 3; parent := 2 |} in
  let broken := {| up := [create_collection "users" [] None;
                          unknown_operation "truncate"];
                   down := []; version := 1; parent := 0 |} in
  DB.migrate (H := Reference.collaborators) [later] Up Example.emptyDb =
    (inr tt, Example.emptyDb)
  /\ DB.migrate (H := Reference.collaborators)
       ([later] ++ broken :: [Example.createCollections]) Up Example.emptyDb =
     (inl (InvalidMigrationOperationError
             ("The operation " +:+ "truncate" +:+ " is not recognized.")),
      Example.emptyDb).
Proof.
  intros later broken.
  destruct (X16_migrate_skips_closed_gates_and_stops_at_a_failure
              (H := Reference.collaborators) Up [later] Example.emptyDb)
    as [Hskip Hstop].
  - apply List.Forall_cons; [vm_compute; reflexivity | apply List.Forall_nil].
  - split; [exact Hskip|].
    apply Hstop; [vm_compute; reflexivity | reflexivity].
Defined.

(** ** More on reading *)

(** A clause of statements only is left as it is, whether the resolution
    returns or throws: only groups are rewritten. *)
Lemma resolution_statements_left (variables : Variables) (fs : QueryWhere) :
  forallb isStatement fs = true ->
  (replaceVariablesInFilterStatements fs variables).2 = fs.
Proof.
  induction fs as [|f rest IH]; intros Hall; [reflexivity|].
  cbn [forallb] in Hall. apply andb_true_iff in Hall as [Hf Hrest].
  specialize (IH Hrest).
  destruct f as [path op v | m inner]; [|discriminate].
  cbn [replaceVariablesInFilterStatements replaceVariablesInFilter].
  destruct (replaceVariablesInFilterStatements rest variables)
    as [[e|rest'] rest1]; cbn [snd] in IH; subst rest1;
    repeat case_match; reflexivity.
Qed.

(** X17. [fetchById] on a collection whose read rules are statements
    (no groups): the stored data, the clock and the variables of the handle
    are as before, and so are the filters of the rules. It throws only
    [SessionVariableNotFoundError], for a [$]-string of a read rule whose
    variable reads as a falsy value in the variables of the handle (a
    name that every object inherits reads as truthy). What it returns is
    [null] or, when the collection has read rules, an entity that matches
    the filters of all of them, resolved with the variables of the
    handle. *)
Theorem X17_fetchById_returns_only_what_the_read_rules_allow :
  forall `{External} (collectionName id : string) (db : DB.t),
    let schema := schemaOf db collectionName in
    let variables := mergeVariables (Some (DB.variables db)) None in
    (forall readRules,
       readRulesOf schema = Some readRules ->
       forallb isStatement (ruleFilters readRules) = true) ->
    exists r,
      DB.fetchById collectionName id db = (r, db)
      /\ (forall readRules,
            readRulesOf schema = Some readRules ->
            (replaceVariablesInFilterStatements (ruleFilters readRules)
               variables).2 = ruleFilters readRules)
      /\ (forall e, r = inl e ->
            exists name readRules,
              readRulesOf schema = Some readRules
              /\ e = SessionVariableNotFoundError (String "$" name)
              /\ truthy (getVariable variables name) = false
              /\ existsb (mentionsName name) (ruleFilters readRules) = true)
      /\ (forall readRules v,
            readRulesOf schema = Some readRules -> r = inr v ->
            v = JNull
            \/ exists filters,
                 (replaceVariablesInFilterStatements (ruleFilters readRules)
                    variables).1 = inr filters
                 /\ doesEntityObjMatchWhere v filters schema = true).
Proof.
  intros ext collectionName id db schema variables Hstatements.
  eexists. split; [apply DB_fetchById_run|]. fold schema.
  split.
  { intros readRules Hrules. apply resolution_statements_left.
    exact (Hstatements readRules Hrules). }
  set (entity := constructEntity _).
  destruct (truthy entity); cbn [negb].
  - destruct (readRulesOf schema) as [readRules|] eqn:Hrules.
    + rewrite replaceVariablesInQuery_rules. fold variables.
      destruct (replaceVariablesInFilterStatements (ruleFilters readRules)
                  variables) as [[e|filters] left] eqn:Hresolve; cbn [fst].
      * split.
        -- intros e' He'. inversion He'; subst e'.
           destruct (proj2 (resolution_error_name variables) _ _ _ Hresolve)
             as (name & -> & Hfalsy & Hmentioned).
           exists name, readRules. auto.
        -- intros readRules' v _ Hv. discriminate.
      * cbn [where_].
        destruct (doesEntityObjMatchWhere entity filters schema) eqn:Hmatch.
        -- split; [intros e He; discriminate|].
           intros readRules' v Hrules' Hv. inversion Hrules'; subst readRules'.
           inversion Hv; subst v. right. exists filters.
           rewrite Hresolve. split; [reflexivity | exact Hmatch].
        -- split; [intros e He; discriminate|].
           intros readRules' v _ Hv. inversion Hv. left. reflexivity.
    + split; [intros e He; discriminate|].
      intros readRules v Hrules'. discriminate.
  - split; [intros e He; discriminate|].
    intros readRules v _ Hv. inversion Hv. left. reflexivity.
Qed.

Lemma X17_fetchById_returns_only_what_the_read_rules_allow_witness :
  exists r,
    DB.fetchById (H := Reference.collaborators) "users" "u1" Example.usersDb =
      (r, Example.usersDb)
    /\ (forall readRules,
          readRulesOf (schemaOf (H := Reference.collaborators) Example.usersDb
                         "users") = Some readRules ->
          (replaceVariablesInFilterStatements (ruleFilters readRules)
             (mergeVariables (Some (DB.variables Example.usersDb)) None)).2 =
          ruleFilters readRules)
    /\ (forall e, r = inl e ->
          exists name readRules,
            readRulesOf (schemaOf (H := Reference.collaborators)
                           Example.usersDb "users") = Some readRules
            /\ e = SessionVariableNotFoundError (String "$" name)
            /\ truthy (getVariable
                         (mergeVariables (Some (DB.variables Example.usersDb))
                            None) name) = false
            /\ existsb (mentionsName name) (ruleFilters readRules) = true)
    /\ (forall readRules v,
          readRulesOf (schemaOf (H := Reference.collaborators) Example.usersDb
                         "users") = Some readRules ->
          r = inr v ->
          v = JNull
          \/ exists filters,
               (replaceVariablesInFilterStatements (ruleFilters readRules)
                  (mergeVariables (Some (DB.variables Example.usersDb)) None)).1
               = inr filters
               /\ doesEntityObjMatchWhere (External := Reference.collaborators)
                    v filters
                    (schemaOf (H := Reference.collaborators) Example.usersDb
                       "users") = true).
Proof.
  apply (X17_fetchById_returns_only_what_the_read_rules_allow
           (H := Reference.collaborators) "users" "u1" Example.usersDb).
  intros readRules Hrules.
  assert (Hread :
    readRulesOf (schemaOf (H := Reference.collaborators) Example.usersDb
                   "users") = Some [Example.readableUsers])
    by (vm_compute; reflexivity).
  rewrite Hread in Hrules. inversion Hrules. reflexivity.
Defined.

(** ** Counting entities *)

Section JsMapLemmas.
Context {K V : Type} `{EqDecision K}.

Lemma jsMapGet_jsMapSet (k k' : K) (v : V) (m : list (K * V)) :
  jsMapGet k' (jsMapSet k v m) =
  if decide (k = k') then Some v else jsMapGet k' m.
Proof.
  induction m as [|[k0 v0] m IH]; cbn [jsMapSet jsMapGet].
  - reflexivity.
  - destruct (decide (k0 = k)) as [-> | Hne]; cbn [jsMapGet].
    + destruct (decide (k = k')); reflexivity.
    + rewrite IH. destruct (decide (k0 = k')) as [-> | Hne'];
        [|reflexivity].
      destruct (decide (k = k')); [congruence | reflexivity].
Qed.

End JsMapLemmas.

Lemma countEntity_get (acc : list (JsValue * Z)) (triple : TripleRow)
  (name : JsValue) :
  jsMapGet name (DB.countEntity acc triple) =
  if decide (value triple = name)
  then Some (default 0%Z (jsMapGet name acc) + 1)%Z
  else jsMapGet name acc.
Proof.
  unfold DB.countEntity. rewrite jsMapGet_jsMapSet.
  destruct (decide (value triple = name)) as [<- | Hne].
  - unfold jsMapHas.
    destruct (jsMapGet (value triple) acc) as [n|] eqn:Hget.
    + rewrite Hget. reflexivity.
    + rewrite jsMapGet_jsMapSet, decide_True by reflexivity. reflexivity.
  - destruct (jsMapHas (value triple) acc); [reflexivity|].
    rewrite jsMapGet_jsMapSet, decide_False by exact Hne. reflexivity.
Qed.

Lemma foldl_countEntity_get (triples : list TripleRow) (name : JsValue) :
  forall acc,
    jsMapGet name (foldl DB.countEntity acc triples) =
    let n := length (filter (fun triple => value triple = name) triples) in
    if decide (n = 0) then jsMapGet name acc
    else Some (default 0%Z (jsMapGet name acc) + Z.of_nat n)%Z.
Proof.
  induction triples as [|triple triples IH]; intros acc; [reflexivity|].
  cbn [foldl]. rewrite IH, countEntity_get. rewrite filter_cons.
  destruct (decide (value triple = name)) as [Heq | Hne]; [|reflexivity].
  cbn [length default from_option Datatypes.id].
  destruct (decide (length (filter _ triples) = 0)) as [-> | Hpos].
  - rewrite decide_False by lia. f_equal; lia.
  - rewrite decide_False by lia. f_equal; lia.
Qed.

(** X18. [getCollectionStats] counts the marker triples: the entry of a
    collection is the number of [_collection] triples whose value is its
    name, and a collection without such a triple has no entry. The database
    is not changed. *)
Theorem X18_getCollectionStats_counts_the_collection_markers :
  forall (db : DB.t) (name : JsValue),
    let markers :=
      TripleStoreTransaction.findByAttribute [AStr "_collection"]
        (TripleStore.begin None (DB.tripleStore db)) in
    let n := length (filter (fun triple => value triple = name) markers) in
    exists stats,
      DB.getCollectionStats db = (inr stats, db)
      /\ jsMapGet name stats =
         if decide (n = 0) then None else Some (Z.of_nat n).
Proof.
  intros db name markers n. eexists. split; [reflexivity|].
  fold markers. rewrite foldl_countEntity_get. cbv zeta. fold n.
  destruct (decide (n = 0)); [reflexivity|].
  cbn [jsMapGet default from_option Datatypes.id]. f_equal.
Qed.

(** ** More on inserting *)



(** ** Renaming back *)

Lemma renamedRow_prefix (newAttribute : Attribute) (n : nat) (row : TripleRow) :
  newAttribute `prefix_of` attribute (renamedRow newAttribute n row).
Proof. exists (drop n (attribute row)). reflexivity. Qed.

Lemma renamedRow_back (c p q : string) (row : TripleRow) :
  [AStr c; AStr p] `prefix_of` attribute row ->
  renamedRow [AStr c; AStr p] 2 (renamedRow [AStr c; AStr q] 2 row) = row.
Proof.
  intros [suffix Hattr]. destruct row as [i a v ts ex].
  cbn [attribute] in Hattr. subst a. reflexivity.
Qed.

Lemma renameRows_back (c p q : string) (rows : list TripleRow) :
  (forall row, row ∈ rows -> ~ [AStr c; AStr q] `prefix_of` attribute row) ->
  forall row, row ∈ renameRows c q p (renameRows c p q rows) <-> row ∈ rows.
Proof.
  intros Hfree row. rewrite renameRows_elem. split.
  - intros [[Hin Hnotq] | (r1 & Hin & Hq & ->)].
    + apply renameRows_elem in Hin as [[Hin _] | (r0 & _ & _ & ->)];
        [exact Hin|].
      exfalso. apply Hnotq. apply renamedRow_prefix.
    + apply renameRows_elem in Hin as [[Hin _] | (r0 & Hin & Hp & ->)].
      * exfalso. exact (Hfree r1 Hin Hq).
      * rewrite renamedRow_back by exact Hp. exact Hin.
  - intros Hin.
    destruct (decide ([AStr c; AStr p] `prefix_of` attribute row)) as [Hp | Hp].
    + right. exists (renamedRow [AStr c; AStr q] 2 row). split; [|split].
      * apply renameRows_elem. right. exists row. auto.
      * apply renamedRow_prefix.
      * symmetry. apply renamedRow_back. exact Hp.
    + left. split; [|exact (Hfree row Hin)].
      apply renameRows_elem. left. auto.
Qed.

(** X20. Renaming an attribute and then renaming it back gives every
    storage scope the triples that it had, when no triple of the store was
    below the new name to begin with. *)
Theorem X20_renaming_back_restores_the_triples :
  forall `{External} (c p q : string) (tx : TripleStoreTransaction.t),
    (forall k rows row,
       storage (TripleStoreTransaction.data tx) !! k = Some rows ->
       row ∈ rows -> ~ [AStr c; AStr q] `prefix_of` attribute row) ->
    exists tx',
      (DBTransaction.renameAttribute c p q ;;;
       DBTransaction.renameAttribute c q p) tx = (inr tt, tx')
      /\ forall k rows,
           storage (TripleStoreTransaction.data tx) !! k = Some rows ->
           exists rows',
             storage (TripleStoreTransaction.data tx') !! k = Some rows'
             /\ forall row, row ∈ rows' <-> row ∈ rows.
Proof.
  intros ext c p q tx Hfree.
  destruct (renameAttribute_run c p q tx) as (tx1 & Hrun1 & Hstorage1 & _).
  destruct (renameAttribute_run c q p tx1) as (tx2 & Hrun2 & Hstorage2 & _).
  exists tx2. split.
  - unfold bind. rewrite Hrun1. exact Hrun2.
  - intros k rows Hrows.
    exists (renameRows c q p (renameRows c p q rows)). split.
    + rewrite Hstorage2, Hstorage1, !lookup_fmap, Hrows. reflexivity.
    + apply renameRows_back. intros row Hin. exact (Hfree k rows row Hrows Hin).
Qed.

Lemma X20_renaming_back_restores_the_triples_witness :
  let tx := TripleStore.begin None (DB.tripleStore Example.emptyDb) in
  exists tx',
    (DBTransaction.renameAttribute (H := Reference.collaborators)
       "users" "name" "fullName" ;;;
     DBTransaction.renameAttribute (H := Reference.collaborators)
       "users" "fullName" "name")
      (TripleStoreTransaction.setValue "users#u1" [AStr "users"; AStr "name"]
         (JStr "x") tx) = (inr tt, tx')
    /\ forall k rows,
         storage
           (TripleStoreTransaction.data
              (TripleStoreTransaction.setValue "users#u1"
                 [AStr "users"; AStr "name"] (JStr "x") tx)) !! k = Some rows ->
         exists rows',
           storage (TripleStoreTransaction.data tx') !! k = Some rows'
           /\ forall row, row ∈ rows' <-> row ∈ rows.
Proof.
  intros tx.
  apply (X20_renaming_back_restores_the_triples (H := Reference.collaborators)
           "users" "name" "fullName").
  intros k rows row Hrows Hin.
  assert (Hstorage :
    storage
      (TripleStoreTransaction.data
         (TripleStoreTransaction.setValue "users#u1"
            [AStr "users"; AStr "name"] (JStr "x") tx)) =
    {[ "default" := [ {| id := "users#u1";
                         attribute := [AStr "users"; AStr "name"];
                         value := JStr "x"; timestamp := (1%nat, "alice");
                         expired := false |} ] ]}).
  { vm_compute. reflexivity. }
  rewrite Hstorage in Hrows.
  apply lookup_singleton_Some in Hrows as [_ <-].
  apply list_elem_of_singleton in Hin. subst row.
  intros [suffix Hsuffix]. discriminate.
Defined.

(** ** Read rules in a query *)

(** X21. The query that [fetch] and [subscribe] resolve, once the read
    rules are added to it: the filters of the query come first, resolved,
    then the filters of the read rules, resolved with the same variables,
    so that the [vars] of the query also bind (and shadow) the variables
    that the read rules mention. A filter of the query is never dropped. *)
Theorem X21_read_rules_are_resolved_in_the_scope_of_the_query :
  forall (variables : option Variables) (query : CollectionQuery)
         (schema : CollectionSchema) (readRules : list Rule),
    let merged := mergeVariables variables (vars query) in
    readRulesOf (Some schema) = Some readRules ->
    (replaceVariablesInQuery variables
       (DBTransaction.addReadRulesToQuery query schema)).1 =
    match (replaceVariablesInFilterStatements (where_ query) merged).1 with
    | inl e => inl e
    | inr own =>
        match (replaceVariablesInFilterStatements (ruleFilters readRules)
                 merged).1 with
        | inl e => inl e
        | inr fromRules =>
            inr {| collectionName := collectionName query;
                   where_ := own ++ fromRules; vars := vars query |}
        end
    end.
Proof.
  intros variables query schema readRules merged Hrules.
  unfold DBTransaction.addReadRulesToQuery. rewrite Hrules.
  rewrite replaceVariablesInQuery_result. cbn [where_ vars collectionName].
  fold merged. rewrite replaceVariablesInFilterStatements_app.
  destruct (replaceVariablesInFilterStatements (where_ query) merged)
    as [[e|own] own1]; [reflexivity|].
  destruct (replaceVariablesInFilterStatements (ruleFilters readRules) merged)
    as [[e|fromRules] rules1]; reflexivity.
Qed.

Lemma X21_read_rules_are_resolved_in_the_scope_of_the_query_witness :
  let ownedBy := {| rule_filter := [FilterStatement "owner" "=" (JStr "$user")];
                    rule_description := None |} in
  (replaceVariablesInQuery (Some {[ "user" := JStr "alice" ]})
     (DBTransaction.addReadRulesToQuery
        {| collectionName := Some "posts"; where_ := [];
           vars := Some {[ "user" := JStr "bob" ]} |}
        {| attributes := None;
           rules := Some {| read := Some [ownedBy]; write := None |} |})).1 =
  inr {| collectionName := Some "posts";
         where_ := [FilterStatement "owner" "=" (JStr "bob")];
         vars := Some {[ "user" := JStr "bob" ]} |}.
Proof.
  intros ownedBy.
  rewrite (X21_read_rules_are_resolved_in_the_scope_of_the_query
             (Some {[ "user" := JStr "alice" ]})
             {| collectionName := Some "posts"; where_ := [];
                vars := Some {[ "user" := JStr "bob" ]} |}
             {| attributes := None;
                rules := Some {| read := Some [ownedBy]; write := None |} |}
             [ownedBy] eq_refl).
  vm_compute. reflexivity.
Defined.

(** ** The refs of [useQuery] *)

Section UseQueryProperties.
Context {Query : Type}.

Local Abbreviation State := (@UseQuery.State Query).
Local Abbreviation Event := (@UseQuery.Event Query).

Lemma useQuery_answered_step (s : State) (e : Event) :
  (UseQuery.hasResponseFromServer s = true -> UseQuery.fetchingRemote s = false) ->
  UseQuery.hasResponseFromServer (UseQuery.step s e) = true ->
  UseQuery.fetchingRemote (UseQuery.step s e) = false.
Proof.
  intros Hinv. destruct e as [b | status | r | err | | q];
    cbn [UseQuery.step]; try exact Hinv; try reflexivity; try discriminate.
  destruct (String.eqb status "CLOSING" || String.eqb status "CLOSED");
    [reflexivity|].
  destruct (String.eqb status "OPEN");
    destruct (UseQuery.hasResponseFromServer s) eqn:Hanswered;
    cbn [andb negb UseQuery.hasResponseFromServer UseQuery.fetchingRemote];
    intros Hstep; first [congruence | apply Hinv; reflexivity].
Qed.

Lemma useQuery_answered (s : State) (events : list Event) :
  (UseQuery.hasResponseFromServer s = true -> UseQuery.fetchingRemote s = false) ->
  UseQuery.hasResponseFromServer (UseQuery.run s events) = true ->
  UseQuery.fetchingRemote (UseQuery.run s events) = false.
Proof.
  revert s. unfold UseQuery.run.
  induction events as [|e events IH]; intros s Hinv; [exact Hinv|].
  cbn [foldl]. apply IH. apply useQuery_answered_step. exact Hinv.
Qed.

(** X22. Whatever the client delivers, and in whatever order: while the
    composable holds that the server has answered the query,
    [fetchingRemote] is [false]. A connection that opens again does not
    show the query as fetching remotely, until [updateQuery] is called. *)
Theorem X22_useQuery_answered_query_is_not_fetching_remotely :
  forall (query : Query) (connectionStatus : string) (events : list Event),
    let s := UseQuery.run (UseQuery.init query connectionStatus) events in
    UseQuery.hasResponseFromServer s = true ->
    UseQuery.fetchingRemote s = false.
Proof.
  intros query connectionStatus events s. apply useQuery_answered.
  discriminate.
Qed.

Lemma useQuery_settled_step (s : State) (e : Event) :
  UseQuery.isUpdateQuery e = false ->
  UseQuery.fetchingLocal s = false /\ UseQuery.hasResponseFromServer s = true
  /\ UseQuery.fetchingRemote s = false ->
  UseQuery.fetchingLocal (UseQuery.step s e) = false
  /\ UseQuery.hasResponseFromServer (UseQuery.step s e) = true
  /\ UseQuery.fetchingRemote (UseQuery.step s e) = false.
Proof.
  intros Hevent (Hlocal & Hanswered & Hremote).
  destruct e as [b | status | r | err | | q]; cbn [UseQuery.step];
    try discriminate; try (repeat split; assumption).
  destruct (String.eqb status "CLOSING" || String.eqb status "CLOSED");
    [repeat split; assumption|].
  rewrite Hanswered, andb_false_r. repeat split; assumption.
Qed.

(** X23. Once the local results have come and the server has answered,
    [fetching] stays [false] through every later event (new results,
    errors, connection changes, the answer about the first fetch) up to the
    next [updateQuery]. *)
Theorem X23_useQuery_fetching_settles :
  forall (s : State) (events : list Event),
    UseQuery.fetchingLocal s = false ->
    UseQuery.hasResponseFromServer s = true ->
    UseQuery.fetchingRemote s = false ->
    existsb UseQuery.isUpdateQuery events = false ->
    UseQuery.fetching (UseQuery.run s events) = false
    /\ UseQuery.builtQuery (UseQuery.run s events) = UseQuery.builtQuery s.
Proof.
  intros s events Hlocal Hanswered Hremote. revert s Hlocal Hanswered Hremote.
  unfold UseQuery.run.
  induction events as [|e events IH]; intros s Hlocal Hanswered Hremote Hevents.
  - unfold UseQuery.fetching. cbn [foldl].
    rewrite Hlocal, Hremote, andb_false_r. split; reflexivity.
  - cbn [existsb] in Hevents. apply orb_false_iff in Hevents as [He Hevents].
    cbn [foldl].
    destruct (useQuery_settled_step s e He (conj Hlocal (conj Hanswered Hremote)))
      as (Hlocal' & Hanswered' & Hremote').
    destruct (IH _ Hlocal' Hanswered' Hremote' Hevents) as [Hfetching Hquery].
    split; [exact Hfetching|]. rewrite Hquery.
    destruct e as [b | status | r | err | | q]; cbn [UseQuery.step];
      try reflexivity; try discriminate.
    destruct (String.eqb status "CLOSING" || String.eqb status "CLOSED");
      [reflexivity|].
    destruct (String.eqb status "OPEN" && negb (UseQuery.hasResponseFromServer s));
      reflexivity.
Qed.

End UseQueryProperties.

Lemma X22_useQuery_answered_query_is_not_fetching_remotely_witness :
  UseQuery.fetchingRemote
    (UseQuery.run (UseQuery.init tt "CONNECTING")
       [UseQuery.RemoteFulfilled; UseQuery.ConnectionStatusChange "CLOSED";
        UseQuery.ConnectionStatusChange "OPEN"]) = false.
Proof.
  apply (X22_useQuery_answered_query_is_not_fetching_remotely tt "CONNECTING"
           [UseQuery.RemoteFulfilled; UseQuery.ConnectionStatusChange "CLOSED";
            UseQuery.ConnectionStatusChange "OPEN"]).
  reflexivity.
Defined.

Lemma X23_useQuery_fetching_settles_witness :
  let s := UseQuery.run (UseQuery.init tt "OPEN")
             [UseQuery.Results (JArr []); UseQuery.RemoteFulfilled] in
  let events := [UseQuery.ConnectionStatusChange "OPEN";
                 UseQuery.FirstFetchResolved true;
                 UseQuery.SubscriptionError (JStr "offline")] in
  UseQuery.fetching (UseQuery.run s events) = false
  /\ UseQuery.builtQuery (UseQuery.run s events) = UseQuery.builtQuery s.
Proof.
  intros s events.
  apply (X23_useQuery_fetching_settles s events); reflexivity.
Defined.

(** ** The write rules of an update *)

Lemma stageChanges_metadata (collectionName fullEntityId : string)
  (changes : ChangeTracker) (tx : TripleStoreTransaction.t) :
  metadata
    (TripleStoreTransaction.data
       (DBTransaction.stageChanges collectionName fullEntityId changes tx).2) =
  metadata (TripleStoreTransaction.data tx).
Proof.
  revert tx. unfold DBTransaction.stageChanges.
  induction changes as [|[path v] more IH]; intros tx; [reflexivity|].
  cbn [forEach]. unfold bind, modify. rewrite IH. reflexivity.
Qed.

(** X24. [update] on a collection that has write rules and no read rules:
    the updater works on the plain object of the stored entity; after its
    changes are staged, the stored entity is read again, without its
    timestamps, and tested against the filters of the write rules. If it
    matches, the transaction commits with the staged changes; if not,
    [update] throws [WriteRuleError] and the database is as it was. *)
Theorem X24_update_enforces_the_write_rules_without_read_rules :
  forall `{External} (collectionName entityId : string)
         (updater : DBTransaction.Updater) (storeScope : option StorageScope)
         (db : DB.t) (storeSchema : StoreSchema) (schema : CollectionSchema)
         (rule : Rule) (rest : list Rule) (changes : ChangeTracker)
         (filters : QueryWhere),
    let variables := Some (DB.variables db) in
    let fullEntityId := appendCollectionToId collectionName entityId in
    let tx0 := TripleStore.begin storeScope (DB.tripleStore db) in
    let before :=
      constructEntity (TripleStoreTransaction.findByEntity fullEntityId tx0) in
    let tx1 :=
      (DBTransaction.stageChanges collectionName fullEntityId changes tx0).2 in
    let after :=
      constructEntity (TripleStoreTransaction.findByEntity fullEntityId tx1) in
    readSchema
      (metadataTuples (metadata (TripleStore.data (DB.tripleStore db))))
      = Some storeSchema ->
    collections storeSchema !! collectionName = Some schema ->
    readRulesOf (Some schema) = None ->
    writeRulesOf (Some schema) = Some (rule :: rest) ->
    truthy before = true ->
    truthy (timestampedObjectToPlainObject before) = true ->
    updater (DBTransaction.createUpdateProxy
               (timestampedObjectToPlainObject before) (Some schema) "") []
      = (inr tt, changes) ->
    truthy after = true ->
    (replaceVariablesInFilterStatements (ruleFilters (rule :: rest))
       (mergeVariables variables None)).1 = inr filters ->
    DB.update collectionName entityId updater storeScope db =
    if doesEntityObjMatchWhere
         (objectToTimestampedObject (timestampedObjectToPlainObject after))
         filters (Some schema)
    then (inr (TripleStoreTransaction.commitTimestamp tx1),
          withStore (TripleStore.commit tx1 (DB.tripleStore db)) db)
    else (inl (WriteRuleError "Update does not match write rules"), db).
Proof.
  intros ext collectionName entityId updater storeScope db storeSchema schema
    rule rest changes filters variables fullEntityId tx0 before tx1 after
    Hschema Hcollection Hread Hwrite Hbefore Hplain Hupdater Hafter Hvars.
  apply (DB_update_checked collectionName entityId updater storeScope db
           storeSchema schema rule rest
           (timestampedObjectToPlainObject before)
           (timestampedObjectToPlainObject after) changes filters
           Hschema Hcollection Hwrite).
  - rewrite DBTransaction_fetchById_run. cbv zeta.
    fold tx0 fullEntityId before.
    change (metadata (TripleStoreTransaction.data tx0))
      with (metadata (TripleStore.data (DB.tripleStore db))).
    rewrite Hschema, Hcollection, Hbefore. cbn [negb default from_option].
    change (Datatypes.id schema) with schema. rewrite Hread. reflexivity.
  - exact Hplain.
  - exact Hupdater.
  - rewrite DBTransaction_fetchById_run. cbv zeta.
    fold tx0 fullEntityId tx1 after.
    unfold tx1 at 1. rewrite stageChanges_metadata.
    change (metadata (TripleStoreTransaction.data tx0))
      with (metadata (TripleStore.data (DB.tripleStore db))).
    rewrite Hschema, Hcollection, Hafter. cbn [negb default from_option].
    change (Datatypes.id schema) with schema. rewrite Hread. reflexivity.
  - exact Hvars.
Qed.

Lemma X24_update_enforces_the_write_rules_without_read_rules_witness :
  DB.update (H := Reference.collaborators) "posts" "p1"
    (Example.emptyTitle (H := Reference.collaborators)) None Example.postsDb =
  (inl (WriteRuleError "Update does not match write rules"), Example.postsDb).
Proof.
  rewrite (X24_update_enforces_the_write_rules_without_read_rules
             (H := Reference.collaborators) "posts" "p1"
             (Example.emptyTitle (H := Reference.collaborators)) None
             Example.postsDb Example.postsStoreSchema Example.postsSchema
             Example.titledPosts [] [("/title", JStr "")]
             [FilterStatement "title" "!=" (JStr "")]);
    [|vm_compute; reflexivity ..].
  match goal with
  | |- (if ?test then _ else _) = _ =>
      assert (Hmatch : test = false) by (vm_compute; reflexivity);
      rewrite Hmatch
  end.
  reflexivity.
Defined.

(** ** Resolution in place *)

Lemma zip_with_keepStatement_groups (statements resolved : QueryWhere) :
  forallb (fun f => negb (isStatement f)) statements = true ->
  length resolved = length statements ->
  zip_with keepStatement statements resolved = resolved.
Proof.
  revert resolved. induction statements as [|f rest IH];
    intros [|r resolved] Hgroups Hlength; try discriminate; [reflexivity|].
  cbn [forallb] in Hgroups. apply andb_true_iff in Hgroups as [Hf Hrest].
  cbn [zip_with]. rewrite IH by (auto; cbn in Hlength; lia).
  destruct f; [discriminate | reflexivity].
Qed.

(** X25. Resolution writes into the clause that it is given. After a call
    that returns, the statements at the top of that clause are as they
    were, and each group in it is the group that was returned, with the
    values of the variables in place of the [$]-strings. So a clause of
    groups that is resolved a second time, with whatever variables, gives
    the values of the first resolution again (when these are not
    [$]-strings themselves). *)
Theorem X25_resolution_rewrites_the_groups_in_place :
  forall (variables : Variables) (statements resolved : QueryWhere),
    (replaceVariablesInFilterStatements statements variables).1 = inr resolved ->
    let left := (replaceVariablesInFilterStatements statements variables).2 in
    left = zip_with keepStatement statements resolved
    /\ (forallb (fun f => negb (isStatement f)) statements = true ->
        existsb mentionsVariable resolved = false ->
        forall variables',
          replaceVariablesInFilterStatements left variables' =
          (inr resolved, resolved)).
Proof.
  intros variables statements resolved Hrun left. unfold left. clear left.
  destruct (replaceVariablesInFilterStatements statements variables)
    as [r statements1] eqn:Hpair.
  cbn [fst snd] in *. subst r.
  pose proof (proj2 (resolution_in_place variables) _ _ _ Hpair) as Hleft.
  split; [exact Hleft|].
  intros Hgroups Hvalues variables'.
  destruct (proj2 (resolution_shape variables) _ _ _ Hpair) as [_ Hshape].
  specialize (Hshape resolved eq_refl).
  assert (Hlength : length resolved = length statements).
  { rewrite <- (length_map filterShape resolved), Hshape, length_map.
    reflexivity. }
  rewrite Hleft, (zip_with_keepStatement_groups _ _ Hgroups Hlength).
  apply (proj2 (resolution_variable_free variables')). exact Hvalues.
Qed.

Lemma X25_resolution_rewrites_the_groups_in_place_witness :
  let ownedBy :=
    [FilterGroup "and" [FilterStatement "owner" "=" (JStr "$user")]] in
  replaceVariablesInFilterStatements
    (replaceVariablesInFilterStatements ownedBy {[ "user" := JStr "ann" ]}).2
    {[ "user" := JStr "bob" ]} =
  (inr [FilterGroup "and" [FilterStatement "owner" "=" (JStr "ann")]],
   [FilterGroup "and" [FilterStatement "owner" "=" (JStr "ann")]]).
Proof.
  intros ownedBy.
  assert (Hrun :
    (replaceVariablesInFilterStatements ownedBy {[ "user" := JStr "ann" ]}).1 =
    inr [FilterGroup "and" [FilterStatement "owner" "=" (JStr "ann")]])
    by (vm_compute; reflexivity).
  apply (proj2 (X25_resolution_rewrites_the_groups_in_place
                  {[ "user" := JStr "ann" ]} ownedBy
                  [FilterGroup "and" [FilterStatement "owner" "=" (JStr "ann")]]
                  Hrun));
    reflexivity.
Defined.
